(** * reclaim-mcp-server: local-time resolution and duration normalisation

    A shallow embedding of the date/time resolver ([parseDeadline],
    [zonedTimeToUtc], [assertValidLocalDateTime]) and of the chunk
    normaliser ([minutesToChunks], [normalizeChunkInputs],
    [applyTaskDefaultsForCreate], [normalizeTaskPatch],
    [validateChunkSizes]) of [src/reclaim-client.ts] and
    [src/tools/taskCrud.ts], followed by the properties the
    specification states about them.

    Conventions of the embedding
    - a JavaScript number is an integer [Z]: the tool schema admits
      integers only ([z.number().int()]) and every number computed from a
      date is an integral count of milliseconds;
    - a JavaScript string is a [string] of 8-bit code units;
    - a task object is a finite map from property names to values;
    - a [throw] is the [Throw] outcome of the [Outcome] monad;
    - a property holding a value outside the type TypeScript declares for
      it (a string where a number is computed with, say) is outside what
      the tool schema lets through; where the source would go on with a
      coerced value or a [TypeError], the embedding stops with
      [NotOfDeclaredType];
    - the engine's services (time-zone database, [Date.parse], the clock,
      the host's local zone, the process environment) are the fields of a
      [Host] record. *)

From Stdlib Require Import ZArith Lia Bool List Ascii String.
From stdpp Require Import base option list gmap strings fin_maps pretty.

Local Open Scope Z_scope.

Ltac Zify.zify_post_hook ::= Z.to_euclidean_division_equations.

(** ** ECMAScript date arithmetic

    [Date.UTC], [getUTCFullYear] and friends are engine built-ins. They are
    modelled by the proleptic Gregorian calendar, computed per 400-year era
    (146097 days), day 0 being 1970-01-01. *)

Definition msPerDay : Z := 86400000.
Definition msPerHour : Z := 3600000.
Definition msPerMinute : Z := 60000.
Definition msPerSecond : Z := 1000.

Definition Day (t : Z) : Z := t / msPerDay.
Definition TimeWithinDay (t : Z) : Z := t mod msPerDay.

(** Day number of the civil date [y]-[m]-[d] ([m] in 1..12). The day of the
    month enters linearly, so an overflowing [d] runs into the following
    months, as [MakeDay] prescribes. *)
Definition days_from_civil (y m d : Z) : Z :=
  let y' := if m <=? 2 then y - 1 else y in
  let era := y' / 400 in
  let yoe := y' mod 400 in
  let mp := if m <=? 2 then m + 9 else m - 3 in
  let doy := (153 * mp + 2) / 5 + d - 1 in
  let doe := yoe * 365 + yoe / 4 - yoe / 100 + doy in
  era * 146097 + doe - 719468.

(** Civil date [(y, m, d)] of a day number, [m] in 1..12. *)
Definition civil_from_days (z : Z) : Z * Z * Z :=
  let z' := z + 719468 in
  let era := z' / 146097 in
  let doe := z' mod 146097 in
  let yoe := (doe - doe / 1460 + doe / 36524 - doe / 146096) / 365 in
  let doy := doe - (365 * yoe + yoe / 4 - yoe / 100) in
  let mp := (5 * doy + 2) / 153 in
  let d := doy - (153 * mp + 2) / 5 + 1 in
  let m := if mp <? 10 then mp + 3 else mp - 9 in
  (yoe + era * 400 + (if m <=? 2 then 1 else 0), m, d).

Definition YearFromTime (t : Z) : Z := fst (fst (civil_from_days (Day t))).
(** Zero-based, as in ECMAScript. *)
Definition MonthFromTime (t : Z) : Z := snd (fst (civil_from_days (Day t))) - 1.
Definition DateFromTime (t : Z) : Z := snd (civil_from_days (Day t)).
Definition HourFromTime (t : Z) : Z := (t / msPerHour) mod 24.
Definition MinFromTime (t : Z) : Z := (t / msPerMinute) mod 60.
Definition SecFromTime (t : Z) : Z := (t / msPerSecond) mod 60.
Definition msFromTime (t : Z) : Z := t mod msPerSecond.

Definition MakeTime (hour min sec ms : Z) : Z :=
  hour * msPerHour + min * msPerMinute + sec * msPerSecond + ms.

(** [month] is zero-based and may lie outside 0..11. *)
Definition MakeDay (year month date : Z) : Z :=
  let ym := year + month / 12 in
  let mn := month mod 12 in
  days_from_civil ym (mn + 1) 1 + date - 1.

Definition MakeDate (day time : Z) : Z := day * msPerDay + time.

(** [None] stands for [NaN], the time value of an invalid [Date]. *)
Definition TimeClip (time : Z) : option Z :=
  if Z.abs time <=? 8640000000000000 then Some time else None.

(** [Date.UTC(year, month, date, hours, minutes, seconds, ms)], including
    the rule that maps the years 0..99 to 1900..1999. The final [TimeClip]
    is left out: every call site passes a year of at most four digits, for
    which it is the identity (lemma [Date_UTC_TimeClip]). *)
Definition Date_UTC (year month date hours minutes seconds ms : Z) : Z :=
  let yr := if (0 <=? year) && (year <=? 99) then 1900 + year else year in
  MakeDate (MakeDay yr month date) (MakeTime hours minutes seconds ms).

(** The Gregorian month lengths, stated independently of the day-number
    arithmetic above. *)
Definition isLeapYear (y : Z) : bool :=
  (y mod 4 =? 0) && (negb (y mod 100 =? 0) || (y mod 400 =? 0)).

Arguments isLeapYear y : simpl never.

Definition DaysInMonth (y m : Z) : Z :=
  if m =? 2 then (if isLeapYear y then 29 else 28)
  else if (m =? 4) || (m =? 6) || (m =? 9) || (m =? 11) then 30
  else 31.

(** ** JavaScript values, objects and exceptions *)

Inductive JSValue : Type :=
  | VUndefined
  | VNull
  | VBool (b : bool)
  | VNumber (n : Z)
  | VString (s : string).

Global Instance JSValue_eq_dec : EqDecision JSValue.
Proof. solve_decision. Defined.

(** An object is a finite map from property names to values; reading a
    missing property yields [undefined]. *)
Abbreviation JSObject := (gmap string JSValue).

Definition prop (o : JSObject) (k : string) : JSValue :=
  default VUndefined (o !! k).

(** [defaults?.k] on an object that may itself be [undefined]. *)
Definition optProp (o : option JSObject) (k : string) : JSValue :=
  match o with Some o => prop o k | None => VUndefined end.

(** [typeof v === "number"], [typeof v === "string"], [typeof v === "boolean"]. *)
Definition isNumber (v : JSValue) : bool :=
  match v with VNumber _ => true | _ => false end.
Definition isString (v : JSValue) : bool :=
  match v with VString _ => true | _ => false end.
Definition isBoolean (v : JSValue) : bool :=
  match v with VBool _ => true | _ => false end.

(** [v === undefined]. *)
Definition isUndefined (v : JSValue) : bool :=
  match v with VUndefined => true | _ => false end.

(** Truthiness, as tested by [if (v)], [!v] and [&&]. *)
Definition truthy (v : JSValue) : bool :=
  match v with
  | VUndefined | VNull => false
  | VBool b => b
  | VNumber n => negb (n =? 0)
  | VString s => negb (String.eqb s EmptyString)
  end.

(** [a ?? b]. *)
Definition nullish (a b : JSValue) : JSValue :=
  match a with VUndefined | VNull => b | _ => a end.

(** The text [s] between two double-quote characters. *)
Definition quoted (s : string) : string :=
  let dq := ascii_of_nat 34 in String dq (s +:+ String dq EmptyString).

(** Every [throw] site of the modelled code, one constructor each. *)
Inductive Thrown : Type :=
  | NotMultipleOfChunk (field : string)        (* minutesToChunks *)
  | LockRequiresDuration                       (* normalizeChunkInputs *)
  | ChunkSizeConflict (minChunkSize maxChunkSize : Z)  (* validateChunkSizes *)
  | InvalidTimeZone (timeZone : string)        (* assertValidTimeZone *)
  | InvalidDateTime (originalInput : string)   (* assertValidLocalDateTime *)
  | InvalidMonth (originalInput : string)
  | InvalidDay (originalInput : string)
  | InvalidHour (originalInput : string)
  | InvalidMinute (originalInput : string)
  | InvalidSecond (originalInput : string)
  | InvalidMilliseconds (originalInput : string)
  | InvalidDateFormat (deadlineInput : string) (* parseDeadline *)
  | InvalidTimeValue                           (* RangeError of toISOString *)
  | NotOfDeclaredType (property : string)      (* a value outside its TypeScript type *)
  | UpdateRequiresField                        (* reclaim_update_task handler *)
  | ApiCallFailed (context : string) (cause : Thrown).  (* handleApiError *)

Global Instance Thrown_eq_dec : EqDecision Thrown.
Proof. solve_decision. Defined.

Fixpoint message (e : Thrown) : string :=
  match e with
  | NotMultipleOfChunk field =>
      field +:+ " must be a multiple of 15 minutes. Example: 60 minutes = 4 chunks."
  | LockRequiresDuration =>
      "lockChunkSizeToDuration requires timeChunksRequired or durationMinutes."
  | ChunkSizeConflict a b =>
      "minChunkSize (" +:+ pretty a +:+ ") cannot be greater than maxChunkSize ("
        +:+ pretty b +:+ ")."
  | InvalidTimeZone tz =>
      "Invalid timeZone " +:+ quoted tz +:+ ". Use an IANA time zone like "
        +:+ quoted "America/Los_Angeles" +:+ "."
  | InvalidDateTime i => "Invalid date/time: " +:+ quoted i
  | InvalidMonth i => "Invalid month in date/time: " +:+ quoted i
  | InvalidDay i => "Invalid day in date/time: " +:+ quoted i
  | InvalidHour i => "Invalid hour in date/time: " +:+ quoted i
  | InvalidMinute i => "Invalid minute in date/time: " +:+ quoted i
  | InvalidSecond i => "Invalid second in date/time: " +:+ quoted i
  | InvalidMilliseconds i =>
      "Invalid milliseconds in date/time: " +:+ quoted i
  | InvalidDateFormat i => "Invalid date format: " +:+ quoted i
  | InvalidTimeValue => "Invalid time value"
  | NotOfDeclaredType p => p +:+ " is not of its declared type"
  | UpdateRequiresField => "Update requires at least one field to change besides taskId."
  | ApiCallFailed context cause =>
      "API Call Failed (" +:+ context +:+ "): " +:+ message cause
  end.

(** ** Outcomes: a value returned or an exception thrown *)

Inductive Outcome (A : Type) : Type :=
  | Ok (a : A)
  | Throw (e : Thrown).
Arguments Ok {A} a.
Arguments Throw {A} e.

Global Instance Outcome_ret : MRet Outcome := fun A a => Ok a.
Global Instance Outcome_bind : MBind Outcome := fun A B f c =>
  match c with Ok a => f a | Throw e => Throw e end.

(** [try { c } catch (error) { return handleApiError(error, context) }]. *)
Definition handleApiError {A} (context : string) (c : Outcome A) : Outcome A :=
  match c with Ok a => Ok a | Throw e => Throw (ApiCallFailed context e) end.

(** ** Strings *)

Definition isDigit (c : ascii) : bool :=
  let n := N_of_ascii c in ((48 <=? n) && (n <=? 57))%N.

(** [\s] of a regular expression and the characters removed by [trim],
    as far as they fit in eight bits: TAB, LF, VT, FF, CR, SP, NBSP. *)
Definition isWhiteSpace (c : ascii) : bool :=
  let n := N_of_ascii c in
  ((9 <=? n) && (n <=? 13) || (n =? 32) || (n =? 160))%N.

Fixpoint dropWhile {A} (p : A -> bool) (l : list A) : list A :=
  match l with
  | [] => []
  | x :: l' => if p x then dropWhile p l' else l
  end.

Definition trimStart (l : list ascii) : list ascii :=
  dropWhile isWhiteSpace l.
Definition trimEnd (l : list ascii) : list ascii :=
  rev (dropWhile isWhiteSpace (rev l)).
Definition trim (s : string) : string :=
  string_of_list_ascii (trimEnd (trimStart (list_ascii_of_string s))).

(** [toUpperCase] on the ASCII letters; other code units are kept. *)
Definition upperChar (c : ascii) : ascii :=
  let n := N_of_ascii c in
  if ((97 <=? n) && (n <=? 122))%N then ascii_of_N (n - 32) else c.
Definition toUpperCase (s : string) : string :=
  string_of_list_ascii (map upperChar (list_ascii_of_string s)).

(** [s.replace(/[\s-]+/g, "_")]: every maximal run of white space and
    hyphens becomes one underscore. *)
Fixpoint replaceSeparators (inRun : bool) (l : list ascii) : list ascii :=
  match l with
  | [] => []
  | c :: l' =>
      if isWhiteSpace c || Ascii.eqb c "-"
      then (if inRun then replaceSeparators true l'
            else "_"%char :: replaceSeparators true l')
      else c :: replaceSeparators false l'
  end.

(** [Number(s)] for a string of decimal digits. *)
Definition Number_of_digits (s : list ascii) : Z :=
  fold_left (fun acc c => 10 * acc + (Z.of_N (N_of_ascii c) - 48)) s 0.

(** [s.padEnd(3, "0")]. *)
Definition padEnd3 (s : list ascii) : list ascii :=
  s ++ repeat "0"%char (3 - length s).

(** [\d{n}] at the head of [l]: the digits and the rest. *)
Definition digits (n : nat) (l : list ascii) : option (list ascii * list ascii) :=
  let h := take n l in
  if (length h =? n)%nat && forallb isDigit h then Some (h, drop n l) else None.

(** The capture groups of [LOCAL_DATETIME_REGEX]; a group that did not
    take part in the match is [None] ([undefined] in JavaScript). *)
Record LocalMatch : Type := {
  yearRaw : list ascii;
  monthRaw : list ascii;
  dayRaw : list ascii;
  hourRaw : option (list ascii);
  minuteRaw : option (list ascii);
  secondRaw : option (list ascii);
  millisecondRaw : option (list ascii)
}.

(** [(?:\.(\d{1,3}))?$] *)
Definition matchFraction (l : list ascii) : option (option (list ascii)) :=
  match l with
  | [] => Some None
  | c :: f =>
      if Ascii.eqb c "." && (1 <=? length f)%nat && (length f <=? 3)%nat
         && forallb isDigit f
      then Some (Some f) else None
  end.

(** [(?::(\d{2})(?:\.(\d{1,3}))?)?$] *)
Definition matchSeconds (l : list ascii)
  : option (option (list ascii) * option (list ascii)) :=
  match l with
  | [] => Some (None, None)
  | c :: l' =>
      if Ascii.eqb c ":" then
        '(ss, r) ← digits 2 l'; f ← matchFraction r; Some (Some ss, f)
      else None
  end.

(** [(?::(\d{2})(?::(\d{2})(?:\.(\d{1,3}))?)?)?$] *)
Definition matchMinutes (l : list ascii)
  : option (option (list ascii) * option (list ascii) * option (list ascii)) :=
  match l with
  | [] => Some (None, None, None)
  | c :: l' =>
      if Ascii.eqb c ":" then
        '(mi, r) ← digits 2 l'; '(ss, f) ← matchSeconds r; Some (Some mi, ss, f)
      else None
  end.

(** [trimmed.match(LOCAL_DATETIME_REGEX)] with
    [/^(\d{4})-(\d{2})-(\d{2})(?:[T\s](\d{2})(?::(\d{2})(?::(\d{2})(?:\.(\d{1,3}))?)?)?)?$/].
    Every piece has a fixed width up to the closing fraction, so the regular
    expression matches exactly the strings read here from left to right. *)
Definition match_LOCAL_DATETIME_REGEX (s : string) : option LocalMatch :=
  '(yy, r) ← digits 4 (list_ascii_of_string s);
  match r with
  | c1 :: r =>
      if Ascii.eqb c1 "-" then
        '(mm, r) ← digits 2 r;
        match r with
        | c2 :: r =>
            if Ascii.eqb c2 "-" then
              '(dd, r) ← digits 2 r;
              match r with
              | [] => Some {| yearRaw := yy; monthRaw := mm; dayRaw := dd;
                              hourRaw := None; minuteRaw := None;
                              secondRaw := None; millisecondRaw := None |}
              | sep :: r =>
                  if Ascii.eqb sep "T" || isWhiteSpace sep then
                    '(hh, r) ← digits 2 r;
                    '(mi, ss, f) ← matchMinutes r;
                    Some {| yearRaw := yy; monthRaw := mm; dayRaw := dd;
                            hourRaw := Some hh; minuteRaw := mi;
                            secondRaw := ss; millisecondRaw := f |}
                  else None
              end
            else None
        | [] => None
        end
      else None
  | [] => None
  end.

(** [HAS_TIMEZONE_REGEX.test(s)] with [/([zZ]|[+-]\d{2}:\d{2})$/]. *)
Definition test_HAS_TIMEZONE_REGEX (s : string) : bool :=
  match rev (list_ascii_of_string s) with
  | [] => false
  | c :: r =>
      Ascii.eqb c "z" || Ascii.eqb c "Z" ||
      match c :: r with
      | m2 :: m1 :: colon :: h2 :: h1 :: sign :: _ =>
          isDigit m2 && isDigit m1 && Ascii.eqb colon ":" && isDigit h2
          && isDigit h1 && (Ascii.eqb sign "+" || Ascii.eqb sign "-")
      | _ => false
      end
  end.

(** [n] written with exactly [w] decimal digits ([0 <= n]). *)
Fixpoint fixedWidth (w : nat) (n : Z) : string :=
  match w with
  | O => EmptyString
  | S w' => fixedWidth w' (n / 10) +:+ String (ascii_of_N (48 + Z.to_N (n mod 10))) EmptyString
  end.

(** [Date.prototype.toISOString] on a valid time value:
    [YYYY-MM-DDTHH:mm:ss.sssZ], the year with a sign and six digits outside
    0..9999. *)
Definition toISOString (t : Z) : string :=
  let y := YearFromTime t in
  (if (0 <=? y) && (y <=? 9999) then fixedWidth 4 y
   else (if y <? 0 then "-" else "+") +:+ fixedWidth 6 (Z.abs y))
  +:+ "-" +:+ fixedWidth 2 (MonthFromTime t + 1)
  +:+ "-" +:+ fixedWidth 2 (DateFromTime t)
  +:+ "T" +:+ fixedWidth 2 (HourFromTime t)
  +:+ ":" +:+ fixedWidth 2 (MinFromTime t)
  +:+ ":" +:+ fixedWidth 2 (SecFromTime t)
  +:+ "." +:+ fixedWidth 3 (msFromTime t) +:+ "Z".

(** [date.toISOString()] on a [Date] that may be invalid. *)
Definition Date_toISOString (d : option Z) : Outcome string :=
  match d with Some t => Ok (toISOString t) | None => Throw InvalidTimeValue end.


(** ** The host: what the code obtains from the engine and the process *)

Record Host : Type := {
  (** [new Date()]: the time value of the clock. *)
  now : Z;
  (** The time-zone database behind [Intl.DateTimeFormat]: [None] for an
      identifier the engine rejects, otherwise the zone's offset from UTC,
      in milliseconds, at a UTC time value. *)
  timeZoneDatabase : string -> option (Z -> Z);
  (** [Intl.DateTimeFormat().resolvedOptions().timeZone]. *)
  hostTimeZone : string;
  (** [LocalTZA(t, isUTC)] of ECMAScript for the host's local zone: the
      offset at the UTC time value [t], or the one at the local time value
      [t] when [isUTC] is false. *)
  LocalTZA : Z -> bool -> Z;
  (** The time value of [new Date(string)]; [None] is [NaN]. *)
  Date_parse : string -> option Z;
  (** [process.env.MCP_DEFAULT_TIMEZONE]. *)
  MCP_DEFAULT_TIMEZONE : option string;
  (** The module variable [cachedAccountTimeZone], as left by
      [fetchAccountTimeZone]. *)
  cachedAccountTimeZone : option string
}.

Definition LocalTime (h : Host) (t : Z) : Z := t + LocalTZA h t true.
Definition UTC (h : Host) (t : Z) : Z := t - LocalTZA h t false.

(** [date.getDate()] and the time value left by [date.setDate(dt)]. *)
Definition Date_getDate (h : Host) (t : Z) : Z := DateFromTime (LocalTime h t).
Definition Date_setDate (h : Host) (t dt : Z) : option Z :=
  let lt := LocalTime h t in
  let newDate :=
    MakeDate (MakeDay (YearFromTime lt) (MonthFromTime lt) dt) (TimeWithinDay lt) in
  TimeClip (UTC h newDate).

(** [new Date(year, month, date, hours, minutes, seconds, ms)]: the
    components are read in the host's local zone. *)
Definition Date_local (h : Host) (year month date hours minutes seconds ms : Z)
  : option Z :=
  TimeClip (UTC h (Date_UTC year month date hours minutes seconds ms)).

(** ** Local date-time validation *)

Record TimeParts : Type := {
  year : Z;
  month : Z;
  day : Z;
  hour : Z;
  minute : Z;
  second : Z
}.

Definition outside (lo hi x : Z) : bool := (x <? lo) || (x >? hi).

(** [assertValidLocalDateTime(parts, originalInput)], the millisecond of
    [parts] passed separately. The [Number.isInteger] tests hold of every
    [Z]; the fields of an invalid [utcCheck] are [NaN] and differ from every
    component. *)
Definition assertValidLocalDateTime
    (parts : TimeParts) (millisecond : Z) (originalInput : string) : Outcome unit :=
  if outside 1 12 (month parts) then Throw (InvalidMonth originalInput)
  else if outside 1 31 (day parts) then Throw (InvalidDay originalInput)
  else if outside 0 23 (hour parts) then Throw (InvalidHour originalInput)
  else if outside 0 59 (minute parts) then Throw (InvalidMinute originalInput)
  else if outside 0 59 (second parts) then Throw (InvalidSecond originalInput)
  else if outside 0 999 millisecond then Throw (InvalidMilliseconds originalInput)
  else
    match TimeClip (Date_UTC (year parts) (month parts - 1) (day parts) (hour parts)
                      (minute parts) (second parts) millisecond) with
    | None => Throw (InvalidDateTime originalInput)
    | Some utcCheck =>
        if negb (YearFromTime utcCheck =? year parts)
           || negb (MonthFromTime utcCheck + 1 =? month parts)
           || negb (DateFromTime utcCheck =? day parts)
           || negb (HourFromTime utcCheck =? hour parts)
           || negb (MinFromTime utcCheck =? minute parts)
           || negb (SecFromTime utcCheck =? second parts)
           || negb (msFromTime utcCheck =? millisecond)
        then Throw (InvalidDateTime originalInput)
        else Ok tt
    end.

(** ** Resolving a wall-clock time in a zone

    The [timeZone] argument of the functions below is the zone itself: its
    offset function, looked up by [parseDeadline] once the identifier has
    passed [assertValidTimeZone]. *)

(** [getZonedParts(date, timeZone)]: the wall-clock fields the formatter
    prints for [date] in the zone, hours running 0..23; milliseconds are not
    among them. *)
Definition getZonedParts (date : Z) (timeZone : Z -> Z) : TimeParts :=
  let wall := date + timeZone date in
  {| year := YearFromTime wall;
     month := MonthFromTime wall + 1;
     day := DateFromTime wall;
     hour := HourFromTime wall;
     minute := MinFromTime wall;
     second := SecFromTime wall |}.

Definition partsToUtcMillis (parts : TimeParts) : Z :=
  Date_UTC (year parts) (month parts - 1) (day parts) (hour parts)
           (minute parts) (second parts) 0.

Definition partsMatch (a b : TimeParts) : bool :=
  (year a =? year b) && (month a =? month b) && (day a =? day b)
  && (hour a =? hour b) && (minute a =? minute b) && (second a =? second b).

Definition getTimeZoneOffset (date : Z) (timeZone : Z -> Z) : Z :=
  let parts := getZonedParts date timeZone in
  let asUtc := partsToUtcMillis parts in
  asUtc - date.

(** [Set<number>]: insertion-ordered, without duplicates. *)
Definition Set_add (x : Z) (s : list Z) : list Z :=
  if bool_decide (x ∈ s) then s else s ++ [x].

(** [Array.prototype.sort(compare)]: a stable sort; an element goes before
    the first one it does not compare greater than. *)
Fixpoint insertSorted {A} (compare : A -> A -> Z) (x : A) (l : list A) : list A :=
  match l with
  | [] => [x]
  | y :: l' => if compare x y <=? 0 then x :: l else y :: insertSorted compare x l'
  end.
Definition Array_sort {A} (compare : A -> A -> Z) (l : list A) : list A :=
  foldr (insertSorted compare) [] l.

Record Candidate : Type := { date : Z; parts : TimeParts }.
Record NaiveCandidate : Type := { candidate : Candidate; naive : Z }.

(** The candidate offsets of [zonedTimeToUtc]: the offset at the guess and
    those found around the instant it yields. The loop runs over a copy of
    the set taken before it was extended. *)
Definition candidateOffsets (utcGuessMillis : Z) (timeZone : Z -> Z) : list Z :=
  let offsets := Set_add (getTimeZoneOffset utcGuessMillis timeZone) [] in
  fold_left
    (fun offsets offset =>
       let candidate := utcGuessMillis - offset in
       let offsets := Set_add (getTimeZoneOffset candidate timeZone) offsets in
       let offsets :=
         Set_add (getTimeZoneOffset (candidate + 3600000) timeZone) offsets in
       Set_add (getTimeZoneOffset (candidate - 3600000) timeZone) offsets)
    offsets offsets.

Definition candidatesOf (utcGuessMillis : Z) (timeZone : Z -> Z) : list Candidate :=
  map (fun offset =>
         let date := utcGuessMillis - offset in
         {| date := date; parts := getZonedParts date timeZone |})
      (candidateOffsets utcGuessMillis timeZone).

(** The closing loop of [zonedTimeToUtc]; [None] is the initial
    [Number.POSITIVE_INFINITY]. *)
Definition closestCandidate (desiredNaive : Z) (candidates : list Candidate)
    (first : Candidate) : Candidate :=
  fst (fold_left
         (fun '(bestCandidate, bestDiff) candidate =>
            let candidateNaive := partsToUtcMillis (parts candidate) in
            let diff := Z.abs (candidateNaive - desiredNaive) in
            if match bestDiff with None => true | Some b => diff <? b end
            then (candidate, Some diff)
            else (bestCandidate, bestDiff))
         candidates (first, None)).

(** The two comparators handed to [sort]: by instant, and by distance
    from the desired wall-clock time, then by instant. *)
Definition compareDate (a b : Candidate) : Z := date a - date b.

Definition compareAfter (desiredNaive : Z) (a b : NaiveCandidate) : Z :=
  let aDelta := naive a - desiredNaive in
  let bDelta := naive b - desiredNaive in
  if negb (aDelta =? bDelta) then aDelta - bDelta
  else date (candidate a) - date (candidate b).

(** [zonedTimeToUtc(year, ..., millisecond, timeZone)]: the time value of
    the [Date] it returns. *)
Definition zonedTimeToUtc
    (year month day hour minute second millisecond : Z) (timeZone : Z -> Z) : Z :=
  let desiredParts :=
    {| year := year; month := month; day := day;
       hour := hour; minute := minute; second := second |} in
  let utcGuessMillis := Date_UTC year (month - 1) day hour minute second millisecond in
  let candidates := candidatesOf utcGuessMillis timeZone in
  let matching :=
    Array_sort compareDate
      (List.filter (fun candidate => partsMatch (parts candidate) desiredParts)
         candidates) in
  match matching with
  | first :: _ => date first
  | [] =>
      let desiredNaive := partsToUtcMillis desiredParts in
      let afterCandidates :=
        Array_sort (compareAfter desiredNaive)
          (List.filter (fun c => desiredNaive <=? naive c)
             (map (fun c => {| candidate := c; naive := partsToUtcMillis (parts c) |})
                candidates)) in
      match afterCandidates with
      | first :: _ => date (candidate first)
      | [] =>
          date (closestCandidate desiredNaive candidates
                  (hd {| date := utcGuessMillis;
                         parts := getZonedParts utcGuessMillis timeZone |}
                      candidates))
      end
  end.

(** ** parseDeadline *)

Definition nonEmpty (s : option string) : option string :=
  match s with
  | Some s => if String.eqb s EmptyString then None else Some s
  | None => None
  end.

(** [resolveTimeZone(timeZone)]. *)
Definition resolveTimeZone (h : Host) (timeZone : option string) : string :=
  match nonEmpty (trim <$> nonEmpty timeZone) with
  | Some tz => tz
  | None =>
      match nonEmpty (MCP_DEFAULT_TIMEZONE h) with
      | Some tz => tz
      | None =>
          match nonEmpty (cachedAccountTimeZone h) with
          | Some tz => tz
          | None => hostTimeZone h
          end
      end
  end.

(** [assertValidTimeZone(timeZone)], returning the zone it has found. *)
Definition assertValidTimeZone (h : Host) (timeZone : string) : Outcome (Z -> Z) :=
  match timeZoneDatabase h timeZone with
  | Some zone => Ok zone
  | None => Throw (InvalidTimeZone timeZone)
  end.

Definition optNumber (raw : option (list ascii)) : Z :=
  match raw with
  | Some (c :: r) => Number_of_digits (c :: r)
  | _ => 0
  end.

(** [parseDeadline(deadlineInput, options)], [options?.timeZone] being
    [timeZone]. *)
Definition parseDeadline (h : Host) (deadlineInput : JSValue)
    (timeZone : option string) : Outcome string :=
  match deadlineInput with
  | VNumber days =>
      if days <=? 0 then Ok (toISOString (now h))
      else Date_toISOString (Date_setDate h (now h) (Date_getDate h (now h) + days))
  | VString input =>
      let trimmed := trim input in
      if test_HAS_TIMEZONE_REGEX trimmed then
        match Date_parse h trimmed with
        | None => Throw (InvalidDateFormat input)
        | Some parsed => Ok (toISOString parsed)
        end
      else
        match match_LOCAL_DATETIME_REGEX trimmed with
        | Some m =>
            let year := Number_of_digits (yearRaw m) in
            let month := Number_of_digits (monthRaw m) in
            let day := Number_of_digits (dayRaw m) in
            let hour := optNumber (hourRaw m) in
            let minute := optNumber (minuteRaw m) in
            let second := optNumber (secondRaw m) in
            let millisecond := optNumber (padEnd3 <$> millisecondRaw m) in
            _ ← assertValidLocalDateTime
                  {| year := year; month := month; day := day;
                     hour := hour; minute := minute; second := second |}
                  millisecond input;
            let timeZone := resolveTimeZone h timeZone in
            if negb (String.eqb timeZone EmptyString) then
              zone ← assertValidTimeZone h timeZone;
              Date_toISOString
                (TimeClip (zonedTimeToUtc year month day hour minute second
                             millisecond zone))
            else
              match Date_local h year (month - 1) day hour minute second millisecond with
              | None => Throw (InvalidDateFormat input)
              | Some localDate => Ok (toISOString localDate)
              end
        | None =>
            match Date_parse h trimmed with
            | None => Throw (InvalidDateFormat input)
            | Some parsedFallback => Ok (toISOString parsedFallback)
            end
        end
  | _ =>
      Date_toISOString (Date_setDate h (now h) (Date_getDate h (now h) + 1))
  end.


(** ** Enumerated fields *)

Definition EVENT_CATEGORIES : list string := ["WORK"; "PERSONAL"].
Definition EVENT_SUBTYPES : list string :=
  ["ONE_ON_ONE"; "STAFF_MEETING"; "OP_REVIEW"; "EXTERNAL"; "IDEATION"; "FOCUS";
   "PRODUCTIVITY"; "TRAVEL"; "FLIGHT"; "TRAIN"; "RECLAIM"; "VACATION"; "HEALTH";
   "ERRAND"; "OTHER_PERSONAL"; "UNKNOWN"].
Definition EVENT_SUBTYPE_ALIASES : list (string * string) :=
  [("MEETING", "STAFF_MEETING"); ("1ON1", "ONE_ON_ONE"); ("ONEONONE", "ONE_ON_ONE");
   ("ONE-ON-ONE", "ONE_ON_ONE"); ("ONE_ON_ONE", "ONE_ON_ONE");
   ("PERSONAL", "OTHER_PERSONAL"); ("ERRANDS", "ERRAND"); ("FOCUS_TIME", "FOCUS")].
Definition PERSONAL_SUBTYPES : list string :=
  ["OTHER_PERSONAL"; "ERRAND"; "HEALTH"; "VACATION"].

(** [set.has(x)]. *)
Definition has (set : list string) (x : string) : bool := bool_decide (x ∈ set).

(** [table[key]] on an object literal used as a table. *)
Fixpoint lookupAlias (table : list (string * string)) (key : string) : option string :=
  match table with
  | [] => None
  | (k, v) :: table' => if String.eqb k key then Some v else lookupAlias table' key
  end.

(** [normalizeEnumValue(value)]; the parameter is declared [string |
    undefined], and a truthy value of another type has no [trim]. *)
Definition normalizeEnumValue (value : JSValue) : Outcome (option string) :=
  if negb (truthy value) then Ok None
  else match value with
       | VString s =>
           Ok (Some (string_of_list_ascii
                       (replaceSeparators false
                          (list_ascii_of_string (toUpperCase (trim s))))))
       | _ => Throw (NotOfDeclaredType "value")
       end.

Definition normalizeEventCategory (value fallback : JSValue) : Outcome string :=
  normalized ← normalizeEnumValue (nullish value fallback);
  match normalized with
  | Some n => if has EVENT_CATEGORIES n then Ok n else Ok "WORK"
  | None => Ok "WORK"
  end.

(** The result is ["PERSONAL"] or [undefined]. *)
Definition inferCategoryFromSubType (subType : JSValue) : Outcome JSValue :=
  normalized ← normalizeEnumValue subType;
  match normalized with
  | Some n => if has PERSONAL_SUBTYPES n then Ok (VString "PERSONAL") else Ok VUndefined
  | None => Ok VUndefined
  end.

Definition isPLevel (s : string) : bool := has ["P1"; "P2"; "P3"; "P4"] s.

Definition normalizePriority (value fallback : JSValue) : Outcome string :=
  normalized ← normalizeEnumValue (nullish value fallback);
  match normalized with
  | Some n =>
      if String.eqb n EmptyString then Ok "P3"
      else if isPLevel n then Ok n
      else if String.eqb n "DEFAULT" then
        fallbackNormalized ← normalizeEnumValue fallback;
        match fallbackNormalized with
        | Some f => if isPLevel f then Ok f else Ok "P3"
        | None => Ok "P3"
        end
      else if String.eqb n "PRIORITIZE" then Ok "P1"
      else Ok "P3"
  | None => Ok "P3"
  end.

Definition normalizeEventSubType (value : JSValue) (eventCategory : string)
  : Outcome string :=
  normalized ← normalizeEnumValue value;
  let fallback :=
    if String.eqb eventCategory "PERSONAL" then "OTHER_PERSONAL" else "FOCUS" in
  match normalized with
  | Some n =>
      if String.eqb n EmptyString then Ok fallback
      else if has EVENT_SUBTYPES n then Ok n
      else match lookupAlias EVENT_SUBTYPE_ALIASES n with
           | Some alias => if has EVENT_SUBTYPES alias then Ok alias else Ok fallback
           | None => Ok fallback
           end
  | None => Ok fallback
  end.

(** ** Chunk normalisation of the tool layer *)

Definition CHUNK_MINUTES : Z := 15.

(** [minutesToChunks(value, field)]; [%] is JavaScript's remainder, and the
    division is reached only when it is exact. *)
Definition minutesToChunks (value : Z) (field : string) : Outcome Z :=
  if negb (Z.rem value CHUNK_MINUTES =? 0) then Throw (NotMultipleOfChunk field)
  else Ok (Z.quot value CHUNK_MINUTES).

(** [if (typeof data[minutes] === "number") data[chunks] =
    minutesToChunks(data[minutes], minutes)]. *)
Definition convertMinutes (minutes chunks : string) (data : JSObject)
  : Outcome JSObject :=
  match prop data minutes with
  | VNumber value =>
      n ← minutesToChunks value minutes; Ok (<[chunks := VNumber n]> data)
  | _ => Ok data
  end.

(** [normalizeChunkInputs(input)]. *)
Definition normalizeChunkInputs (input : JSObject) : Outcome JSObject :=
  let data := input in
  data ← convertMinutes "durationMinutes" "timeChunksRequired" data;
  data ← convertMinutes "minDurationMinutes" "minChunkSize" data;
  data ← convertMinutes "maxDurationMinutes" "maxChunkSize" data;
  data ←
    (if truthy (prop data "lockChunkSizeToDuration") then
       if negb (isNumber (prop data "timeChunksRequired")) then
         Throw LockRequiresDuration
       else
         let data := <["minChunkSize" := prop data "timeChunksRequired"]> data in
         Ok (<["maxChunkSize" := prop data "timeChunksRequired"]> data)
     else Ok data);
  let data := delete "durationMinutes" data in
  let data := delete "minDurationMinutes" data in
  let data := delete "maxDurationMinutes" data in
  let data := delete "lockChunkSizeToDuration" data in
  let data := delete "startTime" data in
  let data := delete "timeZone" data in
  let data := delete "timezone" data in
  Ok data.

(** ** Normalisation in the client *)

(** A property declared [number]: the arithmetic of the client is modelled
    on numbers only. *)
Definition asNumber (property : string) (v : JSValue) : Outcome Z :=
  match v with
  | VNumber n => Ok n
  | _ => Throw (NotOfDeclaredType property)
  end.

(** [typeof v === "number" && v > 0]. *)
Definition isPositiveNumber (v : JSValue) : bool :=
  match v with VNumber n => 0 <? n | _ => false end.

(** [validateChunkSizes(payload)]. *)
Definition validateChunkSizes (payload : JSObject) : Outcome unit :=
  match prop payload "minChunkSize", prop payload "maxChunkSize" with
  | VNumber minChunkSize, VNumber maxChunkSize =>
      if minChunkSize >? maxChunkSize
      then Throw (ChunkSizeConflict minChunkSize maxChunkSize)
      else Ok tt
  | _, _ => Ok tt
  end.

(** The two closing steps shared by [applyTaskDefaultsForCreate] and
    [normalizeTaskPatch]: cap both bounds at [timeChunksRequired], then
    raise the maximum to the minimum where the minimum is larger. *)
Definition clampChunkSizes (output : JSObject) : Outcome JSObject :=
  output ←
    (if negb (isUndefined (prop output "timeChunksRequired")) then
       output ←
         (if negb (isUndefined (prop output "minChunkSize")) then
            a ← asNumber "minChunkSize" (prop output "minChunkSize");
            b ← asNumber "timeChunksRequired" (prop output "timeChunksRequired");
            Ok (<["minChunkSize" := VNumber (Z.min a b)]> output)
          else Ok output);
       (if negb (isUndefined (prop output "maxChunkSize")) then
          a ← asNumber "maxChunkSize" (prop output "maxChunkSize");
          b ← asNumber "timeChunksRequired" (prop output "timeChunksRequired");
          Ok (<["maxChunkSize" := VNumber (Z.min a b)]> output)
        else Ok output)
     else Ok output);
  if negb (isUndefined (prop output "minChunkSize"))
     && negb (isUndefined (prop output "maxChunkSize"))
  then
    a ← asNumber "minChunkSize" (prop output "minChunkSize");
    b ← asNumber "maxChunkSize" (prop output "maxChunkSize");
    if a >? b then Ok (<["maxChunkSize" := prop output "minChunkSize"]> output)
    else Ok output
  else Ok output.

(** [if (cond) output[k] = v]. *)
Definition setIf (cond : bool) (k : string) (v : JSValue) (output : JSObject)
  : JSObject :=
  if cond then <[k := v]> output else output.

(** [applyTaskDefaultsForCreate(taskData, defaults)], paragraph by
    paragraph. First the enumerated fields (category, sub-type, priority). *)
Definition defaultEnums (defaults : option JSObject) (output : JSObject)
  : Outcome JSObject :=
  inferredCategory ←
    (if isUndefined (prop output "eventCategory")
     then inferCategoryFromSubType (prop output "eventSubType")
     else Ok VUndefined);
  normalizedCategory ←
    normalizeEventCategory (prop output "eventCategory")
      (nullish inferredCategory (optProp defaults "category"));
  let output := <["eventCategory" := VString normalizedCategory]> output in
  subType ← normalizeEventSubType (prop output "eventSubType") normalizedCategory;
  let output := <["eventSubType" := VString subType]> output in
  priority ← normalizePriority (prop output "priority") (optProp defaults "priority");
  Ok (<["priority" := VString priority]> output).

(** Then [onDeck], [alwaysPrivate], [notes] and [timeSchemeId]. *)
Definition defaultFlags (defaults : option JSObject) (output : JSObject) : JSObject :=
  let output :=
    setIf (isUndefined (prop output "onDeck") && isBoolean (optProp defaults "onDeck"))
      "onDeck" (optProp defaults "onDeck") output in
  let output :=
    setIf (isUndefined (prop output "alwaysPrivate")
           && isBoolean (optProp defaults "alwaysPrivate"))
      "alwaysPrivate" (optProp defaults "alwaysPrivate") output in
  let output :=
    setIf (negb (truthy (prop output "notes"))) "notes" (VString EmptyString) output in
  setIf (isUndefined (prop output "timeSchemeId")
         && match optProp defaults "timeSchemeId" with
            | VString id => negb (String.eqb (trim id) EmptyString)
            | _ => false
            end)
    "timeSchemeId" (optProp defaults "timeSchemeId") output.

(** Then [timeChunksRequired]: the account default, else the larger of the
    bounds supplied, else one chunk. *)
Definition defaultTimeChunksRequired (defaults : option JSObject) (output : JSObject)
  : Outcome JSObject :=
  let output :=
    setIf (isUndefined (prop output "timeChunksRequired")
           && isPositiveNumber (optProp defaults "timeChunksRequired"))
      "timeChunksRequired" (optProp defaults "timeChunksRequired") output in
  output ←
    (if isUndefined (prop output "timeChunksRequired") then
       a ← asNumber "minChunkSize" (nullish (prop output "minChunkSize") (VNumber 0));
       b ← asNumber "maxChunkSize" (nullish (prop output "maxChunkSize") (VNumber 0));
       let derived := Z.max a b in
       Ok (setIf (0 <? derived) "timeChunksRequired" (VNumber derived) output)
     else Ok output);
  Ok (setIf (isUndefined (prop output "timeChunksRequired"))
        "timeChunksRequired" (VNumber 1) output).

(** Then the bounds: the account defaults, else one chunk and the total. *)
Definition defaultChunkSizes (defaults : option JSObject) (output : JSObject)
  : Outcome JSObject :=
  let output :=
    setIf (isUndefined (prop output "minChunkSize")
           && isPositiveNumber (optProp defaults "minChunkSize"))
      "minChunkSize" (optProp defaults "minChunkSize") output in
  let output :=
    setIf (isUndefined (prop output "maxChunkSize")
           && isPositiveNumber (optProp defaults "maxChunkSize"))
      "maxChunkSize" (optProp defaults "maxChunkSize") output in
  output ←
    (if isUndefined (prop output "minChunkSize") then
       t ← asNumber "timeChunksRequired" (prop output "timeChunksRequired");
       Ok (<["minChunkSize" := VNumber (Z.min t 1)]> output)
     else Ok output);
  Ok (setIf (isUndefined (prop output "maxChunkSize"))
        "maxChunkSize" (prop output "timeChunksRequired") output).

Definition applyTaskDefaultsForCreate (taskData : JSObject)
    (defaults : option JSObject) : Outcome JSObject :=
  let output := taskData in
  output ← defaultEnums defaults output;
  let output := defaultFlags defaults output in
  output ← defaultTimeChunksRequired defaults output;
  output ← defaultChunkSizes defaults output;
  clampChunkSizes output.

(** [normalizeTaskPatch(taskData, defaults)]: the enumerated fields that
    are supplied, ... *)
Definition patchEnums (defaults : option JSObject) (output : JSObject)
  : Outcome JSObject :=
  output ←
    (if truthy (prop output "eventCategory") then
       c ← normalizeEventCategory (prop output "eventCategory")
             (optProp defaults "category");
       Ok (<["eventCategory" := VString c]> output)
     else Ok output);
  output ←
    (if truthy (prop output "eventSubType") then
       category ←
         (if truthy (prop output "eventCategory")
          then normalizeEventCategory (prop output "eventCategory") VUndefined
          else
            inferred ← inferCategoryFromSubType (prop output "eventSubType");
            normalizeEventCategory VUndefined
              (nullish inferred (optProp defaults "category")));
       subType ← normalizeEventSubType (prop output "eventSubType") category;
       Ok (<["eventSubType" := VString subType]> output)
     else Ok output);
  if truthy (prop output "priority") then
    p ← normalizePriority (prop output "priority") (optProp defaults "priority");
    Ok (<["priority" := VString p]> output)
  else Ok output.

(** ... then [timeSchemeId], dropped unless it is a non-empty string, ... *)
Definition patchTimeSchemeId (output : JSObject) : JSObject :=
  if negb (isUndefined (prop output "timeSchemeId"))
     && (negb (isString (prop output "timeSchemeId"))
         || negb (truthy (prop output "timeSchemeId")))
  then delete "timeSchemeId" output else output.

(** ... then the bounds. *)
Definition normalizeTaskPatch (taskData : JSObject)
    (defaults : option JSObject) : Outcome JSObject :=
  let output := taskData in
  output ← patchEnums defaults output;
  let output := patchTimeSchemeId output in
  clampChunkSizes output.

(** ** The client operations, up to the request they send

    The network is not modelled: an operation yields the request it would
    send, or the exception that keeps it from sending one. [defaults] is the
    result of [fetchTaskDefaults().catch(() => undefined)], and the API
    token is taken to be configured. *)

Inductive ApiRequest : Type :=
  | PostTask (payload : JSObject)
  | PostTaskAtTime (startTime : string) (payload : JSObject)
  | PatchTask (taskId : Z) (payload : JSObject)
  | GetTask (taskId : Z).

(** [timeZone ?? process.env.MCP_DEFAULT_TIMEZONE ?? (await
    fetchAccountTimeZone().catch(() => undefined))]. *)
Definition resolvedTimeZone (h : Host) (timeZone : option string) : option string :=
  match timeZone with
  | Some tz => Some tz
  | None =>
      match MCP_DEFAULT_TIMEZONE h with
      | Some tz => Some tz
      | None => cachedAccountTimeZone h
      end
  end.

(** [if (apiPayload[k] !== undefined) apiPayload[k] =
    parseDeadline(apiPayload[k], { timeZone })]. *)
Definition parseField (h : Host) (k : string) (timeZone : option string)
    (apiPayload : JSObject) : Outcome JSObject :=
  if negb (isUndefined (prop apiPayload k)) then
    iso ← parseDeadline h (prop apiPayload k) timeZone;
    Ok (<[k := VString iso]> apiPayload)
  else Ok apiPayload.

(** The loop that deletes the keys whose value is [undefined]. *)
Definition removeUndefined (apiPayload : JSObject) : JSObject :=
  filter (fun kv => snd kv <> VUndefined) apiPayload.

(** [createTask(taskData, timeZone)]. *)
Definition createTask (h : Host) (defaults : option JSObject)
    (taskData : JSObject) (timeZone : option string) : Outcome ApiRequest :=
  handleApiError "createTask" (
    let tz := resolvedTimeZone h timeZone in
    normalizedInput ← applyTaskDefaultsForCreate taskData defaults;
    let apiPayload := normalizedInput in
    apiPayload ← parseField h "due" tz apiPayload;
    apiPayload ←
      (if negb (isUndefined (prop apiPayload "deadline")) then
         due ← parseDeadline h (prop apiPayload "deadline") tz;
         Ok (delete "deadline" (<["due" := VString due]> apiPayload))
       else if negb (truthy (prop apiPayload "due")) then
         due ←
           (if isPositiveNumber (optProp defaults "dueInDays")
            then parseDeadline h (optProp defaults "dueInDays") tz
            else parseDeadline h VUndefined tz);
         Ok (<["due" := VString due]> apiPayload)
       else Ok apiPayload);
    apiPayload ← parseField h "snoozeUntil" tz apiPayload;
    _ ← validateChunkSizes apiPayload;
    Ok (PostTask (removeUndefined apiPayload))).

(** [addMinutes(base, minutes).toISOString()]. *)
Definition addMinutes (base minutes : Z) : option Z :=
  TimeClip (base + minutes * 60000).
Definition addDays (base days : Z) : option Z := addMinutes base (days * 1440).

Definition deriveDefaultDue (base : Z) (defaults : option JSObject) : option Z :=
  match optProp defaults "dueInDays" with
  | VNumber d => if 0 <? d then addDays base d else addDays base 1
  | _ => addDays base 1
  end.

(** [createTaskAtTime(startTime, taskData, timeZone)]. *)
Definition createTaskAtTime (h : Host) (defaults : option JSObject)
    (startTime : string) (taskData : JSObject) (timeZone : option string)
  : Outcome ApiRequest :=
  handleApiError ("createTaskAtTime(startTime=" +:+ startTime +:+ ")") (
    let tz := resolvedTimeZone h timeZone in
    normalizedInput ← applyTaskDefaultsForCreate taskData defaults;
    startTimeIso ← parseDeadline h (VString startTime) tz;
    let apiPayload := normalizedInput in
    apiPayload ← parseField h "due" tz apiPayload;
    apiPayload ←
      (if negb (isUndefined (prop apiPayload "deadline")) then
         due ← parseDeadline h (prop apiPayload "deadline") tz;
         Ok (delete "deadline" (<["due" := VString due]> apiPayload))
       else if negb (truthy (prop apiPayload "due")) then
         due ←
           match Date_parse h startTimeIso with
           | Some startTimeDate =>
               if negb (isUndefined (prop apiPayload "timeChunksRequired")) then
                 n ← asNumber "timeChunksRequired" (prop apiPayload "timeChunksRequired");
                 if 0 <? n then Date_toISOString (addMinutes startTimeDate (n * 15))
                 else Date_toISOString (deriveDefaultDue startTimeDate defaults)
               else Date_toISOString (deriveDefaultDue startTimeDate defaults)
           | None => Date_toISOString (deriveDefaultDue (now h) defaults)
           end;
         Ok (<["due" := VString due]> apiPayload)
       else Ok apiPayload);
    apiPayload ← parseField h "snoozeUntil" tz apiPayload;
    _ ← validateChunkSizes apiPayload;
    Ok (PostTaskAtTime startTimeIso (removeUndefined apiPayload))).

(** [updateTask(taskId, taskData, timeZone)]. *)
Definition updateTask (h : Host) (defaults : option JSObject)
    (taskId : Z) (taskData : JSObject) (timeZone : option string)
  : Outcome ApiRequest :=
  handleApiError ("updateTask(taskId=" +:+ pretty taskId +:+ ")") (
    let tz := resolvedTimeZone h timeZone in
    apiPayload ← normalizeTaskPatch taskData defaults;
    apiPayload ← parseField h "due" tz apiPayload;
    apiPayload ←
      (if negb (isUndefined (prop apiPayload "deadline")) then
         due ← parseDeadline h (prop apiPayload "deadline") tz;
         Ok (delete "deadline" (<["due" := VString due]> apiPayload))
       else Ok apiPayload);
    apiPayload ← parseField h "snoozeUntil" tz apiPayload;
    _ ← validateChunkSizes apiPayload;
    let apiPayload := removeUndefined apiPayload in
    if bool_decide (dom apiPayload = ∅) then Ok (GetTask taskId)
    else Ok (PatchTask taskId apiPayload)).

(** ** The tool handlers *)

(** [timeZone ?? timezone], both declared [string | undefined]. *)
Definition toolTimeZone (params : JSObject) : option string :=
  match nullish (prop params "timeZone") (prop params "timezone") with
  | VString tz => Some tz
  | _ => None
  end.

(** The handler of [reclaim_create_task]. *)
Definition reclaim_create_task (h : Host) (defaults : option JSObject)
    (params : JSObject) : Outcome ApiRequest :=
  let taskData := delete "timezone" (delete "timeZone" (delete "startTime" params)) in
  normalized ← normalizeChunkInputs taskData;
  match prop params "startTime" with
  | VString startTime =>
      if negb (String.eqb startTime EmptyString)
      then createTaskAtTime h defaults startTime normalized (toolTimeZone params)
      else createTask h defaults normalized (toolTimeZone params)
  | _ => createTask h defaults normalized (toolTimeZone params)
  end.

(** The handler of [reclaim_update_task]; [taskId] is required by the
    schema. *)
Definition reclaim_update_task (h : Host) (defaults : option JSObject)
    (params : JSObject) : Outcome ApiRequest :=
  let updateData := delete "timezone" (delete "timeZone" (delete "taskId" params)) in
  normalized ← normalizeChunkInputs updateData;
  if bool_decide (dom normalized = ∅) then Throw UpdateRequiresField
  else
    taskId ← asNumber "taskId" (prop params "taskId");
    updateTask h defaults taskId normalized (toolTimeZone params).


(** ** Fixtures: the zones and hosts of the concrete scenarios

    The offsets are those of the IANA time-zone database for 2026: Pacific
    time is UTC-8, and UTC-7 from 2026-03-08T10:00Z until 2026-11-01T09:00Z;
    Eastern time is UTC-5, and UTC-4 from 2026-03-08T07:00Z until
    2026-11-01T06:00Z. *)

Definition America_Los_Angeles (t : Z) : Z :=
  if (Date_UTC 2026 2 8 10 0 0 0 <=? t) && (t <? Date_UTC 2026 10 1 9 0 0 0)
  then -7 * msPerHour else -8 * msPerHour.

Definition America_New_York (t : Z) : Z :=
  if (Date_UTC 2026 2 8 7 0 0 0 <=? t) && (t <? Date_UTC 2026 10 1 6 0 0 0)
  then -4 * msPerHour else -5 * msPerHour.

Definition Etc_UTC (t : Z) : Z := 0.

Definition zones2026 (id : string) : option (Z -> Z) :=
  if String.eqb id "America/Los_Angeles" then Some America_Los_Angeles
  else if String.eqb id "America/New_York" then Some America_New_York
  else if String.eqb id "UTC" then Some Etc_UTC
  else None.

(** The strings with an explicit offset used in the scenarios, as every
    engine reads them. *)
Definition parse2026 (s : string) : option Z :=
  if String.eqb s "2026-01-05T08:00:00-08:00" then Some (Date_UTC 2026 0 5 16 0 0 0)
  else if String.eqb s "2026-01-05T16:00:00.000Z" then Some (Date_UTC 2026 0 5 16 0 0 0)
  else if String.eqb s "2026-01-05T11:00:00-05:00" then Some (Date_UTC 2026 0 5 16 0 0 0)
  else None.

(** A host whose local zone is UTC, at 2026-03-07T20:00:00.000Z. *)
Definition utcHost : Host :=
  {| now := Date_UTC 2026 2 7 20 0 0 0;
     timeZoneDatabase := zones2026;
     hostTimeZone := "UTC";
     LocalTZA := fun _ _ => 0;
     Date_parse := parse2026;
     MCP_DEFAULT_TIMEZONE := None;
     cachedAccountTimeZone := None |}.

(** The same instant on a host whose local zone is Pacific time. A local
    time value that is skipped or repeated is read with the offset in force
    before the transition. *)
Definition pacificHost : Host :=
  {| now := Date_UTC 2026 2 7 20 0 0 0;
     timeZoneDatabase := zones2026;
     hostTimeZone := "America/Los_Angeles";
     LocalTZA := fun t isUTC =>
       if isUTC then America_Los_Angeles t
       else if (Date_UTC 2026 2 8 3 0 0 0 <=? t) && (t <? Date_UTC 2026 10 1 2 0 0 0)
            then -7 * msPerHour else -8 * msPerHour;
     Date_parse := parse2026;
     MCP_DEFAULT_TIMEZONE := None;
     cachedAccountTimeZone := None |}.


(** The error kinds of the specification. *)
Inductive ErrorKind : Type :=
  | InvalidInput
  | InvalidTimezone
  | ChunkSizeConflictKind
  | OtherError.

Fixpoint kind (e : Thrown) : ErrorKind :=
  match e with
  | NotMultipleOfChunk _ => InvalidInput
  | InvalidDateTime _ | InvalidMonth _ | InvalidDay _ | InvalidHour _
  | InvalidMinute _ | InvalidSecond _ | InvalidMilliseconds _
  | InvalidDateFormat _ => InvalidInput
  | InvalidTimeZone _ => InvalidTimezone
  | ChunkSizeConflict _ _ => ChunkSizeConflictKind
  | ApiCallFailed _ cause => kind cause
  | _ => OtherError
  end.

(** The payload a request carries. *)
Definition payloadOf (r : ApiRequest) : JSObject :=
  match r with
  | PostTask payload | PostTaskAtTime _ payload | PatchTask _ payload => payload
  | GetTask _ => ∅
  end.

(** An object literal. *)
Definition object (l : list (string * JSValue)) : JSObject := list_to_map l.

(** An outcome that, if it is an exception, is the one raised on a value
    outside its declared type. *)
Definition declared {A} (c : Outcome A) : Prop :=
  match c with
  | Ok _ => True
  | Throw e => exists p, e = NotOfDeclaredType p
  end.

(** The operation fails with an error of the given kind. *)
Definition failsWith {A} (k : ErrorKind) (c : Outcome A) : Prop :=
  exists e, c = Throw e /\ kind e = k.


(** The keys the date steps of the client operations may touch. *)
Definition dateKey (k : string) : Prop :=
  k = "due"%string \/ k = "deadline"%string \/ k = "snoozeUntil"%string.

(** [o'] agrees with [o] outside the date keys. *)
Definition sameButDates (o o' : JSObject) : Prop :=
  forall k, ~ dateKey k -> prop o' k = prop o k.

(** The components [parseDeadline] reads from a match of
    [LOCAL_DATETIME_REGEX]. *)
Definition localParts (m : LocalMatch) : TimeParts :=
  {| year := Number_of_digits (yearRaw m);
     month := Number_of_digits (monthRaw m);
     day := Number_of_digits (dayRaw m);
     hour := optNumber (hourRaw m);
     minute := optNumber (minuteRaw m);
     second := optNumber (secondRaw m) |}.
Definition localMillisecond (m : LocalMatch) : Z :=
  optNumber (padEnd3 <$> millisecondRaw m).

(** A component out of its range, or a day the month does not have. *)
Definition invalidComponents (p : TimeParts) (millisecond : Z) : Prop :=
  ~ (1 <= month p <= 12) \/ ~ (1 <= day p <= 31) \/ ~ (0 <= hour p <= 23)
  \/ ~ (0 <= minute p <= 59) \/ ~ (0 <= second p <= 59)
  \/ ~ (0 <= millisecond <= 999)
  \/ DaysInMonth (year p) (month p) < day p.

(** The wall-clock time value a zone shows at the instant [t]. *)
Definition wallClock (timeZone : Z -> Z) (t : Z) : Z := t + timeZone t.

(** ** Listing, defaults and the planner actions *)

(** [filterActiveTasks(tasks)]. The argument is [None] when it is not an
    array; an element is [None] when it is [null] or [undefined], and an
    object otherwise, as the declared type [Task[]] has it. *)
Definition filterActiveTasks (tasks : option (list (option JSObject)))
  : list (option JSObject) :=
  match tasks with
  | None => []
  | Some tasks =>
      List.filter
        (fun task =>
           match task with
           | None => false
           | Some task =>
               negb (truthy (prop task "deleted"))
               && bool_decide (prop task "status" <> VString "ARCHIVED")
               && bool_decide (prop task "status" <> VString "CANCELLED")
           end)
        tasks
  end.

(** The object [getTaskDefaults] returns. *)
Record TaskDefaultsReport : Type := {
  chunkMinutes : Z;
  defaults : JSObject;
  derivedDefaults : JSObject
}.

(** [getTaskDefaults()], on the defaults [fetchTaskDefaults] has found. *)
Definition getTaskDefaults (defaults : option JSObject) : Outcome TaskDefaultsReport :=
  category ← normalizeEventCategory VUndefined (optProp defaults "category");
  eventSubType ← normalizeEventSubType VUndefined category;
  priority ← normalizePriority VUndefined (optProp defaults "priority");
  let derived :=
    object [("eventCategory"%string, VString category);
            ("eventSubType"%string, VString eventSubType);
            ("priority"%string, VString priority)] in
  Ok {| chunkMinutes := 15;
        defaults := default ∅ defaults;
        derivedDefaults := derived |}.

(** The requests of the planner actions, with their query parameters. *)
Inductive PlannerRequest : Type :=
  | PostAddTime (taskId minutes : Z)
  | PostLogWork (taskId minutes : Z) (endParam : option string).

(** The plain [Error]s the planner actions throw before any request:
    the minutes are not positive, or the end date was refused, with what
    [parseDeadline] or [toISOString] threw. *)
Inductive ActionError : Type :=
  | MinutesNotPositive (purpose : string)
  | InvalidEndDate (endInput : string) (dateError : Thrown).

Definition actionMessage (e : ActionError) : string :=
  match e with
  | MinutesNotPositive purpose => "Minutes must be positive to " +:+ purpose +:+ "."
  | InvalidEndDate endInput dateError =>
      "Invalid 'end' date format: " +:+ quoted endInput +:+ ". Error: "
        +:+ message dateError +:+ ". Please use ISO 8601 or YYYY-MM-DD format."
  end.

Inductive ActionOutcome : Type :=
  | Sent (request : PlannerRequest)
  | Refused (e : ActionError).

(** [addTimeToTask(taskId, minutes)]. *)
Definition addTimeToTask (taskId minutes : Z) : ActionOutcome :=
  if minutes <=? 0 then Refused (MinutesNotPositive "add time")
  else Sent (PostAddTime taskId minutes).

(** [logWorkForTask(taskId, minutes, end, timeZone)]. *)
Definition logWorkForTask (h : Host) (taskId minutes : Z)
    (endInput : option string) (timeZone : option string) : ActionOutcome :=
  if minutes <=? 0 then Refused (MinutesNotPositive "log work")
  else
    let tz := resolvedTimeZone h timeZone in
    match nonEmpty endInput with
    | Some endInput =>
        match
          parsedEnd ← parseDeadline h (VString endInput) tz;
          if (String.length parsedEnd =? 10)%nat
          then Date_toISOString (Date_parse h parsedEnd)
          else Ok parsedEnd
        with
        | Ok endParam => Sent (PostLogWork taskId minutes (Some endParam))
        | Throw dateError => Refused (InvalidEndDate endInput dateError)
        end
    | None => Sent (PostLogWork taskId minutes None)
    end.

(** ** The date schemas of the tools *)

(** [(?:[zZ]|[+-]\d{2}:\d{2})?$] *)
Definition matchOffset (l : list ascii) : bool :=
  match l with
  | [] => true
  | [c] => Ascii.eqb c "z" || Ascii.eqb c "Z"
  | [sign; h1; h2; colon; m1; m2] =>
      (Ascii.eqb sign "+" || Ascii.eqb sign "-") && isDigit h1 && isDigit h2
      && Ascii.eqb colon ":" && isDigit m1 && isDigit m2
  | _ => false
  end.

(** [(?:\.\d{1,3})?(?:[zZ]|[+-]\d{2}:\d{2})?$]: the fraction with one,
    two or three digits, or no fraction. *)
Definition matchFractionOffset (l : list ascii) : bool :=
  match l with
  | c :: f =>
      Ascii.eqb c "."
      && existsb (fun n => match digits n f with
                           | Some (_, r) => matchOffset r
                           | None => false
                           end) [3; 2; 1]%nat
  | [] => false
  end
  || matchOffset l.

(** [(?::\d{2}(?:\.\d{1,3})?)?(?:[zZ]|[+-]\d{2}:\d{2})?$] *)
Definition matchSecondsOffset (l : list ascii) : bool :=
  match l with
  | c :: r =>
      Ascii.eqb c ":"
      && match digits 2 r with
         | Some (_, r) => matchFractionOffset r
         | None => false
         end
  | [] => false
  end
  || matchOffset l.

(** [^\d{4}-\d{2}-\d{2}] at the head of [l]: the rest. *)
Definition matchDate (l : list ascii) : option (list ascii) :=
  '(_, r) ← digits 4 l;
  match r with
  | c1 :: r =>
      if Ascii.eqb c1 "-" then
        '(_, r) ← digits 2 r;
        match r with
        | c2 :: r => if Ascii.eqb c2 "-" then snd <$> digits 2 r else None
        | [] => None
        end
      else None
  | [] => None
  end.

(** [DATE_ONLY_SCHEMA]: [/^\d{4}-\d{2}-\d{2}$/]. *)
Definition test_DATE_ONLY_SCHEMA (s : string) : bool :=
  match matchDate (list_ascii_of_string s) with
  | Some [] => true
  | _ => false
  end.

(** [DATE_TIME_SCHEMA]:
    [/^\d{4}-\d{2}-\d{2}[T\s]\d{2}:\d{2}(?::\d{2}(?:\.\d{1,3})?)?(?:[zZ]|[+-]\d{2}:\d{2})?$/]. *)
Definition test_DATE_TIME_SCHEMA (s : string) : bool :=
  match matchDate (list_ascii_of_string s) with
  | Some (sep :: r) =>
      (Ascii.eqb sep "T" || isWhiteSpace sep)
      && match digits 2 r with
         | Some (_, c :: r) =>
             Ascii.eqb c ":"
             && match digits 2 r with
                | Some (_, r) => matchSecondsOffset r
                | None => false
                end
         | _ => false
         end
  | _ => false
  end.

(** * Properties *)

(** ** The calendar *)

Lemma days_from_civil_from_days z :
  days_from_civil (fst (fst (civil_from_days z))) (snd (fst (civil_from_days z)))
    (snd (civil_from_days z)) = z.
Proof.
  unfold civil_from_days, days_from_civil; cbn [fst snd].
  set (z' := z + 719468).
  set (era := z' / 146097). set (doe := z' mod 146097).
  assert (Hdoe : 0 <= doe < 146097) by (apply Z.mod_pos_bound; lia).
  assert (Hz : z' = era * 146097 + doe) by (unfold era, doe; lia).
  set (yoe := (doe - doe / 1460 + doe / 36524 - doe / 146096) / 365).
  assert (Hyoe : 0 <= yoe <= 399) by (unfold yoe; lia).
  set (doy := doe - (365 * yoe + yoe / 4 - yoe / 100)).
  assert (Hdoy : 0 <= doy <= 365) by (unfold doy, yoe; lia).
  set (mp := (5 * doy + 2) / 153).
  assert (Hmp : 0 <= mp <= 11) by (unfold mp; lia).
  destruct (mp <? 10) eqn:E; [ apply Z.ltb_lt in E | apply Z.ltb_ge in E ].
  - replace (mp + 3 <=? 2) with false by (symmetry; apply Z.leb_gt; lia).
    replace (yoe + era * 400 + 0) with (era * 400 + yoe) by lia.
    replace ((era * 400 + yoe) / 400) with era by lia.
    replace ((era * 400 + yoe) mod 400) with yoe by lia.
    replace (mp + 3 - 3) with mp by lia. lia.
  - replace (mp - 9 <=? 2) with true by (symmetry; apply Z.leb_le; lia).
    replace (yoe + era * 400 + 1 - 1) with (era * 400 + yoe) by lia.
    replace ((era * 400 + yoe) / 400) with era by lia.
    replace ((era * 400 + yoe) mod 400) with yoe by lia.
    replace (mp - 9 + 9) with mp by lia. lia.
Qed.

Lemma isLeapYear_shift y k : isLeapYear (y + k * 400) = isLeapYear y.
Proof.
  unfold isLeapYear.
  replace ((y + k * 400) mod 4) with (y mod 4) by lia.
  replace ((y + k * 400) mod 100) with (y mod 100) by lia.
  replace ((y + k * 400) mod 400) with (y mod 400) by lia.
  reflexivity.
Qed.

(** Every day number is rendered as a date that exists. *)
Lemma civil_from_days_valid z :
  1 <= snd (fst (civil_from_days z)) <= 12 /\
  1 <= snd (civil_from_days z)
    <= DaysInMonth (fst (fst (civil_from_days z))) (snd (fst (civil_from_days z))).
Proof.
  unfold civil_from_days; cbn [fst snd].
  set (z' := z + 719468).
  set (era := z' / 146097). set (doe := z' mod 146097).
  assert (Hdoe : 0 <= doe < 146097) by (apply Z.mod_pos_bound; lia).
  set (yoe := (doe - doe / 1460 + doe / 36524 - doe / 146096) / 365).
  assert (Hyoe : 0 <= yoe <= 399) by (unfold yoe; lia).
  set (doy := doe - (365 * yoe + yoe / 4 - yoe / 100)).
  assert (Hdoy : 0 <= doy <= 365) by (unfold doy, yoe; lia).
  assert (Hlast : doy = 365 -> isLeapYear (yoe + 1) = true).
  { intros Hd. unfold isLeapYear.
    assert ((yoe + 1) mod 4 = 0 /\ ((yoe + 1) mod 100 <> 0 \/ (yoe + 1) mod 400 = 0))
      as [H4 H100] by (unfold doy, yoe in Hd |- *; lia).
    rewrite H4. cbn [Z.eqb andb].
    destruct H100 as [H|H].
    - apply Z.eqb_neq in H. rewrite H. reflexivity.
    - rewrite H. cbn. apply orb_true_r. }
  set (mp := (5 * doy + 2) / 153).
  assert (Hmp : 0 <= mp <= 11) by (unfold mp; lia).
  assert (Hd : (153 * mp + 2) / 5 <= doy < (153 * (mp + 1) + 2) / 5)
    by (unfold mp; lia).
  unfold DaysInMonth.
  destruct (mp <? 10) eqn:E10; [ apply Z.ltb_lt in E10 | apply Z.ltb_ge in E10 ].
  - repeat match goal with
           | |- context [Z.eqb ?a ?b] => destruct (Z.eqb_spec a b)
           end; cbn [orb]; split; lia.
  - replace (mp - 9 <=? 2) with true by (symmetry; apply Z.leb_le; lia).
    replace (yoe + era * 400 + 1) with ((yoe + 1) + era * 400) by lia.
    rewrite isLeapYear_shift.
    destruct (Z.eqb_spec (mp - 9) 2) as [E2|N2].
    + split; [lia|].
      destruct (Z.eq_dec doy 365) as [E365|N365].
      * rewrite (Hlast E365). lia.
      * destruct (isLeapYear (yoe + 1)); lia.
    + repeat match goal with
             | |- context [Z.eqb ?a ?b] => destruct (Z.eqb_spec a b)
             end; cbn [orb]; split; lia.
Qed.

(** [Date.UTC] ends with [TimeClip], which the embedding leaves out: on a
    year of at most four digits and fields within their ranges it changes
    nothing. *)
Lemma Date_UTC_TimeClip year month date hours minutes seconds ms :
  0 <= year <= 9999 -> 0 <= month <= 11 -> 1 <= date <= 31 -> 0 <= hours <= 23 ->
  0 <= minutes <= 59 -> 0 <= seconds <= 59 -> 0 <= ms <= 999 ->
  TimeClip (Date_UTC year month date hours minutes seconds ms)
  = Some (Date_UTC year month date hours minutes seconds ms).
Proof.
  intros Hy Hm Hd Hh Hmi Hs Hms. unfold TimeClip.
  match goal with |- context [?a <=? ?b] => destruct (Z.leb_spec a b) as [|Hgt] end;
    [reflexivity|exfalso].
  revert Hgt. unfold Date_UTC, MakeDate, MakeDay, MakeTime, days_from_civil,
    msPerDay, msPerHour, msPerMinute, msPerSecond.
  replace (month / 12) with 0 by lia.
  replace (month mod 12 + 1) with (month + 1) by lia.
  destruct ((0 <=? year) && (year <=? 99)); destruct (month + 1 <=? 2); lia.
Qed.

(** ** Reading objects *)

Lemma prop_insert (o : JSObject) k v : prop (<[k := v]> o) k = v.
Proof. unfold prop. by rewrite lookup_insert_eq. Qed.

Lemma prop_insert_ne (o : JSObject) k k' v :
  k <> k' -> prop (<[k := v]> o) k' = prop o k'.
Proof. intros. unfold prop. by rewrite lookup_insert_ne. Qed.

Lemma prop_delete (o : JSObject) k : prop (delete k o) k = VUndefined.
Proof. unfold prop. by rewrite lookup_delete_eq. Qed.

Lemma prop_delete_ne (o : JSObject) k k' :
  k <> k' -> prop (delete k o) k' = prop o k'.
Proof. intros. unfold prop. by rewrite lookup_delete_ne. Qed.

Lemma prop_setIf_ne (o : JSObject) c k k' v :
  k <> k' -> prop (setIf c k v o) k' = prop o k'.
Proof. intros. unfold setIf. destruct c; [by apply prop_insert_ne | done]. Qed.

Lemma prop_removeUndefined (o : JSObject) k : prop (removeUndefined o) k = prop o k.
Proof.
  unfold prop, removeUndefined.
  destruct (o !! k) as [v|] eqn:E.
  - destruct (decide (v = VUndefined)) as [->|Hv].
    + rewrite map_lookup_filter_None_2; [done|].
      right. intros v' Hv'. cbn. rewrite E in Hv'. naive_solver.
    + erewrite map_lookup_filter_Some_2; [done|exact E|done].
  - rewrite map_lookup_filter_None_2; [done|]. by left.
Qed.

Lemma prop_undefined_dom (o : JSObject) k : prop o k <> VUndefined -> k ∈ dom o.
Proof.
  unfold prop. intros H. apply elem_of_dom.
  destruct (o !! k); [eauto | done].
Qed.

Ltac prop_simpl :=
  repeat first
    [ rewrite prop_insert
    | rewrite prop_insert_ne by done
    | rewrite prop_delete
    | rewrite prop_delete_ne by done
    | rewrite prop_setIf_ne by done
    | rewrite prop_removeUndefined ].

(** Case analysis on the outcome bound first in the goal or in [H]. *)
Ltac bind_case H :=
  match type of H with
  | mbind _ ?c = _ =>
      let E := fresh "E" in
      destruct c eqn:E; cbn [mbind Outcome_bind] in H; [ | discriminate H ]
  end.

(** ** Minutes and chunks *)

Lemma minutesToChunks_exact value field :
  value mod 15 = 0 -> minutesToChunks value field = Ok (value / 15).
Proof.
  intros H. unfold minutesToChunks, CHUNK_MINUTES.
  assert (Hr : Z.rem value 15 = 0) by (apply Z.rem_divide; [lia|]; apply Z.mod_divide; lia).
  rewrite Hr. cbn. f_equal.
  apply Z.mod_divide in H; [|lia]. destruct H as [q ->].
  rewrite Z.quot_mul by lia. rewrite Z.div_mul by lia. reflexivity.
Qed.

Lemma minutesToChunks_reject value field :
  value mod 15 <> 0 -> minutesToChunks value field = Throw (NotMultipleOfChunk field).
Proof.
  intros H. unfold minutesToChunks, CHUNK_MINUTES.
  destruct (Z.eqb_spec (Z.rem value 15) 0) as [Hr|Hr]; [|reflexivity].
  exfalso. apply H. apply Z.mod_divide; [lia|]. apply Z.rem_divide; [lia|exact Hr].
Qed.

Lemma convertMinutes_prop_ne minutes chunks data data' k :
  convertMinutes minutes chunks data = Ok data' -> chunks <> k ->
  prop data' k = prop data k.
Proof.
  unfold convertMinutes. intros H Hk.
  destruct (prop data minutes) eqn:E; try (injection H as <-; reflexivity).
  destruct (minutesToChunks n minutes); cbn in H; [|discriminate].
  injection H as <-. by rewrite prop_insert_ne.
Qed.

Lemma convertMinutes_reject minutes chunks data value :
  prop data minutes = VNumber value -> value mod 15 <> 0 ->
  convertMinutes minutes chunks data = Throw (NotMultipleOfChunk minutes).
Proof.
  intros H Hv. unfold convertMinutes. rewrite H.
  by rewrite minutesToChunks_reject.
Qed.

Lemma convertMinutes_cases minutes chunks data :
  (exists data', convertMinutes minutes chunks data = Ok data')
  \/ convertMinutes minutes chunks data = Throw (NotMultipleOfChunk minutes).
Proof.
  unfold convertMinutes.
  destruct (prop data minutes); eauto.
  unfold minutesToChunks. destruct (negb _); cbn; eauto.
Qed.

(** C6: a minute value that is a multiple of 15 converts to exactly
    [value / 15] chunks; any other value is rejected with an invalid-input
    error, for the conversion itself and for the normalisation of an input
    that carries it in [durationMinutes], [minDurationMinutes] or
    [maxDurationMinutes]. *)
Theorem C6_minutes_to_chunks (input : JSObject) (value : Z) (minutes : string) :
  minutes ∈ ["durationMinutes"; "minDurationMinutes"; "maxDurationMinutes"]%string ->
  prop input minutes = VNumber value ->
  (value mod 15 = 0 -> minutesToChunks value minutes = Ok (value / 15))
  /\ (value mod 15 <> 0 ->
      minutesToChunks value minutes = Throw (NotMultipleOfChunk minutes)
      /\ exists field,
           normalizeChunkInputs input = Throw (NotMultipleOfChunk field)
           /\ kind (NotMultipleOfChunk field) = InvalidInput).
Proof.
  intros Hin Hprop. split; [apply minutesToChunks_exact|].
  intros Hv. split; [by apply minutesToChunks_reject|].
  unfold normalizeChunkInputs.
  destruct (convertMinutes_cases "durationMinutes" "timeChunksRequired" input)
    as [[d1 E1]|E1]; rewrite E1; cbn [mbind Outcome_bind]; [|eauto].
  destruct (convertMinutes_cases "minDurationMinutes" "minChunkSize" d1)
    as [[d2 E2]|E2]; rewrite E2; cbn [mbind Outcome_bind]; [|eauto].
  destruct (convertMinutes_cases "maxDurationMinutes" "maxChunkSize" d2)
    as [[d3 E3]|E3]; rewrite E3; cbn [mbind Outcome_bind]; [|eauto].
  exfalso.
  repeat (apply elem_of_cons in Hin as [->|Hin]).
  - rewrite (convertMinutes_reject _ _ _ _ Hprop Hv) in E1. discriminate.
  - assert (H1 : prop d1 "minDurationMinutes" = VNumber value)
      by (rewrite (convertMinutes_prop_ne _ _ _ _ _ E1); done).
    rewrite (convertMinutes_reject _ _ _ _ H1 Hv) in E2. discriminate.
  - assert (H2 : prop d2 "maxDurationMinutes" = VNumber value).
    { rewrite (convertMinutes_prop_ne _ _ _ _ _ E2) by done.
      rewrite (convertMinutes_prop_ne _ _ _ _ _ E1); done. }
    rewrite (convertMinutes_reject _ _ _ _ H2 Hv) in E3. discriminate.
  - by apply elem_of_nil in Hin.
Qed.

Lemma C6_minutes_to_chunks_witness :
  minutesToChunks 60 "durationMinutes" = Ok 4
  /\ exists field,
       normalizeChunkInputs (object [("maxDurationMinutes", VNumber 50)])
       = Throw (NotMultipleOfChunk field).
Proof.
  split.
  - apply (C6_minutes_to_chunks (object [("durationMinutes", VNumber 60)]) 60
             "durationMinutes"); [repeat constructor | reflexivity | reflexivity].
  - destruct (C6_minutes_to_chunks (object [("maxDurationMinutes", VNumber 50)]) 50
                "maxDurationMinutes") as [_ H]; [repeat constructor | reflexivity |].
    destruct H as [_ [field [H _]]]; [vm_compute; discriminate|].
    exists field. exact H.
Defined.
(** ** The chunk bounds through the client's normalisation *)

Lemma dom_insert_present (o : JSObject) k v :
  prop o k <> VUndefined -> dom (<[k := v]> o) = dom o.
Proof.
  intros H. apply prop_undefined_dom in H.
  rewrite dom_insert_L. set_solver.
Qed.

Ltac use_props :=
  repeat match goal with
         | H : prop ?o ?k = _ |- context [prop ?o ?k] => rewrite H
         end.

Ltac chunk_step :=
  cbn [mbind Outcome_bind isUndefined negb andb orb asNumber isNumber];
  prop_simpl; use_props.

Ltac gtb_cases :=
  repeat match goal with
         | |- context [?a >? ?b] => destruct (Z.gtb_spec a b)
         end.

Ltac dom_present :=
  repeat (rewrite dom_insert_present;
          [ | prop_simpl; use_props; discriminate ]).

Lemma declared_bind {A B} (c : Outcome A) (f : A -> Outcome B) :
  declared c -> (forall a, c = Ok a -> declared (f a)) -> declared (c ≫= f).
Proof. destruct c; cbn; eauto. Qed.

Lemma declared_Ok {A} (a : A) : declared (Ok a).
Proof. exact I. Qed.

Lemma declared_if {A} (b : bool) (c1 c2 : Outcome A) :
  declared c1 -> declared c2 -> declared (if b then c1 else c2).
Proof. by destruct b. Qed.

Lemma declared_normalizeEnumValue v : declared (normalizeEnumValue v).
Proof. unfold normalizeEnumValue. destruct (negb _), v; cbn; eauto. Qed.

Lemma declared_normalizeEventCategory v f : declared (normalizeEventCategory v f).
Proof.
  unfold normalizeEventCategory.
  apply declared_bind; [apply declared_normalizeEnumValue|].
  intros [n|] _; [destruct (has _ _)|]; exact I.
Qed.

Lemma declared_inferCategoryFromSubType v : declared (inferCategoryFromSubType v).
Proof.
  unfold inferCategoryFromSubType.
  apply declared_bind; [apply declared_normalizeEnumValue|].
  intros [n|] _; [destruct (has _ _)|]; exact I.
Qed.

Lemma declared_normalizePriority v f : declared (normalizePriority v f).
Proof.
  unfold normalizePriority.
  apply declared_bind; [apply declared_normalizeEnumValue|].
  intros [n|] _; [|exact I].
  repeat apply declared_if; try exact I.
  apply declared_bind; [apply declared_normalizeEnumValue|].
  intros [f'|] _; [destruct (isPLevel _)|]; exact I.
Qed.

Lemma declared_normalizeEventSubType v c : declared (normalizeEventSubType v c).
Proof.
  unfold normalizeEventSubType.
  apply declared_bind; [apply declared_normalizeEnumValue|].
  intros [n|] _; [|exact I].
  repeat apply declared_if; try exact I.
  destruct (lookupAlias _ _); [destruct (has _ _)|]; exact I.
Qed.

Lemma declared_asNumber p v : declared (asNumber p v).
Proof. destruct v; cbn; eauto. Qed.

Lemma clampChunkSizes_cases (o : JSObject) :
  match clampChunkSizes o with
  | Ok o' =>
      validateChunkSizes o' = Ok tt
      /\ dom o' = dom o
      /\ (forall k, k <> "minChunkSize"%string -> k <> "maxChunkSize"%string ->
          prop o' k = prop o k)
  | Throw e => exists p, e = NotOfDeclaredType p
  end.
Proof.
  unfold clampChunkSizes.
  destruct (prop o "timeChunksRequired") eqn:Et;
  destruct (prop o "minChunkSize") eqn:Em;
  destruct (prop o "maxChunkSize") eqn:EM;
  repeat chunk_step; eauto; gtb_cases;
  (split; [ unfold validateChunkSizes; repeat chunk_step; gtb_cases;
            first [ reflexivity | lia ]
          | split; [ dom_present; reflexivity
                   | intros k Hk1 Hk2; prop_simpl; reflexivity ] ]).
Qed.


(** With the total and both bounds equal, nothing changes. *)
Lemma clampChunkSizes_locked (o : JSObject) n :
  prop o "timeChunksRequired" = VNumber n ->
  prop o "minChunkSize" = VNumber n -> prop o "maxChunkSize" = VNumber n ->
  exists o', clampChunkSizes o = Ok o'
    /\ prop o' "timeChunksRequired" = VNumber n
    /\ prop o' "minChunkSize" = VNumber n /\ prop o' "maxChunkSize" = VNumber n.
Proof.
  unfold clampChunkSizes. intros Et Em EM.
  repeat chunk_step. rewrite Z.min_id. repeat chunk_step.
  gtb_cases; [lia|].
  eexists; split; [reflexivity|]. prop_simpl. use_props. rewrite ?Z.min_id. done.
Qed.

(** *** The paragraphs of [applyTaskDefaultsForCreate] *)

Lemma defaultEnums_cases defaults (o : JSObject) :
  match defaultEnums defaults o with
  | Ok o' =>
      forall k, k <> "eventCategory"%string -> k <> "eventSubType"%string ->
                k <> "priority"%string -> prop o' k = prop o k
  | Throw e => exists p, e = NotOfDeclaredType p
  end.
Proof.
  unfold defaultEnums.
  assert (H1 : declared (if isUndefined (prop o "eventCategory")
                         then inferCategoryFromSubType (prop o "eventSubType")
                         else Ok VUndefined))
    by (apply declared_if; [apply declared_inferCategoryFromSubType|exact I]).
  destruct (if isUndefined (prop o "eventCategory") then _ else _) as [inferred|e];
    [|exact H1]. cbn [mbind Outcome_bind].
  pose proof (declared_normalizeEventCategory (prop o "eventCategory")
                (nullish inferred (optProp defaults "category"))) as H2.
  destruct (normalizeEventCategory _ _) as [category|e]; [|exact H2].
  cbn [mbind Outcome_bind].
  match goal with
  | |- context [normalizeEventSubType ?v ?c] =>
      pose proof (declared_normalizeEventSubType v c) as H3;
      destruct (normalizeEventSubType v c) as [subType|e]; [|exact H3]
  end.
  cbn [mbind Outcome_bind].
  match goal with
  | |- context [normalizePriority ?v ?c] =>
      pose proof (declared_normalizePriority v c) as H4;
      destruct (normalizePriority v c) as [priority|e]; [|exact H4]
  end.
  cbn [mbind Outcome_bind]. intros k Hk1 Hk2 Hk3. by prop_simpl.
Qed.

Lemma defaultFlags_frame defaults (o : JSObject) k :
  k <> "onDeck"%string -> k <> "alwaysPrivate"%string -> k <> "notes"%string ->
  k <> "timeSchemeId"%string ->
  prop (defaultFlags defaults o) k = prop o k.
Proof. intros. unfold defaultFlags. by prop_simpl. Qed.

Lemma defaultTimeChunksRequired_cases defaults (o : JSObject) :
  match defaultTimeChunksRequired defaults o with
  | Ok o' =>
      (forall k, k <> "timeChunksRequired"%string -> prop o' k = prop o k)
      /\ (isUndefined (prop o "timeChunksRequired") = false ->
          prop o' "timeChunksRequired" = prop o "timeChunksRequired")
  | Throw e => exists p, e = NotOfDeclaredType p
  end.
Proof.
  unfold defaultTimeChunksRequired.
  destruct (isUndefined (prop o "timeChunksRequired")) eqn:Et.
  - cbn [andb].
    set (o1 := setIf _ _ _ o).
    assert (F1 : forall k, k <> "timeChunksRequired"%string -> prop o1 k = prop o k)
      by (intros; unfold o1; by prop_simpl).
    clearbody o1.
    destruct (isUndefined (prop o1 "timeChunksRequired")).
    + rewrite !F1 by done.
      destruct (asNumber "minChunkSize" _) as [a|e] eqn:Ea; cbn [mbind Outcome_bind];
        [|pose proof (declared_asNumber "minChunkSize"
                        (nullish (prop o "minChunkSize") (VNumber 0))) as D;
          rewrite Ea in D; exact D].
      destruct (asNumber "maxChunkSize" _) as [b|e] eqn:Eb; cbn [mbind Outcome_bind];
        [|pose proof (declared_asNumber "maxChunkSize"
                        (nullish (prop o "maxChunkSize") (VNumber 0))) as D;
          rewrite Eb in D; exact D].
      split; [|discriminate].
      intros k Hk. prop_simpl. by apply F1.
    + cbn [mbind Outcome_bind]. split; [|discriminate].
      intros k Hk. prop_simpl. by apply F1.
  - cbn [andb]. unfold setIf. rewrite ?Et. cbn [mbind Outcome_bind].
    rewrite ?Et. split; done.
Qed.

Lemma defaultChunkSizes_cases defaults (o : JSObject) :
  match defaultChunkSizes defaults o with
  | Ok o' =>
      (forall k, k <> "minChunkSize"%string -> k <> "maxChunkSize"%string ->
                 prop o' k = prop o k)
      /\ (isUndefined (prop o "minChunkSize") = false ->
          prop o' "minChunkSize" = prop o "minChunkSize")
      /\ (isUndefined (prop o "maxChunkSize") = false ->
          prop o' "maxChunkSize" = prop o "maxChunkSize")
  | Throw e => exists p, e = NotOfDeclaredType p
  end.
Proof.
  unfold defaultChunkSizes.
  set (o1 := setIf _ "minChunkSize" _ o).
  set (o2 := setIf _ "maxChunkSize" _ o1).
  assert (F1 : forall k, k <> "minChunkSize"%string -> prop o1 k = prop o k)
    by (intros; unfold o1; by prop_simpl).
  assert (F2 : forall k, k <> "maxChunkSize"%string -> prop o2 k = prop o1 k)
    by (intros; unfold o2; by prop_simpl).
  assert (K1 : isUndefined (prop o "minChunkSize") = false -> o1 = o)
    by (intros E; unfold o1; by rewrite E).
  assert (K2 : isUndefined (prop o "maxChunkSize") = false -> o2 = o1).
  { intros E. unfold o2. rewrite F1 by done. by rewrite E. }
  clearbody o1 o2.
  destruct (isUndefined (prop o2 "minChunkSize")) eqn:Em.
  - destruct (asNumber "timeChunksRequired" _) as [t|e] eqn:Ea;
      cbn [mbind Outcome_bind];
      [|pose proof (declared_asNumber "timeChunksRequired"
                      (prop o2 "timeChunksRequired")) as D;
        rewrite Ea in D; exact D].
    split; [intros k Hk1 Hk2; prop_simpl; rewrite F2, F1; done|].
    split.
    + intros E. rewrite F2, (K1 E) in Em by done. congruence.
    + intros E. unfold setIf. prop_simpl. rewrite (K2 E), F1 by done.
      rewrite E. prop_simpl. rewrite ?(K2 E), ?F1 by done. done.
  - cbn [mbind Outcome_bind].
    split; [intros k Hk1 Hk2; prop_simpl; rewrite F2, F1; done|].
    split.
    + intros E. prop_simpl. by rewrite F2, (K1 E).
    + intros E. unfold setIf. rewrite (K2 E), F1 by done. rewrite E.
      rewrite ?(K2 E), ?F1 by done. done.
Qed.

(** Whatever the input, the bounds that leave [applyTaskDefaultsForCreate]
    pass [validateChunkSizes]; the only exception it can raise is the one
    for a value outside its declared type. *)
Lemma applyTaskDefaultsForCreate_cases (taskData : JSObject) defaults :
  match applyTaskDefaultsForCreate taskData defaults with
  | Ok output => validateChunkSizes output = Ok tt
  | Throw e => exists p, e = NotOfDeclaredType p
  end.
Proof.
  unfold applyTaskDefaultsForCreate.
  pose proof (defaultEnums_cases defaults taskData) as H1.
  destruct (defaultEnums defaults taskData) as [o1|e]; [|exact H1].
  cbn [mbind Outcome_bind].
  pose proof (defaultTimeChunksRequired_cases defaults (defaultFlags defaults o1)) as H2.
  destruct (defaultTimeChunksRequired _ _) as [o2|e]; [|exact H2].
  cbn [mbind Outcome_bind].
  pose proof (defaultChunkSizes_cases defaults o2) as H3.
  destruct (defaultChunkSizes _ _) as [o3|e]; [|exact H3].
  cbn [mbind Outcome_bind].
  pose proof (clampChunkSizes_cases o3) as H4.
  destruct (clampChunkSizes o3) as [o4|e]; [|exact H4].
  apply H4.
Qed.

(** The chunk fields on the way from the input of
    [applyTaskDefaultsForCreate] to its clamping step. *)
Lemma applyTaskDefaultsForCreate_inv (taskData output : JSObject) defaults :
  applyTaskDefaultsForCreate taskData defaults = Ok output ->
  exists o3, clampChunkSizes o3 = Ok output
    /\ (isUndefined (prop taskData "timeChunksRequired") = false ->
        prop o3 "timeChunksRequired" = prop taskData "timeChunksRequired")
    /\ (isUndefined (prop taskData "minChunkSize") = false ->
        prop o3 "minChunkSize" = prop taskData "minChunkSize")
    /\ (isUndefined (prop taskData "maxChunkSize") = false ->
        prop o3 "maxChunkSize" = prop taskData "maxChunkSize").
Proof.
  unfold applyTaskDefaultsForCreate. intros H.
  pose proof (defaultEnums_cases defaults taskData) as H1.
  destruct (defaultEnums defaults taskData) as [o1|e]; [|discriminate].
  cbn [mbind Outcome_bind] in H.
  pose proof (defaultTimeChunksRequired_cases defaults (defaultFlags defaults o1)) as H2.
  destruct (defaultTimeChunksRequired _ _) as [o2|e]; [|discriminate].
  cbn [mbind Outcome_bind] in H. destruct H2 as [F2 K2].
  pose proof (defaultChunkSizes_cases defaults o2) as H3.
  destruct (defaultChunkSizes _ _) as [o3|e]; [|discriminate].
  cbn [mbind Outcome_bind] in H. destruct H3 as (F3 & Km & KM).
  assert (G : forall k, k ∈ ["timeChunksRequired"; "minChunkSize"; "maxChunkSize"]%string ->
                        prop (defaultFlags defaults o1) k = prop taskData k).
  { intros k Hk.
    repeat (apply elem_of_cons in Hk as [->|Hk]);
      [ rewrite defaultFlags_frame by done; by rewrite H1 .. | ].
    by apply elem_of_nil in Hk. }
  assert (Gt := G "timeChunksRequired"%string ltac:(repeat constructor)).
  assert (Gm := G "minChunkSize"%string ltac:(repeat constructor)).
  assert (GM := G "maxChunkSize"%string ltac:(repeat constructor)).
  exists o3. split; [exact H|]. split; [|split].
  - intros E. rewrite F3 by done. rewrite K2; rewrite Gt; done.
  - intros E. rewrite Km; rewrite F2 by done; rewrite Gm; done.
  - intros E. rewrite KM; rewrite F2 by done; rewrite GM; done.
Qed.

(** *** The tool layer *)

Lemma convertMinutes_value minutes chunks data data' value :
  convertMinutes minutes chunks data = Ok data' ->
  prop data minutes = VNumber value ->
  prop data' chunks = VNumber (Z.quot value 15).
Proof.
  unfold convertMinutes. intros H Hv. rewrite Hv in H.
  unfold minutesToChunks, CHUNK_MINUTES in H.
  destruct (negb _); cbn in H; [discriminate|].
  injection H as <-. by rewrite prop_insert.
Qed.

Lemma normalizeChunkInputs_inv (input data : JSObject) :
  normalizeChunkInputs input = Ok data ->
  exists d3,
    (forall k, k <> "timeChunksRequired"%string -> k <> "minChunkSize"%string ->
               k <> "maxChunkSize"%string -> prop d3 k = prop input k)
    /\ (forall m, prop input "minDurationMinutes" = VNumber m ->
         prop d3 "minChunkSize" = VNumber (Z.quot m 15))
    /\ (forall m, prop input "maxDurationMinutes" = VNumber m ->
         prop d3 "maxChunkSize" = VNumber (Z.quot m 15))
    /\ (if truthy (prop input "lockChunkSizeToDuration")
        then exists n, prop d3 "timeChunksRequired" = VNumber n
                       /\ prop data "timeChunksRequired" = VNumber n
                       /\ prop data "minChunkSize" = VNumber n
                       /\ prop data "maxChunkSize" = VNumber n
        else forall k, k ∈ ["timeChunksRequired"; "minChunkSize"; "maxChunkSize"]%string ->
                       prop data k = prop d3 k).
Proof.
  unfold normalizeChunkInputs. intros H.
  destruct (convertMinutes "durationMinutes" _ input) as [d1|] eqn:E1;
    [|discriminate]. cbn [mbind Outcome_bind] in H.
  destruct (convertMinutes "minDurationMinutes" _ d1) as [d2|] eqn:E2;
    [|discriminate]. cbn [mbind Outcome_bind] in H.
  destruct (convertMinutes "maxDurationMinutes" _ d2) as [d3|] eqn:E3;
    [|discriminate]. cbn [mbind Outcome_bind] in H.
  assert (F : forall k, k <> "timeChunksRequired"%string -> k <> "minChunkSize"%string ->
                        k <> "maxChunkSize"%string -> prop d3 k = prop input k).
  { intros k H1 H2 H3.
    rewrite (convertMinutes_prop_ne _ _ _ _ _ E3) by done.
    rewrite (convertMinutes_prop_ne _ _ _ _ _ E2) by done.
    by rewrite (convertMinutes_prop_ne _ _ _ _ _ E1). }
  exists d3. split; [exact F|]. split; [|split].
  { intros m Hm.
    rewrite (convertMinutes_prop_ne _ _ _ _ _ E3) by done.
    apply (convertMinutes_value _ _ _ _ _ E2).
    by rewrite (convertMinutes_prop_ne _ _ _ _ _ E1). }
  { intros m Hm.
    apply (convertMinutes_value _ _ _ _ _ E3).
    rewrite (convertMinutes_prop_ne _ _ _ _ _ E2) by done.
    by rewrite (convertMinutes_prop_ne _ _ _ _ _ E1). }
  rewrite <- (F "lockChunkSizeToDuration") by done.
  destruct (truthy (prop d3 "lockChunkSizeToDuration")).
  - destruct (prop d3 "timeChunksRequired") as [| |b|n|s] eqn:Et;
      cbn [isNumber negb mbind Outcome_bind] in H; try discriminate.
    injection H as <-. exists n. prop_simpl. done.
  - cbn [mbind Outcome_bind] in H. injection H as <-.
    intros k Hk. repeat (apply elem_of_cons in Hk as [->|Hk]); prop_simpl; try done.
    by apply elem_of_nil in Hk.
Qed.

(** C7: with the lock flag set, a successful normalisation leaves
    [minChunkSize] and [maxChunkSize] equal to [timeChunksRequired], and
    [applyTaskDefaultsForCreate] keeps all three; the only way the latter can
    stop is on a value outside its declared type. *)
Theorem C7_lock_to_duration (input data : JSObject) (defaults : option JSObject) :
  truthy (prop input "lockChunkSizeToDuration") = true ->
  normalizeChunkInputs input = Ok data ->
  exists n,
    prop data "timeChunksRequired" = VNumber n
    /\ prop data "minChunkSize" = VNumber n
    /\ prop data "maxChunkSize" = VNumber n
    /\ match applyTaskDefaultsForCreate data defaults with
       | Ok output =>
           prop output "timeChunksRequired" = VNumber n
           /\ prop output "minChunkSize" = VNumber n
           /\ prop output "maxChunkSize" = VNumber n
       | Throw e => exists p, e = NotOfDeclaredType p
       end.
Proof.
  intros Hlock Hn.
  destruct (normalizeChunkInputs_inv _ _ Hn) as (d3 & _ & _ & _ & H).
  rewrite Hlock in H. destruct H as (n & _ & Ht & Hm & HM).
  exists n. split; [exact Ht|]. split; [exact Hm|]. split; [exact HM|].
  pose proof (applyTaskDefaultsForCreate_cases data defaults) as Hc.
  destruct (applyTaskDefaultsForCreate data defaults) as [output|e] eqn:Ea;
    [|exact Hc].
  destruct (applyTaskDefaultsForCreate_inv _ _ _ Ea) as (o3 & Hclamp & Kt & Km & KM).
  rewrite Ht in Kt. rewrite Hm in Km. rewrite HM in KM.
  destruct (clampChunkSizes_locked o3 n (Kt eq_refl) (Km eq_refl) (KM eq_refl))
    as (o' & Hclamp' & H').
  rewrite Hclamp in Hclamp'. injection Hclamp' as <-. exact H'.
Qed.

Lemma C7_lock_to_duration_witness :
  exists n,
    prop (object [("maxChunkSize", VNumber 8); ("minChunkSize", VNumber 8);
                  ("title", VString "t"); ("timeChunksRequired", VNumber 8)])
      "timeChunksRequired" = VNumber n
    /\ prop (object [("maxChunkSize", VNumber 8); ("minChunkSize", VNumber 8);
                     ("title", VString "t"); ("timeChunksRequired", VNumber 8)])
         "minChunkSize" = VNumber n
    /\ prop (object [("maxChunkSize", VNumber 8); ("minChunkSize", VNumber 8);
                     ("title", VString "t"); ("timeChunksRequired", VNumber 8)])
         "maxChunkSize" = VNumber n
    /\ match applyTaskDefaultsForCreate
               (object [("maxChunkSize", VNumber 8); ("minChunkSize", VNumber 8);
                        ("title", VString "t"); ("timeChunksRequired", VNumber 8)])
               (Some (object [("minChunkSize", VNumber 1); ("maxChunkSize", VNumber 4)]))
       with
       | Ok output =>
           prop output "timeChunksRequired" = VNumber n
           /\ prop output "minChunkSize" = VNumber n
           /\ prop output "maxChunkSize" = VNumber n
       | Throw e => exists p, e = NotOfDeclaredType p
       end.
Proof.
  apply (C7_lock_to_duration
           (object [("title", VString "t"); ("durationMinutes", VNumber 120);
                    ("minDurationMinutes", VNumber 15);
                    ("maxDurationMinutes", VNumber 60);
                    ("lockChunkSizeToDuration", VBool true)])).
  - vm_compute. reflexivity.
  - vm_compute. reflexivity.
Defined.




(** ** The client operations *)

Lemma Date_toISOString_throws d e :
  Date_toISOString d = Throw e -> e = InvalidTimeValue.
Proof. destruct d; cbn; congruence. Qed.

Lemma assertValidLocalDateTime_throws parts ms input e :
  assertValidLocalDateTime parts ms input = Throw e -> kind e = InvalidInput.
Proof.
  unfold assertValidLocalDateTime.
  destruct (TimeClip _);
    repeat match goal with
           | |- context [if ?b then _ else _] => destruct b
           end; intros [= <-]; reflexivity.
Qed.

Lemma parseDeadline_throws h v tz e :
  parseDeadline h v tz = Throw e ->
  kind e = InvalidInput \/ kind e = InvalidTimezone \/ e = InvalidTimeValue.
Proof.
  unfold parseDeadline.
  destruct v as [| |b|days|input].
  1-3: intros H; right; right; by apply Date_toISOString_throws in H.
  - destruct (days <=? 0); [discriminate|].
    intros H; right; right; by apply Date_toISOString_throws in H.
  - destruct (test_HAS_TIMEZONE_REGEX _).
    { destruct (Date_parse _ _); intros [= <-]. by left. }
    destruct (match_LOCAL_DATETIME_REGEX _) as [m|].
    2: { destruct (Date_parse _ _); intros [= <-]. by left. }
    destruct (assertValidLocalDateTime _ _ _) as [[]|e'] eqn:Ev;
      cbn [mbind Outcome_bind].
    2: { intros [= <-]. left. by apply assertValidLocalDateTime_throws in Ev. }
    destruct (negb _).
    + unfold assertValidTimeZone.
      destruct (timeZoneDatabase _ _); cbn [mbind Outcome_bind].
      * intros H; right; right; by apply Date_toISOString_throws in H.
      * intros [= <-]. right. by left.
    + destruct (Date_local _ _ _ _ _ _ _ _); intros [= <-]. by left.
Qed.

Lemma parseDeadline_not_conflict h v tz e :
  parseDeadline h v tz = Throw e -> kind e <> ChunkSizeConflictKind.
Proof.
  intros H. destruct (parseDeadline_throws _ _ _ _ H) as [K|[K| ->]];
    [rewrite K; discriminate..|discriminate].
Qed.

Lemma validateChunkSizes_ext (o1 o2 : JSObject) :
  prop o1 "minChunkSize" = prop o2 "minChunkSize" ->
  prop o1 "maxChunkSize" = prop o2 "maxChunkSize" ->
  validateChunkSizes o1 = validateChunkSizes o2.
Proof. unfold validateChunkSizes. by intros -> ->. Qed.

Lemma parseField_cases h k tz (o : JSObject) :
  match parseField h k tz o with
  | Ok o' => (forall k', k' <> k -> prop o' k' = prop o k') /\ dom o' = dom o
  | Throw e => kind e <> ChunkSizeConflictKind
  end.
Proof.
  unfold parseField.
  destruct (isUndefined (prop o k)) eqn:E; cbn [negb]; [done|].
  destruct (parseDeadline h (prop o k) tz) as [iso|e] eqn:Ep; cbn [mbind Outcome_bind].
  - split; [intros; by prop_simpl|].
    apply dom_insert_present. by destruct (prop o k).
  - by apply parseDeadline_not_conflict in Ep.
Qed.

Lemma sameButDates_refl o : sameButDates o o.
Proof. by intros k _. Qed.

Lemma sameButDates_trans o1 o2 o3 :
  sameButDates o1 o2 -> sameButDates o2 o3 -> sameButDates o1 o3.
Proof. intros H1 H2 k Hk. by rewrite H2, H1. Qed.

Lemma sameButDates_validate o o' :
  sameButDates o o' -> validateChunkSizes o' = validateChunkSizes o.
Proof.
  intros H. apply validateChunkSizes_ext; apply H;
    intros [E|[E|E]]; discriminate E.
Qed.

Lemma parseField_dates h k tz (o : JSObject) :
  dateKey k ->
  match parseField h k tz o with
  | Ok o' => sameButDates o o'
  | Throw e => kind e <> ChunkSizeConflictKind
  end.
Proof.
  intros Hk. pose proof (parseField_cases h k tz o) as H.
  destruct (parseField h k tz o); [|exact H].
  intros k' Hk'. apply H. by intros ->.
Qed.

Lemma sameButDates_insert o o' k v :
  dateKey k -> sameButDates o o' -> sameButDates o (<[k := v]> o').
Proof. intros Hk H k' Hk'. rewrite prop_insert_ne; [by apply H|]. by intros ->. Qed.

Lemma sameButDates_delete o o' k :
  dateKey k -> sameButDates o o' -> sameButDates o (delete k o').
Proof. intros Hk H k' Hk'. rewrite prop_delete_ne; [by apply H|]. by intros ->. Qed.

Lemma sameButDates_removeUndefined o o' :
  sameButDates o o' -> sameButDates o (removeUndefined o').
Proof. intros H k Hk. rewrite prop_removeUndefined. by apply H. Qed.

Lemma dateKey_due : dateKey "due".
Proof. by left. Qed.
Lemma dateKey_deadline : dateKey "deadline".
Proof. by right; left. Qed.
Lemma dateKey_snoozeUntil : dateKey "snoozeUntil".
Proof. by right; right. Qed.

Create HintDb dates.

#[local] Hint Resolve dateKey_due dateKey_deadline dateKey_snoozeUntil
  sameButDates_insert sameButDates_delete sameButDates_removeUndefined
  sameButDates_refl : dates.

(** Steps through [c ≫= f] in the goal with a lemma [L] on [c] of the shape
    [match c with Ok a => P a | Throw e => Q e end]. *)
Ltac step_with L :=
  let H := fresh "S" in
  pose proof L as H;
  match type of H with
  | match ?c with _ => _ end =>
      let e := fresh "e" in
      destruct c as [?|e] eqn:?; cbn [mbind Outcome_bind kind];
      [ | try exact H; try (destruct H as [? ->]; discriminate) ]
  end.

Lemma createTask_cases h defaults (taskData : JSObject) tz :
  match createTask h defaults taskData tz with
  | Ok request =>
      exists output,
        applyTaskDefaultsForCreate taskData defaults = Ok output
        /\ sameButDates output (payloadOf request)
        /\ exists payload, request = PostTask payload
  | Throw e => kind e <> ChunkSizeConflictKind
  end.
Proof.
  unfold createTask, handleApiError.
  step_with (applyTaskDefaultsForCreate_cases taskData defaults).
  rename a into o.
  step_with (parseField_dates h "due" (resolvedTimeZone h tz) o dateKey_due).
  rename a into o1.
  match goal with
  | |- context [mbind _ ?c] =>
      assert (S1 : match c with
                   | Ok o2 => sameButDates o o2
                   | Throw e => kind e <> ChunkSizeConflictKind
                   end)
  end.
  { destruct (negb (isUndefined (prop o1 "deadline"))).
    - destruct (parseDeadline h (prop o1 "deadline") _) as [due|e] eqn:Ed;
        cbn [mbind Outcome_bind]; [eauto 6 with dates|].
      by apply parseDeadline_not_conflict in Ed.
    - destruct (negb (truthy (prop o1 "due"))); [|done].
      destruct (isPositiveNumber _);
        destruct (parseDeadline h _ _) as [due|e] eqn:Ed;
        cbn [mbind Outcome_bind]; eauto 6 with dates;
        by apply parseDeadline_not_conflict in Ed. }
  match type of S1 with
  | match ?c with _ => _ end => destruct c as [o2|e]; cbn [mbind Outcome_bind kind];
                                [|exact S1]
  end.
  step_with (parseField_dates h "snoozeUntil" (resolvedTimeZone h tz) o2
               dateKey_snoozeUntil).
  rename a into o3.
  assert (F : sameButDates o o3) by eauto using sameButDates_trans.
  rewrite (sameButDates_validate _ _ F), S. cbn [mbind Outcome_bind].
  exists o. split; [done|]. split; [eauto with dates|eauto].
Qed.

Lemma createTaskAtTime_cases h defaults startTime (taskData : JSObject) tz :
  match createTaskAtTime h defaults startTime taskData tz with
  | Ok request =>
      exists output,
        applyTaskDefaultsForCreate taskData defaults = Ok output
        /\ sameButDates output (payloadOf request)
        /\ exists iso payload, request = PostTaskAtTime iso payload
  | Throw e => kind e <> ChunkSizeConflictKind
  end.
Proof.
  unfold createTaskAtTime, handleApiError.
  step_with (applyTaskDefaultsForCreate_cases taskData defaults).
  rename a into o.
  destruct (parseDeadline h (VString startTime) _) as [startTimeIso|e] eqn:Es;
    cbn [mbind Outcome_bind kind];
    [|by apply parseDeadline_not_conflict in Es].
  step_with (parseField_dates h "due" (resolvedTimeZone h tz) o dateKey_due).
  rename a into o1.
  match goal with
  | |- context [mbind _ ?c] =>
      assert (S1 : match c with
                   | Ok o2 => sameButDates o o2
                   | Throw e => kind e <> ChunkSizeConflictKind
                   end)
  end.
  { destruct (negb (isUndefined (prop o1 "deadline"))).
    - destruct (parseDeadline h (prop o1 "deadline") _) as [due|e] eqn:Ed;
        cbn [mbind Outcome_bind]; [eauto 6 with dates|].
      by apply parseDeadline_not_conflict in Ed.
    - destruct (negb (truthy (prop o1 "due"))); [|done].
      match goal with
      | |- context [mbind _ ?c] =>
          assert (S2 : match c with
                       | Ok _ => True
                       | Throw e => kind e <> ChunkSizeConflictKind
                       end)
      end.
      { assert (D : forall d, match Date_toISOString d with
                              | Ok _ => True
                              | Throw e => kind e <> ChunkSizeConflictKind
                              end) by (intros [?|]; cbn; done).
        destruct (Date_parse h startTimeIso); [|apply D].
        destruct (negb (isUndefined _)); [|apply D].
        pose proof (declared_asNumber "timeChunksRequired"
                      (prop o1 "timeChunksRequired")) as Da.
        destruct (asNumber _ _) as [n|e]; cbn [mbind Outcome_bind];
          [|destruct Da as [p ->]; discriminate].
        destruct (0 <? n); apply D. }
      match type of S2 with
      | match ?c with _ => _ end =>
          destruct c as [due|e]; cbn [mbind Outcome_bind]; [|exact S2]
      end.
      eauto 6 with dates. }
  match type of S1 with
  | match ?c with _ => _ end => destruct c as [o2|e]; cbn [mbind Outcome_bind kind];
                                [|exact S1]
  end.
  step_with (parseField_dates h "snoozeUntil" (resolvedTimeZone h tz) o2
               dateKey_snoozeUntil).
  rename a into o3.
  assert (F : sameButDates o o3) by eauto using sameButDates_trans.
  rewrite (sameButDates_validate _ _ F), S. cbn [mbind Outcome_bind].
  exists o. split; [done|]. split; [eauto with dates|eauto].
Qed.

(** *** The paragraphs of [normalizeTaskPatch] *)

Lemma patchEnums_cases defaults (o : JSObject) :
  match patchEnums defaults o with
  | Ok o' =>
      dom o' = dom o
      /\ forall k, k <> "eventCategory"%string -> k <> "eventSubType"%string ->
                   k <> "priority"%string -> prop o' k = prop o k
  | Throw e => exists p, e = NotOfDeclaredType p
  end.
Proof.
  unfold patchEnums.
  assert (T : forall (x : JSObject) k, truthy (prop x k) = true -> prop x k <> VUndefined)
    by (intros x k; destruct (prop x k); done).
  match goal with
  | |- context [mbind _ ?c] =>
      assert (S1 : match c with
                   | Ok o1 => dom o1 = dom o
                              /\ forall k, k <> "eventCategory"%string ->
                                           prop o1 k = prop o k
                   | Throw e => exists p, e = NotOfDeclaredType p
                   end)
  end.
  { destruct (truthy (prop o "eventCategory")) eqn:E; [|done].
    pose proof (declared_normalizeEventCategory (prop o "eventCategory")
                  (optProp defaults "category")) as D.
    destruct (normalizeEventCategory _ _); cbn [mbind Outcome_bind]; [|exact D].
    split; [by apply dom_insert_present, T|intros; by prop_simpl]. }
  match type of S1 with
  | match ?c with _ => _ end =>
      destruct c as [o1|e]; cbn [mbind Outcome_bind]; [|exact S1]
  end.
  destruct S1 as [D1 F1].
  match goal with
  | |- context [mbind _ ?c] =>
      assert (S2 : match c with
                   | Ok o2 => dom o2 = dom o1
                              /\ forall k, k <> "eventSubType"%string ->
                                           prop o2 k = prop o1 k
                   | Throw e => exists p, e = NotOfDeclaredType p
                   end)
  end.
  { destruct (truthy (prop o1 "eventSubType")) eqn:E; [|done].
    match goal with
    | |- context [mbind _ ?c] =>
        assert (D : declared c)
    end.
    { apply declared_if; [apply declared_normalizeEventCategory|].
      apply declared_bind; [apply declared_inferCategoryFromSubType|].
      intros; apply declared_normalizeEventCategory. }
    match type of D with
    | declared ?c => destruct c as [category|e]; cbn [mbind Outcome_bind]; [|exact D]
    end.
    pose proof (declared_normalizeEventSubType (prop o1 "eventSubType") category) as D'.
    destruct (normalizeEventSubType _ _); cbn [mbind Outcome_bind]; [|exact D'].
    split; [by apply dom_insert_present, T|intros; by prop_simpl]. }
  match type of S2 with
  | match ?c with _ => _ end =>
      destruct c as [o2|e]; cbn [mbind Outcome_bind]; [|exact S2]
  end.
  destruct S2 as [D2 F2].
  destruct (truthy (prop o2 "priority")) eqn:E.
  - pose proof (declared_normalizePriority (prop o2 "priority")
                  (optProp defaults "priority")) as D.
    destruct (normalizePriority _ _); cbn [mbind Outcome_bind]; [|exact D].
    split.
    + rewrite dom_insert_present by (by apply T). congruence.
    + intros k K1 K2 K3. prop_simpl. by rewrite F2, F1.
  - split; [congruence|]. intros k K1 K2 K3. by rewrite F2, F1.
Qed.

Lemma patchTimeSchemeId_cases (o : JSObject) :
  dom (patchTimeSchemeId o) ⊆ dom o
  /\ dom o ∖ {["timeSchemeId"%string]} ⊆ dom (patchTimeSchemeId o)
  /\ forall k, k <> "timeSchemeId"%string -> prop (patchTimeSchemeId o) k = prop o k.
Proof.
  unfold patchTimeSchemeId.
  destruct (_ && _).
  - rewrite dom_delete_L. split; [set_solver|]. split; [set_solver|].
    intros; by prop_simpl.
  - split; [done|]. split; [set_solver|done].
Qed.

(** [normalizeTaskPatch], whatever the input: no key is added, none but
    [timeSchemeId] is dropped, the properties it does not normalise keep
    their value, and the bounds pass [validateChunkSizes]. *)
Lemma normalizeTaskPatch_cases (taskData : JSObject) defaults :
  match normalizeTaskPatch taskData defaults with
  | Ok output =>
      dom output ⊆ dom taskData
      /\ dom taskData ∖ {["timeSchemeId"%string]} ⊆ dom output
      /\ (forall k,
            k ∉ ["eventCategory"; "eventSubType"; "priority"; "timeSchemeId";
                 "minChunkSize"; "maxChunkSize"]%string ->
            prop output k = prop taskData k)
      /\ validateChunkSizes output = Ok tt
      /\ exists o2, clampChunkSizes o2 = Ok output
                    /\ prop o2 "minChunkSize" = prop taskData "minChunkSize"
                    /\ prop o2 "maxChunkSize" = prop taskData "maxChunkSize"
  | Throw e => exists p, e = NotOfDeclaredType p
  end.
Proof.
  unfold normalizeTaskPatch.
  pose proof (patchEnums_cases defaults taskData) as H1.
  destruct (patchEnums defaults taskData) as [o1|e]; [|exact H1].
  cbn [mbind Outcome_bind]. destruct H1 as [D1 F1].
  destruct (patchTimeSchemeId_cases o1) as (D2 & D2' & F2).
  pose proof (clampChunkSizes_cases (patchTimeSchemeId o1)) as H3.
  destruct (clampChunkSizes _) as [o3|e] eqn:E3; [|exact H3].
  destruct H3 as (V & D3 & F3).
  rewrite D3, <- D1.
  split; [exact D2|]. split; [exact D2'|]. split; [|split; [exact V|]].
  - intros k Hk.
    rewrite F3, F2, F1; [done|..]; intros ->; apply Hk; repeat constructor.
  - eexists. split; [exact E3|]. rewrite !F2, !F1 by done. done.
Qed.

(** C9: the output of [normalizeTaskPatch] has no key that its input
    lacks, and loses none but [timeSchemeId]; the properties outside the
    normalised ones keep their value, so no account default is injected. The
    only exception that can be raised is the one for a value outside its
    declared type. *)
Theorem C9_patch_adds_no_field (taskData : JSObject) (defaults : option JSObject) :
  match normalizeTaskPatch taskData defaults with
  | Ok output =>
      dom output ⊆ dom taskData
      /\ dom taskData ∖ {["timeSchemeId"%string]} ⊆ dom output
      /\ (forall k,
            k ∉ ["eventCategory"; "eventSubType"; "priority"; "timeSchemeId";
                 "minChunkSize"; "maxChunkSize"]%string ->
            prop output k = prop taskData k)
  | Throw e => exists p, e = NotOfDeclaredType p
  end.
Proof.
  pose proof (normalizeTaskPatch_cases taskData defaults) as H.
  destruct (normalizeTaskPatch taskData defaults); [|exact H].
  destruct H as (H1 & H2 & H3 & _). auto.
Qed.

(** Outside [normalizeTaskPatch]: [updateTask] goes on to forward a
    [deadline] of the patch under the key [due], the name the API uses. *)
Example update_forwards_deadline_as_due :
  updateTask utcHost None 7 (object [("deadline"%string, VString "2026-03-10")]) None
  = Ok (PatchTask 7 (object [("due"%string, VString "2026-03-10T00:00:00.000Z")])).
Proof. vm_compute. reflexivity. Qed.

(** A patch of the title alone is forwarded as it is, whatever the
    defaults of the account. *)
Example patch_keeps_partial_update :
  normalizeTaskPatch (object [("title"%string, VString "Write report")])
    (Some (object [("priority"%string, VString "P2"); ("minChunkSize"%string, VNumber 2)]))
  = Ok (object [("title"%string, VString "Write report")]).
Proof. vm_compute. reflexivity. Qed.

Lemma updateTask_cases h defaults taskId (taskData : JSObject) tz :
  match updateTask h defaults taskId taskData tz with
  | Ok request =>
      exists output payload,
        normalizeTaskPatch taskData defaults = Ok output
        /\ sameButDates output payload
        /\ (request = PatchTask taskId payload
            \/ (request = GetTask taskId /\ dom payload = ∅))
  | Throw e => kind e <> ChunkSizeConflictKind
  end.
Proof.
  unfold updateTask, handleApiError.
  pose proof (normalizeTaskPatch_cases taskData defaults) as S0.
  destruct (normalizeTaskPatch taskData defaults) as [o|e] eqn:E0;
    cbn [mbind Outcome_bind kind]; [|destruct S0 as [p ->]; discriminate].
  destruct S0 as (_ & _ & _ & V & _).
  step_with (parseField_dates h "due" (resolvedTimeZone h tz) o dateKey_due).
  rename a into o1.
  match goal with
  | |- context [mbind _ ?c] =>
      assert (S1 : match c with
                   | Ok o2 => sameButDates o o2
                   | Throw e => kind e <> ChunkSizeConflictKind
                   end)
  end.
  { destruct (negb (isUndefined (prop o1 "deadline"))); [|done].
    destruct (parseDeadline h (prop o1 "deadline") _) as [due|e] eqn:Ed;
      cbn [mbind Outcome_bind]; [eauto 6 with dates|].
    by apply parseDeadline_not_conflict in Ed. }
  match type of S1 with
  | match ?c with _ => _ end => destruct c as [o2|e]; cbn [mbind Outcome_bind kind];
                                [|exact S1]
  end.
  step_with (parseField_dates h "snoozeUntil" (resolvedTimeZone h tz) o2
               dateKey_snoozeUntil).
  rename a into o3.
  assert (F : sameButDates o o3) by eauto using sameButDates_trans.
  rewrite (sameButDates_validate _ _ F), V. cbn [mbind Outcome_bind].
  destruct (bool_decide _) eqn:Eb.
  - apply bool_decide_eq_true in Eb.
    exists o, (removeUndefined o3). split; [done|]. split; [eauto with dates|].
    right. done.
  - exists o, (removeUndefined o3). split; [done|]. split; [eauto with dates|].
    by left.
Qed.

Lemma quot_exact value : value mod 15 = 0 -> Z.quot value 15 = value / 15.
Proof.
  intros H. apply Z.mod_divide in H; [|lia]. destruct H as [q ->].
  rewrite Z.quot_mul by lia. by rewrite Z.div_mul by lia.
Qed.


Lemma normalizeChunkInputs_throws (taskData : JSObject) e :
  normalizeChunkInputs taskData = Throw e -> kind e <> ChunkSizeConflictKind.
Proof.
  unfold normalizeChunkInputs.
  destruct (convertMinutes_cases "durationMinutes" "timeChunksRequired" taskData)
    as [[d1 ->]| ->]; cbn [mbind Outcome_bind]; [|intros [= <-]; discriminate].
  destruct (convertMinutes_cases "minDurationMinutes" "minChunkSize" d1)
    as [[d2 ->]| ->]; cbn [mbind Outcome_bind]; [|intros [= <-]; discriminate].
  destruct (convertMinutes_cases "maxDurationMinutes" "maxChunkSize" d2)
    as [[d3 ->]| ->]; cbn [mbind Outcome_bind]; [|intros [= <-]; discriminate].
  destruct (truthy _); [destruct (negb _)|]; cbn [mbind Outcome_bind];
    intros [= <-]; discriminate.
Qed.








(** ** Absolute date-times *)



(** The repository's own test of this path. *)
Example absolute_offset_kept :
  parseDeadline utcHost (VString "2026-01-05T08:00:00-08:00")
    (Some "America/New_York"%string)
  = Ok "2026-01-05T16:00:00.000Z"%string.
Proof. vm_compute. reflexivity. Qed.

(** ** Relative days *)

Lemma days_from_civil_linear y m d :
  days_from_civil y m d = days_from_civil y m 1 + d - 1.
Proof. unfold days_from_civil. lia. Qed.

Lemma MakeDay_of_time t n :
  MakeDay (YearFromTime t) (MonthFromTime t) (DateFromTime t + n) = Day t + n.
Proof.
  unfold MakeDay, YearFromTime, MonthFromTime, DateFromTime.
  pose proof (civil_from_days_valid (Day t)) as [Hm _].
  pose proof (days_from_civil_from_days (Day t)) as Hr.
  destruct (civil_from_days (Day t)) as [[y m] d]; cbn [fst snd] in *.
  replace ((m - 1) / 12) with 0 by lia.
  replace ((m - 1) mod 12 + 1) with m by lia.
  rewrite Z.add_0_r. rewrite days_from_civil_linear in Hr. lia.
Qed.

Lemma MakeDate_Day t : MakeDate (Day t) (TimeWithinDay t) = t.
Proof. unfold MakeDate, Day, TimeWithinDay, msPerDay. lia. Qed.

Lemma Date_setDate_shift h t n :
  Date_setDate h t (Date_getDate h t + n)
  = TimeClip (UTC h (LocalTime h t + n * msPerDay)).
Proof.
  unfold Date_setDate, Date_getDate. rewrite MakeDay_of_time.
  f_equal. f_equal. unfold MakeDate, Day, TimeWithinDay, msPerDay. lia.
Qed.

(** C5, as the code has it: a positive number of days advances the
    host-local date of the evaluation instant by that many days and keeps
    the host-local time of day; the result is the evaluation instant plus
    [days] times 24 hours when the host's zone has one fixed offset. *)
Theorem C5_relative_days_host_calendar
    (h : Host) (days : Z) (timeZone : option string) :
  0 < days ->
  parseDeadline h (VNumber days) timeZone
  = Date_toISOString (TimeClip (UTC h (LocalTime h (now h) + days * msPerDay)))
  /\ forall offset,
       (forall t isUTC, LocalTZA h t isUTC = offset) ->
       Z.abs (now h + days * msPerDay) <= 8640000000000000 ->
       parseDeadline h (VNumber days) timeZone
       = Ok (toISOString (now h + days * msPerDay)).
Proof.
  intros Hpos.
  assert (E : parseDeadline h (VNumber days) timeZone
              = Date_toISOString
                  (TimeClip (UTC h (LocalTime h (now h) + days * msPerDay)))).
  { unfold parseDeadline.
    destruct (Z.leb_spec days 0); [lia|]. by rewrite Date_setDate_shift. }
  split; [exact E|].
  intros offset Hoff Hrange. rewrite E.
  unfold UTC, LocalTime. rewrite !Hoff.
  replace (now h + offset + days * msPerDay - offset) with (now h + days * msPerDay)
    by lia.
  unfold TimeClip. destruct (Z.leb_spec (Z.abs (now h + days * msPerDay))
                               8640000000000000); [done|lia].
Qed.

Lemma C5_relative_days_host_calendar_witness :
  parseDeadline utcHost (VNumber 3) None
  = Date_toISOString
      (TimeClip (UTC utcHost (LocalTime utcHost (now utcHost) + 3 * msPerDay)))
  /\ forall offset,
       (forall t isUTC, LocalTZA utcHost t isUTC = offset) ->
       Z.abs (now utcHost + 3 * msPerDay) <= 8640000000000000 ->
       parseDeadline utcHost (VNumber 3) None
       = Ok (toISOString (now utcHost + 3 * msPerDay)).
Proof.
  apply (C5_relative_days_host_calendar utcHost 3 None). lia.
Defined.

(** C5, as the specification has it, fails on a host whose zone observes
    daylight saving time: at 2026-03-07T20:00Z (noon in Los Angeles) one day
    ahead is noon of 8 March in Los Angeles, 23 hours later and not 24. *)
Lemma C5_counterexample :
  parseDeadline pacificHost (VNumber 1) None = Ok "2026-03-08T19:00:00.000Z"%string
  /\ toISOString (now pacificHost + 1 * 24 * msPerHour)
     = "2026-03-08T20:00:00.000Z"%string
  /\ parseDeadline pacificHost (VNumber 1) None
     <> Ok (toISOString (now pacificHost + 1 * 24 * msPerHour)).
Proof.
  split; [vm_compute; reflexivity|].
  split; [vm_compute; reflexivity|].
  vm_compute. discriminate.
Qed.

(** ** Local date-times that do not exist *)

Lemma outside_spec lo hi x : outside lo hi x = false <-> lo <= x <= hi.
Proof.
  unfold outside. rewrite orb_false_iff, Z.ltb_ge, Z.gtb_ltb, Z.ltb_ge. lia.
Qed.

Lemma assertValidLocalDateTime_invalid parts millisecond input :
  invalidComponents parts millisecond ->
  exists e, assertValidLocalDateTime parts millisecond input = Throw e
            /\ kind e = InvalidInput.
Proof.
  intros Hinv. unfold assertValidLocalDateTime.
  destruct (outside 1 12 (month parts)) eqn:E1; [eauto|].
  destruct (outside 1 31 (day parts)) eqn:E2; [eauto|].
  destruct (outside 0 23 (hour parts)) eqn:E3; [eauto|].
  destruct (outside 0 59 (minute parts)) eqn:E4; [eauto|].
  destruct (outside 0 59 (second parts)) eqn:E5; [eauto|].
  destruct (outside 0 999 millisecond) eqn:E6; [eauto|].
  apply outside_spec in E1, E2, E3, E4, E5, E6.
  destruct Hinv as [H|[H|[H|[H|[H|[H|H]]]]]]; try (exfalso; tauto).
  destruct (TimeClip _) as [utcCheck|]; [|eauto].
  match goal with |- context [if ?b then _ else _] => destruct b eqn:Eb end; [eauto|].
  exfalso.
  repeat (apply orb_false_iff in Eb as [Eb ?]).
  repeat match goal with
         | E : negb _ = false |- _ => apply negb_false_iff, Z.eqb_eq in E
         end.
  match goal with
  | Ey : YearFromTime ?u = _, Em : MonthFromTime ?u + 1 = _, Ed : DateFromTime ?u = _
    |- _ =>
      pose proof (civil_from_days_valid (Day u)) as [_ [_ Hv]];
      unfold YearFromTime in Ey; unfold MonthFromTime in Em; unfold DateFromTime in Ed;
      replace (snd (fst (civil_from_days (Day u)))) with (month parts) in Hv by lia;
      rewrite Ey, Ed in Hv
  end.
  lia.
Qed.

(** C8: a local date-time whose components are out of range, or whose day
    the month does not have, is rejected with an invalid-input error: by
    [assertValidLocalDateTime] on the components, and so by [parseDeadline]
    on a string that is read as a local date-time; the two strings of the
    specification are rejected. *)
Theorem C8_invalid_local_datetime
    (h : Host) (input : string) (timeZone : option string) (m : LocalMatch) :
  test_HAS_TIMEZONE_REGEX (trim input) = false ->
  match_LOCAL_DATETIME_REGEX (trim input) = Some m ->
  invalidComponents (localParts m) (localMillisecond m) ->
  failsWith InvalidInput
    (assertValidLocalDateTime (localParts m) (localMillisecond m) input)
  /\ failsWith InvalidInput (parseDeadline h (VString input) timeZone)
  /\ parseDeadline utcHost (VString "2026-02-30T09:00:00")
       (Some "America/Los_Angeles"%string)
     = Throw (InvalidDateTime "2026-02-30T09:00:00")
  /\ parseDeadline utcHost (VString "2026-01-05T25:00:00")
       (Some "America/Los_Angeles"%string)
     = Throw (InvalidHour "2026-01-05T25:00:00").
Proof.
  intros Htz Hm Hinv.
  destruct (assertValidLocalDateTime_invalid _ _ input Hinv) as (e & He & Hk).
  split; [by exists e|]. split.
  - exists e. split; [|exact Hk].
    unfold parseDeadline. rewrite Htz, Hm.
    unfold localParts, localMillisecond in He. by rewrite He.
  - split; vm_compute; reflexivity.
Qed.

Lemma C8_invalid_local_datetime_witness :
  failsWith InvalidInput
    (parseDeadline utcHost (VString "2026-02-30T09:00:00")
       (Some "America/Los_Angeles"%string)).
Proof.
  apply (C8_invalid_local_datetime utcHost "2026-02-30T09:00:00"
           (Some "America/Los_Angeles"%string)
           {| yearRaw := list_ascii_of_string "2026";
              monthRaw := list_ascii_of_string "02";
              dayRaw := list_ascii_of_string "30";
              hourRaw := Some (list_ascii_of_string "09");
              minuteRaw := Some (list_ascii_of_string "00");
              secondRaw := Some (list_ascii_of_string "00");
              millisecondRaw := None |}).
  - vm_compute. reflexivity.
  - vm_compute. reflexivity.
  - unfold invalidComponents. vm_compute. intuition congruence.
Defined.

(** ** Rendering an instant and reading it back *)

Lemma YearFromTime_lower x : -573371 * msPerDay <= x -> 400 <= YearFromTime x.
Proof.
  intros H. unfold YearFromTime, civil_from_days, Day; cbn [fst snd].
  unfold msPerDay in H.
  set (z' := x / msPerDay + 719468).
  assert (Hz : 146097 <= z') by (unfold z', msPerDay; lia).
  set (doe := z' mod 146097).
  assert (Hdoe : 0 <= doe < 146097) by (apply Z.mod_pos_bound; lia).
  set (yoe := (doe - doe / 1460 + doe / 36524 - doe / 146096) / 365).
  assert (Hyoe : 0 <= yoe) by (unfold yoe; lia).
  assert (1 <= z' / 146097) by lia.
  destruct (_ <=? 2); lia.
Qed.

Lemma MakeTime_of_time x :
  MakeTime (HourFromTime x) (MinFromTime x) (SecFromTime x) 0
  = TimeWithinDay x - x mod 1000.
Proof.
  unfold MakeTime, HourFromTime, MinFromTime, SecFromTime, TimeWithinDay,
    msPerHour, msPerMinute, msPerSecond, msPerDay.
  lia.
Qed.

(** Away from the years 0..99, [Date.UTC] on the fields of a time value
    gives the time value back, short of its milliseconds. *)
Lemma Date_UTC_of_time x :
  -573371 * msPerDay <= x ->
  Date_UTC (YearFromTime x) (MonthFromTime x + 1 - 1) (DateFromTime x)
    (HourFromTime x) (MinFromTime x) (SecFromTime x) 0
  = x - x mod 1000.
Proof.
  intros H. unfold Date_UTC.
  pose proof (YearFromTime_lower x H) as Hy.
  replace (YearFromTime x <=? 99) with false by (symmetry; apply Z.leb_gt; lia).
  rewrite andb_false_r.
  replace (MonthFromTime x + 1 - 1) with (MonthFromTime x) by lia.
  replace (DateFromTime x) with (DateFromTime x + 0) at 1 by lia.
  rewrite MakeDay_of_time, MakeTime_of_time, Z.add_0_r.
  pose proof (MakeDate_Day x) as Hd. unfold MakeDate in *. lia.
Qed.

Lemma partsToUtcMillis_getZonedParts t zone :
  -573371 * msPerDay <= t + zone t ->
  partsToUtcMillis (getZonedParts t zone) = (t + zone t) - (t + zone t) mod 1000.
Proof.
  intros H. unfold partsToUtcMillis, getZonedParts; cbn [year month day hour minute second].
  by apply Date_UTC_of_time.
Qed.

Lemma getTimeZoneOffset_spec t zone :
  -573371 * msPerDay <= t + zone t ->
  getTimeZoneOffset t zone = zone t - (t + zone t) mod 1000.
Proof.
  intros H. unfold getTimeZoneOffset. rewrite partsToUtcMillis_getZonedParts by done. lia.
Qed.

Lemma partsMatch_naive a b :
  partsMatch a b = true -> partsToUtcMillis a = partsToUtcMillis b.
Proof.
  unfold partsMatch, partsToUtcMillis. intros H.
  repeat (apply andb_true_iff in H as [H ?]).
  repeat match goal with E : (_ =? _) = true |- _ => apply Z.eqb_eq in E end.
  congruence.
Qed.

(** ** Sets of offsets and sorted candidates *)

Lemma Set_add_elem x s y : y ∈ Set_add x s <-> y = x \/ y ∈ s.
Proof.
  unfold Set_add. destruct (bool_decide (x ∈ s)) eqn:E.
  - apply bool_decide_eq_true in E. split; [by right|]. by intros [->|].
  - rewrite elem_of_app, list_elem_of_singleton. tauto.
Qed.

Lemma candidateOffsets_elem guess zone o :
  o ∈ candidateOffsets guess zone <->
  o = getTimeZoneOffset guess zone
  \/ o = getTimeZoneOffset (guess - getTimeZoneOffset guess zone) zone
  \/ o = getTimeZoneOffset (guess - getTimeZoneOffset guess zone + 3600000) zone
  \/ o = getTimeZoneOffset (guess - getTimeZoneOffset guess zone - 3600000) zone.
Proof.
  unfold candidateOffsets.
  assert (E : Set_add (getTimeZoneOffset guess zone) [] = [getTimeZoneOffset guess zone]).
  { unfold Set_add. rewrite bool_decide_eq_false_2; [done|]. apply not_elem_of_nil. }
  rewrite E. cbn [fold_left].
  rewrite !Set_add_elem, list_elem_of_singleton. tauto.
Qed.

Lemma candidatesOf_elem guess zone c :
  c ∈ candidatesOf guess zone <->
  exists o, o ∈ candidateOffsets guess zone
            /\ c = {| date := guess - o; parts := getZonedParts (guess - o) zone |}.
Proof.
  unfold candidatesOf. generalize (candidateOffsets guess zone). intros l. split.
  - intros H. apply list_elem_of_In, in_map_iff in H. destruct H as (o & <- & Ho).
    exists o. split; [by apply list_elem_of_In|reflexivity].
  - intros (o & Ho & ->). apply list_elem_of_In, in_map_iff.
    exists o. split; [reflexivity|by apply list_elem_of_In].
Qed.

Section Sorting.
Context {A : Type} (compare : A -> A -> Z).
Hypothesis compare_total : forall a b, 0 < compare a b -> compare b a <= 0.
Hypothesis compare_trans :
  forall a b c, compare a b <= 0 -> compare b c <= 0 -> compare a c <= 0.

Lemma insertSorted_elem x l y :
  y ∈ insertSorted compare x l <-> y = x \/ y ∈ l.
Proof using Type.
  induction l as [|z l IH]; cbn [insertSorted].
  - rewrite list_elem_of_singleton. split; [by left|]. intros [->|H]; [done|].
    by apply elem_of_nil in H.
  - destruct (compare x z <=? 0).
    + by rewrite elem_of_cons.
    + rewrite elem_of_cons, IH, elem_of_cons. tauto.
Qed.

Lemma Array_sort_elem l y : y ∈ Array_sort compare l <-> y ∈ l.
Proof using Type.
  induction l as [|z l IH]; cbn [Array_sort foldr]; [done|].
  fold (Array_sort compare l). rewrite insertSorted_elem, IH, elem_of_cons. tauto.
Qed.

(** The first element of a sorted array compares below all the others. *)
Lemma Array_sort_head l x rest :
  Array_sort compare l = x :: rest ->
  x ∈ l /\ forall y, y ∈ l -> compare x y <= 0.
Proof using compare_total compare_trans.
  intros H. split.
  { apply Array_sort_elem. rewrite H. apply list_elem_of_here. }
  revert x rest H. induction l as [|a l IH]; intros x rest H y Hy.
  { by apply elem_of_nil in Hy. }
  cbn [Array_sort foldr] in H. fold (Array_sort compare l) in H.
  assert (Hrefl : forall b, compare b b <= 0).
  { intros b. destruct (Z_lt_le_dec 0 (compare b b)) as [Hb|Hb]; [|done].
    by apply compare_total. }
  destruct (Array_sort compare l) as [|s0 srest] eqn:Es.
  - assert (l = []) as ->.
    { destruct l as [|b l']; [done|].
      assert (Hb : b ∈ Array_sort compare (b :: l'))
        by (apply Array_sort_elem, list_elem_of_here).
      rewrite Es in Hb. by apply elem_of_nil in Hb. }
    cbn in H. injection H as <- <-.
    apply list_elem_of_singleton in Hy as ->. apply Hrefl.
  - cbn [insertSorted] in H.
    specialize (IH s0 srest eq_refl).
    destruct (Z.leb_spec (compare a s0) 0) as [Hle|Hgt].
    + injection H as <- <-.
      apply elem_of_cons in Hy as [->|Hy]; [apply Hrefl|].
      eapply compare_trans; [exact Hle|by apply IH].
    + injection H as <- <-.
      apply elem_of_cons in Hy as [->|Hy]; [by apply compare_total|by apply IH].
Qed.
End Sorting.

Lemma Array_sort_nil {A} (compare : A -> A -> Z) l :
  Array_sort compare l = [] -> l = [].
Proof.
  intros H. destruct l as [|b l']; [done|].
  assert (Hb : b ∈ Array_sort compare (b :: l'))
    by (apply Array_sort_elem, list_elem_of_here).
  rewrite H in Hb. by apply elem_of_nil in Hb.
Qed.

(** The two comparators of [zonedTimeToUtc] are total preorders. *)
Lemma compare_date_total (a b : Candidate) : 0 < date a - date b -> date b - date a <= 0.
Proof. lia. Qed.

Lemma compare_date_trans (a b c : Candidate) :
  date a - date b <= 0 -> date b - date c <= 0 -> date a - date c <= 0.
Proof. lia. Qed.

(** ** A wall-clock time inside a spring-forward gap *)

Lemma assertValidLocalDateTime_ranges p ms input :
  assertValidLocalDateTime p ms input = Ok tt ->
  1 <= month p <= 12 /\ 1 <= day p <= 31 /\ 0 <= hour p <= 23
  /\ 0 <= minute p <= 59 /\ 0 <= second p <= 59 /\ 0 <= ms <= 999.
Proof.
  unfold assertValidLocalDateTime.
  destruct (outside 1 12 (month p)) eqn:E1; [discriminate|].
  destruct (outside 1 31 (day p)) eqn:E2; [discriminate|].
  destruct (outside 0 23 (hour p)) eqn:E3; [discriminate|].
  destruct (outside 0 59 (minute p)) eqn:E4; [discriminate|].
  destruct (outside 0 59 (second p)) eqn:E5; [discriminate|].
  destruct (outside 0 999 ms) eqn:E6; [discriminate|].
  apply outside_spec in E1, E2, E3, E4, E5, E6. tauto.
Qed.

Lemma TimeClip_Some t u : TimeClip t = Some u -> u = t.
Proof. unfold TimeClip. destruct (_ <=? _); congruence. Qed.

Lemma days_from_civil_lower y m :
  1000 <= y -> 1 <= m <= 12 -> -427274 <= days_from_civil y m 1.
Proof.
  intros Hy Hm. unfold days_from_civil.
  destruct (m <=? 2) eqn:E; [apply Z.leb_le in E|apply Z.leb_gt in E]; lia.
Qed.

Lemma partsToUtcMillis_lower p :
  1000 <= year p -> 1 <= month p <= 12 -> 1 <= day p -> 0 <= hour p ->
  0 <= minute p -> 0 <= second p ->
  -427274 * msPerDay <= partsToUtcMillis p /\ partsToUtcMillis p mod 1000 = 0.
Proof.
  intros Hy Hm Hd Hh Hmi Hs.
  unfold partsToUtcMillis, Date_UTC.
  replace (year p <=? 99) with false by (symmetry; apply Z.leb_gt; lia).
  rewrite andb_false_r.
  unfold MakeDay.
  replace ((month p - 1) / 12) with 0 by lia.
  replace ((month p - 1) mod 12 + 1) with (month p) by lia.
  rewrite Z.add_0_r.
  pose proof (days_from_civil_lower (year p) (month p) Hy Hm).
  unfold MakeDate, MakeTime, msPerDay, msPerHour, msPerMinute, msPerSecond.
  split; lia.
Qed.

Lemma Date_UTC_millisecond y m d hh mi ss ms :
  Date_UTC y m d hh mi ss ms = Date_UTC y m d hh mi ss 0 + ms.
Proof. unfold Date_UTC, MakeDate, MakeTime. lia. Qed.

Lemma compareAfter_total w a b :
  0 < compareAfter w a b -> compareAfter w b a <= 0.
Proof.
  unfold compareAfter.
  destruct (Z.eqb_spec (naive a - w) (naive b - w));
    destruct (Z.eqb_spec (naive b - w) (naive a - w)); cbn [negb]; lia.
Qed.

Lemma compareAfter_trans w a b c :
  compareAfter w a b <= 0 -> compareAfter w b c <= 0 -> compareAfter w a c <= 0.
Proof.
  unfold compareAfter.
  destruct (Z.eqb_spec (naive a - w) (naive b - w));
    destruct (Z.eqb_spec (naive b - w) (naive c - w));
    destruct (Z.eqb_spec (naive a - w) (naive c - w)); cbn [negb]; lia.
Qed.

Lemma compareAfter_naive w a b : compareAfter w a b <= 0 -> naive a <= naive b.
Proof.
  unfold compareAfter.
  destruct (Z.eqb_spec (naive a - w) (naive b - w)); cbn [negb]; lia.
Qed.

Lemma filter_nil_forall {A} (f : A -> bool) (l : list A) :
  (forall x, x ∈ l -> f x = false) -> List.filter f l = [].
Proof.
  intros H. destruct (List.filter f l) as [|x r] eqn:E; [done|].
  assert (Hx : In x (List.filter f l)) by (rewrite E; by left).
  apply filter_In in Hx as [Hx Hf]. apply list_elem_of_In in Hx.
  rewrite (H x Hx) in Hf. discriminate.
Qed.

(** A zone with a forward jump of its offset at the instant [T], from [o1]
    to [o2], and no other change within three days of it; the desired
    wall-clock time [w] lies in the gap, the times no clock of the zone
    shows. *)
Section SpringForward.
Variables (zone : Z -> Z) (T o1 o2 : Z).
Variables (y mo d hh mi ss ms : Z) (input : string).

Abbreviation desired :=
  {| year := y; month := mo; day := d; hour := hh; minute := mi; second := ss |}.
Abbreviation w := (partsToUtcMillis desired).
Abbreviation guess := (Date_UTC y (mo - 1) d hh mi ss ms).

Hypothesis Hvalid : assertValidLocalDateTime desired ms input = Ok tt.
Hypothesis Hyear : 1000 <= y <= 9999.
Hypothesis Hbefore : forall t, T - 3 * msPerDay <= t -> t < T -> zone t = o1.
Hypothesis Hafter : forall t, T <= t -> t <= T + 3 * msPerDay -> zone t = o2.
Hypothesis Hjump : o1 < o2.
Hypothesis Hrange : - msPerDay <= o1 /\ o2 <= msPerDay.
Hypothesis Hseconds : o1 mod 1000 = 0 /\ o2 mod 1000 = 0 /\ T mod 1000 = 0.
Hypothesis Hgap : T + o1 <= w < T + o2.

Lemma sf_facts :
  0 <= ms <= 999 /\ guess = w + ms /\ w mod 1000 = 0 /\ -427274 * msPerDay <= w.
Proof using All.
  destruct (assertValidLocalDateTime_ranges _ _ _ Hvalid)
    as (R1 & R2 & R3 & R4 & R5 & R6); cbn [year month day hour minute second] in *.
  destruct (partsToUtcMillis_lower desired) as [L1 L2];
    cbn [year month day hour minute second]; try lia.
  split; [exact R6|]. split; [|split; [exact L2|exact L1]].
  unfold partsToUtcMillis; cbn [year month day hour minute second].
  apply Date_UTC_millisecond.
Qed.

(** What a probe of the zone yields at an instant near the transition. *)
Lemma sf_probe t :
  T - 3 * msPerDay <= t <= T + 3 * msPerDay ->
  (t < T -> zone t = o1) /\ (T <= t -> zone t = o2)
  /\ getTimeZoneOffset t zone = zone t - (t + zone t) mod 1000
  /\ partsToUtcMillis (getZonedParts t zone) = (t + zone t) - (t + zone t) mod 1000.
Proof using All.
  intros Ht. destruct sf_facts as (_ & _ & _ & Hlow).
  assert (Hz : zone t = o1 \/ zone t = o2).
  { destruct (Z_lt_le_dec t T); [left; apply Hbefore|right; apply Hafter]; lia. }
  assert (Hl : -573371 * msPerDay <= t + zone t)
    by (unfold msPerDay, msPerHour in *; lia).
  split; [intros; apply Hbefore; lia|]. split; [intros; apply Hafter; lia|].
  split; [by apply getTimeZoneOffset_spec|by apply partsToUtcMillis_getZonedParts].
Qed.

(** Every candidate offset is one of the two offsets of the zone, short
    of the milliseconds of the instant it was probed at. *)
Lemma sf_offsets o :
  o ∈ candidateOffsets guess zone ->
  exists mu, 0 <= mu <= 999 /\ (o = o1 - mu \/ o = o2 - mu) /\ (ms = 0 -> mu = 0).
Proof using All.
  intros Ho. apply candidateOffsets_elem in Ho.
  destruct sf_facts as (Hms & Hg & Hwm & _).
  assert (P0 : T - 3 * msPerDay <= guess <= T + 3 * msPerDay)
    by (unfold msPerDay, msPerHour in *; lia).
  destruct (sf_probe guess P0) as (B0 & A0 & G0 & _).
  assert (Z0 : zone guess = o1 \/ zone guess = o2)
    by (destruct (Z_lt_le_dec guess T); [left|right]; auto).
  set (off0 := getTimeZoneOffset guess zone) in *.
  assert (Hc : forall delta, -3600000 <= delta <= 3600000 ->
                T - 3 * msPerDay <= guess - off0 + delta <= T + 3 * msPerDay)
    by (intros; unfold msPerDay, msPerHour in *; lia).
  assert (Hone : forall delta, -3600000 <= delta <= 3600000 -> delta mod 1000 = 0 ->
            exists mu, 0 <= mu <= 999
              /\ (getTimeZoneOffset (guess - off0 + delta) zone = o1 - mu
                  \/ getTimeZoneOffset (guess - off0 + delta) zone = o2 - mu)
              /\ (ms = 0 -> mu = 0)).
  { intros delta Hd Hdm.
    destruct (sf_probe _ (Hc delta Hd)) as (B & A & G & _).
    exists ((guess - off0 + delta + zone (guess - off0 + delta)) mod 1000).
    split; [lia|]. split.
    - rewrite G. destruct (Z_lt_le_dec (guess - off0 + delta) T);
        [left; rewrite B by done|right; rewrite A by done]; reflexivity.
    - intros Hms0.
      assert (zone (guess - off0 + delta) = o1 \/ zone (guess - off0 + delta) = o2)
        by (destruct (Z_lt_le_dec (guess - off0 + delta) T); [left|right]; auto).
      unfold msPerDay, msPerHour in *. lia. }
  destruct Ho as [-> | [-> | [-> | ->]]].
  - exists ((guess + zone guess) mod 1000). split; [lia|]. split.
    + fold off0. rewrite G0. destruct Z0 as [-> | ->]; [by left|by right].
    + intros Hms0. unfold msPerDay, msPerHour in *. lia.
  - replace (guess - off0) with (guess - off0 + 0) by lia. apply Hone; [lia|done].
  - apply Hone; [lia|done].
  - replace (guess - off0 - 3600000) with (guess - off0 + -3600000) by lia.
    apply Hone; [lia|done].
Qed.

(** An offset taken before the transition is among the candidates. *)
Lemma sf_offset_before :
  exists mu, 0 <= mu <= 999 /\ (o1 - mu) ∈ candidateOffsets guess zone.
Proof using All.
  destruct sf_facts as (Hms & Hg & Hwm & _).
  assert (P0 : T - 3 * msPerDay <= guess <= T + 3 * msPerDay)
    by (unfold msPerDay, msPerHour in *; lia).
  destruct (sf_probe guess P0) as (B0 & A0 & G0 & _).
  destruct (Z_lt_le_dec guess T) as [Hlt|Hge].
  - exists ((guess + zone guess) mod 1000). split; [lia|].
    apply candidateOffsets_elem. left. rewrite G0, (B0 Hlt). reflexivity.
  - set (off0 := getTimeZoneOffset guess zone) in *.
    assert (P3 : T - 3 * msPerDay <= guess - off0 - 3600000 <= T + 3 * msPerDay)
      by (rewrite G0, (A0 Hge); unfold msPerDay, msPerHour in *; lia).
    destruct (sf_probe _ P3) as (B3 & _ & G3 & _).
    assert (Hlt3 : guess - off0 - 3600000 < T)
      by (rewrite G0, (A0 Hge); unfold msPerDay, msPerHour in *; lia).
    exists ((guess - off0 - 3600000 + zone (guess - off0 - 3600000)) mod 1000).
    split; [lia|].
    apply candidateOffsets_elem. right; right; right.
    fold off0. rewrite G3, (B3 Hlt3). reflexivity.
Qed.

(** The candidate built from an offset [oj - mu]. *)
Lemma sf_candidate oj mu :
  0 <= mu <= 999 -> oj = o1 \/ oj = o2 ->
  let t := guess - (oj - mu) in
  T - 3 * msPerDay <= t <= T + 3 * msPerDay
  /\ (oj = o1 -> T <= t /\ w <= partsToUtcMillis (getZonedParts t zone))
  /\ (oj = o2 -> mu = 0 -> ms = 0 ->
      partsToUtcMillis (getZonedParts t zone) < w)
  /\ partsToUtcMillis (getZonedParts t zone) <> w.
Proof using All.
  intros Hmu Hoj t. destruct sf_facts as (Hms & Hg & Hwm & _).
  assert (Pt : T - 3 * msPerDay <= t <= T + 3 * msPerDay)
    by (unfold t, msPerDay, msPerHour in *; lia).
  destruct (sf_probe t Pt) as (B & A & _ & N).
  split; [exact Pt|]. rewrite N.
  destruct Hseconds as (S1 & S2 & ST).
  split; [|split].
  - intros ->. assert (Hge : T <= t) by (unfold t; lia).
    split; [exact Hge|]. rewrite (A Hge). unfold t, msPerDay, msPerHour in *. lia.
  - intros -> -> Hms0. assert (Hlt : t < T) by (unfold t; lia).
    rewrite (B Hlt). unfold t, msPerDay, msPerHour in *. lia.
  - destruct (Z_lt_le_dec t T) as [Hlt|Hge].
    + rewrite (B Hlt). unfold t, msPerDay, msPerHour in *. lia.
    + rewrite (A Hge). unfold t, msPerDay, msPerHour in *. lia.
Qed.

(** C3: when the desired wall-clock time lies in the gap of a
    spring-forward transition, no candidate matches it and
    [zonedTimeToUtc] returns a candidate whose rendered wall-clock time is
    at or after the desired one and the closest such; for a time without
    milliseconds it is the desired time read with the offset in force
    before the transition, which the zone shows moved forward by the size
    of the gap. The scenario of the specification, 02:30 on 8 March 2026
    in Los Angeles, resolves to 10:30Z. *)
Theorem C3_spring_forward_gap :
  (exists c,
      c ∈ candidatesOf guess zone
      /\ zonedTimeToUtc y mo d hh mi ss ms zone = date c
      /\ w <= partsToUtcMillis (parts c)
      /\ forall c', c' ∈ candidatesOf guess zone ->
                    w <= partsToUtcMillis (parts c') ->
                    partsToUtcMillis (parts c) <= partsToUtcMillis (parts c'))
  /\ (ms = 0 ->
      zonedTimeToUtc y mo d hh mi ss ms zone = w - o1
      /\ wallClock zone (w - o1) = w + (o2 - o1))
  /\ parseDeadline utcHost (VString "2026-03-08T02:30:00")
       (Some "America/Los_Angeles"%string)
     = Ok "2026-03-08T10:30:00.000Z"%string.
Proof using All.
  match goal with
  | |- ?A /\ ?B /\ ?C =>
      assert (G : A /\ B);
      [|destruct G; split; [done|split; [done|vm_compute; reflexivity]]]
  end.
  destruct sf_facts as (Hms & Hg & Hwm & _).
  (* the candidates, one by one *)
  assert (Hcand : forall c, c ∈ candidatesOf guess zone ->
            exists oj mu, 0 <= mu <= 999 /\ (oj = o1 \/ oj = o2)
              /\ (ms = 0 -> mu = 0)
              /\ date c = guess - (oj - mu)
              /\ parts c = getZonedParts (guess - (oj - mu)) zone).
  { intros c Hc. apply candidatesOf_elem in Hc as (o & Ho & ->).
    destruct (sf_offsets o Ho) as (mu & Hmu & [-> | ->] & H0);
      [exists o1, mu|exists o2, mu]; cbn [date parts]; auto 10. }
  (* none of them matches *)
  assert (Hnone : List.filter (fun c => partsMatch (parts c) desired)
                    (candidatesOf guess zone) = []).
  { apply filter_nil_forall. intros c Hc.
    destruct (Hcand c Hc) as (oj & mu & Hmu & Hoj & _ & _ & Hp).
    destruct (partsMatch (parts c) desired) eqn:E; [|done].
    apply partsMatch_naive in E. rewrite Hp in E.
    by destruct (sf_candidate oj mu Hmu Hoj) as (_ & _ & _ & Hne). }
  (* one of them is at or after the desired time *)
  set (mk := fun c => {| candidate := c; naive := partsToUtcMillis (parts c) |}).
  set (after := List.filter (fun c => w <=? naive c)
                  (map mk (candidatesOf guess zone))).
  assert (Hin : forall c, c ∈ candidatesOf guess zone ->
                          w <= partsToUtcMillis (parts c) -> In (mk c) after).
  { intros c Hc Hn. apply filter_In. split.
    - apply in_map. by apply list_elem_of_In.
    - cbn [naive mk]. by apply Z.leb_le. }
  assert (Hex : exists c, In (mk c) after).
  { destruct sf_offset_before as (mu & Hmu & Ho).
    exists {| date := guess - (o1 - mu);
              parts := getZonedParts (guess - (o1 - mu)) zone |}.
    apply Hin.
    - apply candidatesOf_elem. eauto.
    - cbn [parts].
      destruct (sf_candidate o1 mu Hmu (or_introl eq_refl)) as (_ & H1 & _).
      by apply H1. }
  assert (Hres : exists first rest,
             Array_sort (compareAfter w) after = first :: rest
             /\ zonedTimeToUtc y mo d hh mi ss ms zone = date (candidate first)).
  { destruct (Array_sort (compareAfter w) after) as [|first rest] eqn:Es.
    - apply Array_sort_nil in Es. destruct Hex as [c Hc]. rewrite Es in Hc.
      destruct Hc.
    - exists first, rest. split; [done|].
      unfold zonedTimeToUtc. rewrite Hnone. cbn [Array_sort foldr].
      fold mk. fold after. by rewrite Es. }
  destruct Hres as (first & rest & Es & Hr).
  destruct (Array_sort_head (compareAfter w) (compareAfter_total w)
              (compareAfter_trans w) after first rest Es) as [Hf Hleast].
  apply list_elem_of_In, filter_In in Hf as [Hf Hfn].
  apply in_map_iff in Hf as (c & <- & Hc). apply list_elem_of_In in Hc.
  cbn [naive candidate mk] in *. apply Z.leb_le in Hfn.
  assert (Hmin : forall c', c' ∈ candidatesOf guess zone ->
                   w <= partsToUtcMillis (parts c') ->
                   partsToUtcMillis (parts c) <= partsToUtcMillis (parts c')).
  { intros c' Hc' Hn'.
    apply (compareAfter_naive w (mk c) (mk c')).
    apply Hleast. apply list_elem_of_In. by apply Hin. }
  split; [exists c; auto|].
  intros Hms0. rewrite Hr.
  destruct (Hcand c Hc) as (oj & mu & Hmu & Hoj & H0 & Hd & Hp).
  rewrite (H0 Hms0) in Hd, Hp.
  destruct (sf_candidate oj 0 ltac:(lia) Hoj) as (_ & _ & H2 & _).
  destruct Hoj as [-> | ->].
  - split; [rewrite Hd; lia|].
    unfold wallClock. rewrite Hafter; unfold msPerDay, msPerHour in *; lia.
  - exfalso. rewrite Hp in Hfn.
    specialize (H2 eq_refl eq_refl Hms0). lia.
Qed.
End SpringForward.

Lemma C3_spring_forward_gap_witness :
  zonedTimeToUtc 2026 3 8 2 30 0 0 America_Los_Angeles = Date_UTC 2026 2 8 10 30 0 0
  /\ wallClock America_Los_Angeles (Date_UTC 2026 2 8 10 30 0 0)
     = Date_UTC 2026 2 8 3 30 0 0.
Proof.
  assert (HT : Date_UTC 2026 2 8 10 0 0 0 = 1772964000000) by (vm_compute; reflexivity).
  assert (HT2 : Date_UTC 2026 10 1 9 0 0 0 = 1793523600000) by (vm_compute; reflexivity).
  assert (Hw : partsToUtcMillis {| year := 2026; month := 3; day := 8; hour := 2;
                                   minute := 30; second := 0 |} = 1772937000000)
    by (vm_compute; reflexivity).
  destruct (C3_spring_forward_gap America_Los_Angeles (Date_UTC 2026 2 8 10 0 0 0)
              (-8 * msPerHour) (-7 * msPerHour) 2026 3 8 2 30 0 0
              "2026-03-08T02:30:00") as (_ & H & _).
  - vm_compute. reflexivity.
  - lia.
  - intros t H1 H2. unfold America_Los_Angeles. rewrite HT, HT2 in *.
    destruct (Z.leb_spec 1772964000000 t); [lia|reflexivity].
  - intros t H1 H2. unfold America_Los_Angeles. rewrite HT, HT2 in *.
    unfold msPerDay in H2.
    destruct (Z.leb_spec 1772964000000 t); [|lia].
    destruct (Z.ltb_spec t 1793523600000); [reflexivity|lia].
  - unfold msPerHour. lia.
  - unfold msPerHour, msPerDay. lia.
  - vm_compute. auto.
  - rewrite Hw, HT. unfold msPerHour. lia.
  - destruct (H eq_refl) as [H1 _]. rewrite H1, Hw.
    split; vm_compute; reflexivity.
Defined.

(** ** A wall-clock time that occurs twice *)

(** Whenever some candidate renders as the desired components,
    [zonedTimeToUtc] returns the earliest candidate that does. *)
Lemma zonedTimeToUtc_earliest_match y mo d hh mi ss ms zone c0 :
  let desired :=
    {| year := y; month := mo; day := d; hour := hh; minute := mi; second := ss |} in
  let guess := Date_UTC y (mo - 1) d hh mi ss ms in
  c0 ∈ candidatesOf guess zone -> partsMatch (parts c0) desired = true ->
  exists c, c ∈ candidatesOf guess zone
            /\ partsMatch (parts c) desired = true
            /\ zonedTimeToUtc y mo d hh mi ss ms zone = date c
            /\ forall c', c' ∈ candidatesOf guess zone ->
                          partsMatch (parts c') desired = true -> date c <= date c'.
Proof.
  intros desired guess Hc0 Hm0.
  set (matching := List.filter (fun c => partsMatch (parts c) desired)
                     (candidatesOf guess zone)).
  assert (Hin : forall c, c ∈ candidatesOf guess zone ->
                          partsMatch (parts c) desired = true -> In c matching).
  { intros c Hc Hm. apply filter_In. split; [by apply list_elem_of_In|done]. }
  destruct (Array_sort compareDate matching) as [|first rest] eqn:Es.
  { apply Array_sort_nil in Es. specialize (Hin c0 Hc0 Hm0). rewrite Es in Hin.
    destruct Hin. }
  destruct (Array_sort_head compareDate compare_date_total compare_date_trans
              matching first rest Es) as [Hf Hleast].
  apply list_elem_of_In, filter_In in Hf as [Hf Hfm]. apply list_elem_of_In in Hf.
  exists first. split; [done|]. split; [done|]. split.
  - unfold zonedTimeToUtc. fold desired guess matching. by rewrite Es.
  - intros c' Hc' Hm'.
    specialize (Hleast c' ltac:(apply list_elem_of_In; by apply Hin)).
    unfold compareDate in Hleast. lia.
Qed.

(** *** Whole seconds: the earlier of the two instants *)

Lemma assertValidLocalDateTime_fields p input :
  assertValidLocalDateTime p 0 input = Ok tt ->
  getZonedParts (partsToUtcMillis p) (fun _ => 0) = p.
Proof.
  unfold assertValidLocalDateTime, partsToUtcMillis, getZonedParts.
  repeat match goal with
         | |- context [if outside ?a ?b ?c then _ else _] => destruct (outside a b c)
         end; try discriminate.
  rewrite Z.add_0_r.
  destruct (TimeClip _) as [u|] eqn:Eu; [|discriminate].
  apply TimeClip_Some in Eu. rewrite <- Eu. clear Eu.
  match goal with |- context [if ?b then _ else _] => destruct b eqn:Eb end;
    [discriminate|]. intros _.
  repeat (apply orb_false_iff in Eb as [Eb ?]).
  repeat match goal with
         | E : negb _ = false |- _ => apply negb_false_iff, Z.eqb_eq in E
         end.
  destruct p; cbn [year month day hour minute second] in *. congruence.
Qed.

Lemma partsMatch_refl p : partsMatch p p = true.
Proof. unfold partsMatch. by rewrite !Z.eqb_refl. Qed.

(** A zone whose offset falls at the instant [T], from [o1] to [o2], by at
    most an hour; the desired wall-clock time [w] lies in the overlap, the
    times the clocks of the zone show twice. *)
Section FallBack.
Variables (zone : Z -> Z) (T o1 o2 : Z).
Variables (y mo d hh mi ss : Z) (input : string).

Abbreviation desired :=
  {| year := y; month := mo; day := d; hour := hh; minute := mi; second := ss |}.
Abbreviation w := (partsToUtcMillis desired).

Hypothesis Hvalid : assertValidLocalDateTime desired 0 input = Ok tt.
Hypothesis Hyear : 1000 <= y <= 9999.
Hypothesis Hbefore : forall t, T - 2 * msPerDay <= t -> t < T -> zone t = o1.
Hypothesis Hafter : forall t, T <= t -> t <= T + 2 * msPerDay -> zone t = o2.
Hypothesis Hjump : o2 < o1 <= o2 + msPerHour.
Hypothesis Hrange : - msPerDay <= o2 /\ o1 <= msPerDay.
Hypothesis Hseconds : o1 mod 1000 = 0 /\ o2 mod 1000 = 0 /\ T mod 1000 = 0.
Hypothesis Hoverlap : T + o2 <= w < T + o1.

Lemma fb_facts : w mod 1000 = 0 /\ -427274 * msPerDay <= w.
Proof using All.
  destruct (assertValidLocalDateTime_ranges _ _ _ Hvalid)
    as (R1 & R2 & R3 & R4 & R5 & R6); cbn [year month day hour minute second] in *.
  destruct (partsToUtcMillis_lower desired) as [L1 L2];
    cbn [year month day hour minute second]; [lia..|].
  split; [exact L2|exact L1].
Qed.

Lemma fb_probe t :
  T - 2 * msPerDay <= t <= T + 2 * msPerDay -> t mod 1000 = 0 ->
  (t < T -> zone t = o1) /\ (T <= t -> zone t = o2)
  /\ getTimeZoneOffset t zone = zone t
  /\ getZonedParts t zone = getZonedParts (t + zone t) (fun _ => 0).
Proof using All.
  intros Ht Hm. destruct fb_facts as (_ & Hlow).
  assert (Hz : zone t = o1 \/ zone t = o2).
  { destruct (Z_lt_le_dec t T); [left; apply Hbefore|right; apply Hafter]; lia. }
  assert (Hl : -573371 * msPerDay <= t + zone t)
    by (unfold msPerDay, msPerHour in *; lia).
  split; [intros; apply Hbefore; lia|]. split; [intros; apply Hafter; lia|].
  split.
  - rewrite getTimeZoneOffset_spec by done. unfold msPerDay, msPerHour in *. lia.
  - unfold getZonedParts. by rewrite Z.add_0_r.
Qed.

Lemma fb_offsets o :
  o ∈ candidateOffsets w zone -> o = o1 \/ o = o2.
Proof using All.
  intros Ho. apply candidateOffsets_elem in Ho.
  destruct fb_facts as (Hwm & _).
  assert (P0 : T - 2 * msPerDay <= w <= T + 2 * msPerDay)
    by (unfold msPerDay, msPerHour in *; lia).
  destruct (fb_probe w P0 Hwm) as (B0 & A0 & G0 & _).
  assert (Z0 : zone w = o1 \/ zone w = o2)
    by (destruct (Z_lt_le_dec w T); [left|right]; auto).
  rewrite G0 in Ho.
  assert (Hone : forall delta, -3600000 <= delta <= 3600000 -> delta mod 1000 = 0 ->
            getTimeZoneOffset (w - zone w + delta) zone = o1
            \/ getTimeZoneOffset (w - zone w + delta) zone = o2).
  { intros delta Hd Hdm.
    assert (P : T - 2 * msPerDay <= w - zone w + delta <= T + 2 * msPerDay)
      by (unfold msPerDay, msPerHour in *; lia).
    assert (M : (w - zone w + delta) mod 1000 = 0)
      by (unfold msPerDay, msPerHour in *; lia).
    destruct (fb_probe _ P M) as (B & A & G & _). rewrite G.
    destruct (Z_lt_le_dec (w - zone w + delta) T); [left|right]; auto. }
  destruct Ho as [-> | [-> | [-> | ->]]].
  - exact Z0.
  - replace (w - zone w) with (w - zone w + 0) by lia. apply Hone; [lia|done].
  - apply Hone; [lia|done].
  - replace (w - zone w - 3600000) with (w - zone w + -3600000) by lia.
    apply Hone; [lia|done].
Qed.

Lemma fb_offset_before : o1 ∈ candidateOffsets w zone.
Proof using All.
  destruct fb_facts as (Hwm & _).
  assert (P0 : T - 2 * msPerDay <= w <= T + 2 * msPerDay)
    by (unfold msPerDay, msPerHour in *; lia).
  destruct (fb_probe w P0 Hwm) as (B0 & A0 & G0 & _).
  apply candidateOffsets_elem. rewrite G0.
  destruct (Z_lt_le_dec w T) as [Hlt|Hge].
  - left. symmetry. by apply B0.
  - right; right; right. rewrite (A0 Hge).
    assert (P : T - 2 * msPerDay <= w - o2 - 3600000 <= T + 2 * msPerDay)
      by (unfold msPerDay, msPerHour in *; lia).
    assert (M : (w - o2 - 3600000) mod 1000 = 0)
      by (unfold msPerDay, msPerHour in *; lia).
    destruct (fb_probe _ P M) as (B & _ & G & _). rewrite G.
    symmetry. apply B. unfold msPerDay, msPerHour in *. lia.
Qed.

(** For a time without milliseconds inside the overlap of a fall-back
    transition, the zone shows the desired time at two instants, and
    [zonedTimeToUtc] returns the earlier. *)
Lemma fall_back_earlier_instant :
  zonedTimeToUtc y mo d hh mi ss 0 zone = w - o1
  /\ w - o1 < T <= w - o2
  /\ wallClock zone (w - o1) = w /\ wallClock zone (w - o2) = w.
Proof using All.
  destruct fb_facts as (Hwm & _).
  assert (P1 : T - 2 * msPerDay <= w - o1 <= T + 2 * msPerDay)
    by (unfold msPerDay, msPerHour in *; lia).
  assert (M1 : (w - o1) mod 1000 = 0) by (unfold msPerDay, msPerHour in *; lia).
  destruct (fb_probe _ P1 M1) as (B1 & _ & _ & R1).
  assert (L1 : w - o1 < T) by lia.
  assert (W1 : wallClock zone (w - o1) = w) by (unfold wallClock; rewrite (B1 L1); lia).
  assert (W2 : wallClock zone (w - o2) = w).
  { unfold wallClock. rewrite Hafter; unfold msPerDay, msPerHour in *; lia. }
  split; [|split; [lia|split; [exact W1|exact W2]]].
  set (c1 := {| date := w - o1; parts := getZonedParts (w - o1) zone |}).
  assert (Hc1 : c1 ∈ candidatesOf w zone).
  { apply candidatesOf_elem. exists o1. split; [apply fb_offset_before|done]. }
  assert (Hm1 : partsMatch (parts c1) desired = true).
  { cbn [parts c1]. rewrite R1. unfold wallClock in W1. rewrite W1.
    rewrite (assertValidLocalDateTime_fields desired input Hvalid).
    apply partsMatch_refl. }
  destruct (zonedTimeToUtc_earliest_match y mo d hh mi ss 0 zone c1 Hc1 Hm1)
    as (c & Hc & _ & Hr & Hleast).
  rewrite Hr.
  specialize (Hleast c1 Hc1 Hm1). unfold c1 in Hleast.
  apply candidatesOf_elem in Hc as (o & Ho & ->). cbn [date] in *.
  change (Date_UTC y (mo - 1) d hh mi ss 0) with w in *.
  destruct (fb_offsets o Ho) as [-> | ->]; lia.
Qed.
End FallBack.

(** The scenario of the specification is an instance. *)
Example fall_back_Los_Angeles :
  zonedTimeToUtc 2026 11 1 1 30 0 0 America_Los_Angeles = Date_UTC 2026 10 1 8 30 0 0.
Proof.
  assert (HT : Date_UTC 2026 2 8 10 0 0 0 = 1772964000000) by (vm_compute; reflexivity).
  assert (HT2 : Date_UTC 2026 10 1 9 0 0 0 = 1793523600000) by (vm_compute; reflexivity).
  assert (Hw : partsToUtcMillis {| year := 2026; month := 11; day := 1; hour := 1;
                                   minute := 30; second := 0 |} = 1793496600000)
    by (vm_compute; reflexivity).
  destruct (fall_back_earlier_instant America_Los_Angeles (Date_UTC 2026 10 1 9 0 0 0)
              (-7 * msPerHour) (-8 * msPerHour) 2026 11 1 1 30 0
              "2026-11-01T01:30:00") as (H & _).
  - vm_compute. reflexivity.
  - lia.
  - intros t H1 H2. unfold America_Los_Angeles. rewrite HT, HT2 in *.
    unfold msPerDay in H1.
    destruct (Z.leb_spec 1772964000000 t); [|lia].
    destruct (Z.ltb_spec t 1793523600000); [reflexivity|lia].
  - intros t H1 H2. unfold America_Los_Angeles. rewrite HT, HT2 in *.
    destruct (Z.leb_spec 1772964000000 t); [|reflexivity].
    destruct (Z.ltb_spec t 1793523600000); [lia|reflexivity].
  - unfold msPerHour. lia.
  - unfold msPerHour, msPerDay. lia.
  - vm_compute. auto.
  - rewrite Hw, HT2. unfold msPerHour. lia.
  - rewrite H, Hw. vm_compute. reflexivity.
Qed.

(** The scenario of the specification, and the repository's test of it:
    01:30 on 1 November 2026 in Los Angeles occurs at 08:30Z and at 09:30Z,
    and resolves to the former. *)
Example fall_back_whole_second :
  parseDeadline utcHost (VString "2026-11-01T01:30:00")
    (Some "America/Los_Angeles"%string)
  = Ok "2026-11-01T08:30:00.000Z"%string.
Proof. vm_compute. reflexivity. Qed.

(** C2 on an input with a fraction of a second: 01:30:00.250 on 1 November
    2026 is shown in Los Angeles at 08:30:00.250Z and at 09:30:00.250Z, and at
    no other instant; [parseDeadline] returns 08:30:00.500Z, at which the
    zone shows 01:30:00.500. The offset probed at an instant is short of that
    instant's milliseconds, which come back doubled. *)
Theorem C2_fall_back_fraction_shifted :
  parseDeadline utcHost (VString "2026-11-01T01:30:00.250")
    (Some "America/Los_Angeles"%string)
  = Ok "2026-11-01T08:30:00.500Z"%string
  /\ (forall t,
        wallClock America_Los_Angeles t = Date_UTC 2026 10 1 1 30 0 250
        <-> t = Date_UTC 2026 10 1 8 30 0 250 \/ t = Date_UTC 2026 10 1 9 30 0 250)
  /\ toISOString (Date_UTC 2026 10 1 8 30 0 250) = "2026-11-01T08:30:00.250Z"%string
  /\ toISOString (Date_UTC 2026 10 1 9 30 0 250) = "2026-11-01T09:30:00.250Z"%string
  /\ wallClock America_Los_Angeles (Date_UTC 2026 10 1 8 30 0 500)
     = Date_UTC 2026 10 1 1 30 0 500
  /\ getTimeZoneOffset (Date_UTC 2026 10 1 1 30 0 250) America_Los_Angeles
     = -7 * msPerHour - 250.
Proof.
  split; [vm_compute; reflexivity|].
  split; [|repeat split; vm_compute; reflexivity].
  intros t. unfold wallClock, America_Los_Angeles.
  replace (Date_UTC 2026 2 8 10 0 0 0) with 1772964000000 by (vm_compute; reflexivity).
  replace (Date_UTC 2026 10 1 9 0 0 0) with 1793523600000 by (vm_compute; reflexivity).
  replace (Date_UTC 2026 10 1 1 30 0 250) with 1793496600250 by (vm_compute; reflexivity).
  replace (Date_UTC 2026 10 1 8 30 0 250) with 1793521800250 by (vm_compute; reflexivity).
  replace (Date_UTC 2026 10 1 9 30 0 250) with 1793525400250 by (vm_compute; reflexivity).
  unfold msPerHour.
  destruct (Z.leb_spec 1772964000000 t); destruct (Z.ltb_spec t 1793523600000);
    cbn [andb]; lia.
Qed.

(** The same defect away from any transition: 08:00:00.700 on 5 January
    2026 in Los Angeles is 16:00:00.700Z, and resolves to 16:00:01.100Z. *)
Example fraction_shifted_without_transition :
  parseDeadline utcHost (VString "2026-01-05T08:00:00.700")
    (Some "America/Los_Angeles"%string)
  = Ok "2026-01-05T16:00:01.100Z"%string
  /\ wallClock America_Los_Angeles (Date_UTC 2026 0 5 16 0 0 700)
     = Date_UTC 2026 0 5 8 0 0 700.
Proof. split; vm_compute; reflexivity. Qed.

(** The remaining tests of the repository. *)
Example local_datetime_in_zone :
  parseDeadline utcHost (VString "2026-01-05T08:00:00")
    (Some "America/Los_Angeles"%string)
  = Ok "2026-01-05T16:00:00.000Z"%string.
Proof. vm_compute. reflexivity. Qed.

Example date_only_is_midnight :
  parseDeadline utcHost (VString "2026-01-05") (Some "America/Los_Angeles"%string)
  = Ok "2026-01-05T08:00:00.000Z"%string.
Proof. vm_compute. reflexivity. Qed.

(** * Further properties of the code *)

(** ** The enumerated fields *)

Lemma has_elem set x : has set x = true <-> x ∈ set.
Proof. unfold has. apply bool_decide_eq_true. Qed.

Lemma normalizeEventCategory_elem value fallback category :
  normalizeEventCategory value fallback = Ok category ->
  category ∈ EVENT_CATEGORIES
  /\ (category = "PERSONAL"%string <->
      normalizeEnumValue (nullish value fallback) = Ok (Some "PERSONAL"%string)).
Proof.
  unfold normalizeEventCategory.
  destruct (normalizeEnumValue (nullish value fallback)) as [[n|]|e];
    cbn [mbind Outcome_bind]; [| |discriminate].
  - destruct (has EVENT_CATEGORIES n) eqn:E; intros [= <-].
    + apply has_elem in E. split; [exact E|].
      split; [intros ->; reflexivity|intros [= ->]; reflexivity].
    + split; [unfold EVENT_CATEGORIES; repeat constructor|].
      split; [discriminate|]. intros [= ->]. vm_compute in E. discriminate.
  - intros [= <-]. split; [unfold EVENT_CATEGORIES; repeat constructor|].
    split; discriminate.
Qed.

Lemma normalizePriority_elem value fallback priority :
  normalizePriority value fallback = Ok priority ->
  priority ∈ ["P1"; "P2"; "P3"; "P4"]%string.
Proof.
  assert (P3 : "P3"%string ∈ ["P1"; "P2"; "P3"; "P4"]%string) by (repeat constructor).
  unfold normalizePriority.
  destruct (normalizeEnumValue (nullish value fallback)) as [[n|]|e];
    cbn [mbind Outcome_bind]; [| intros [= <-]; exact P3 | discriminate].
  destruct (String.eqb n EmptyString); [intros [= <-]; exact P3|].
  destruct (isPLevel n) eqn:E; [apply has_elem in E; intros [= <-]; exact E|].
  destruct (String.eqb n "DEFAULT").
  - destruct (normalizeEnumValue fallback) as [[f|]|e];
      cbn [mbind Outcome_bind]; [| intros [= <-]; exact P3 | discriminate].
    destruct (isPLevel f) eqn:F; intros [= <-]; [apply has_elem in F; exact F|exact P3].
  - destruct (String.eqb n "PRIORITIZE"); intros [= <-]; [repeat constructor|exact P3].
Qed.

Lemma lookupAlias_known n alias :
  lookupAlias EVENT_SUBTYPE_ALIASES n = Some alias -> has EVENT_SUBTYPES alias = true.
Proof.
  unfold EVENT_SUBTYPE_ALIASES. cbn [lookupAlias].
  repeat (destruct (String.eqb _ n); [intros [= <-]; reflexivity|]).
  discriminate.
Qed.

Lemma subType_fallback_known eventCategory :
  (if String.eqb eventCategory "PERSONAL"
   then "OTHER_PERSONAL"%string else "FOCUS"%string) ∈ EVENT_SUBTYPES.
Proof. apply has_elem. destruct (String.eqb eventCategory "PERSONAL"); reflexivity. Qed.

Lemma normalizeEventSubType_elem value eventCategory subType :
  normalizeEventSubType value eventCategory = Ok subType -> subType ∈ EVENT_SUBTYPES.
Proof.
  pose proof (subType_fallback_known eventCategory) as F.
  unfold normalizeEventSubType.
  destruct (normalizeEnumValue value) as [[n|]|e]; cbn [mbind Outcome_bind];
    [| intros [= <-]; exact F | discriminate].
  destruct (String.eqb n EmptyString); [intros [= <-]; exact F|].
  destruct (has EVENT_SUBTYPES n) eqn:E; [intros [= <-]; by apply has_elem|].
  destruct (lookupAlias EVENT_SUBTYPE_ALIASES n) as [alias|] eqn:L;
    [|intros [= <-]; exact F].
  rewrite (lookupAlias_known _ _ L). intros [= <-]. apply has_elem.
  apply (lookupAlias_known _ _ L).
Qed.

(** X1: the category is always WORK or PERSONAL, whatever is passed: WORK
    unless the text that is read normalises to PERSONAL. The fallback is
    read only when the value is [undefined] or [null], so an empty or an
    unknown value yields WORK even beside a fallback of PERSONAL. *)
Theorem normalizeEventCategory_range (value fallback : JSValue) :
  match normalizeEventCategory value fallback with
  | Ok category =>
      category ∈ EVENT_CATEGORIES
      /\ (category = "PERSONAL"%string <->
          normalizeEnumValue (nullish value fallback) = Ok (Some "PERSONAL"%string))
  | Throw e => exists p, e = NotOfDeclaredType p
  end
  /\ (forall s, normalizeEventCategory (VString s) fallback
                = normalizeEventCategory (VString s) VUndefined)
  /\ normalizeEventCategory (VString EmptyString) fallback = Ok "WORK"%string.
Proof.
  split; [|split; [reflexivity|reflexivity]].
  pose proof (declared_normalizeEventCategory value fallback) as D.
  destruct (normalizeEventCategory value fallback) as [category|e] eqn:E; [|exact D].
  by apply normalizeEventCategory_elem.
Qed.

(** X2: the priority is always one of P1 to P4. PRIORITIZE reads as P1,
    DEFAULT as the account's level, and anything unknown as P3. *)
Theorem normalizePriority_range (value fallback : JSValue) :
  match normalizePriority value fallback with
  | Ok priority => priority ∈ ["P1"; "P2"; "P3"; "P4"]%string
  | Throw e => exists p, e = NotOfDeclaredType p
  end
  /\ normalizePriority (VString "prioritize") fallback = Ok "P1"%string
  /\ (forall level, level ∈ ["P1"; "P2"; "P3"; "P4"]%string ->
        normalizePriority (VString "default") (VString level) = Ok level
        /\ normalizePriority VUndefined (VString level) = Ok level)
  /\ normalizePriority (VString "default") VUndefined = Ok "P3"%string
  /\ normalizePriority (VString "urgent") fallback = Ok "P3"%string.
Proof.
  split; [|split; [reflexivity|split; [|split; reflexivity]]].
  - pose proof (declared_normalizePriority value fallback) as D.
    destruct (normalizePriority value fallback) as [priority|e] eqn:E; [|exact D].
    by eapply normalizePriority_elem.
  - intros level H.
    repeat (apply elem_of_cons in H as [-> | H]; [split; vm_compute; reflexivity|]).
    apply elem_of_nil in H. contradiction.
Qed.

(** X3: the sub-type is always one the API knows. A known value or alias
    is kept; anything else becomes OTHER_PERSONAL for a personal task and
    FOCUS otherwise. *)
Theorem normalizeEventSubType_range (value : JSValue) (eventCategory : string) :
  match normalizeEventSubType value eventCategory with
  | Ok subType =>
      subType ∈ EVENT_SUBTYPES
      /\ (forall n, normalizeEnumValue value = Ok (Some n) -> n ∈ EVENT_SUBTYPES ->
            subType = n)
      /\ (forall n alias, normalizeEnumValue value = Ok (Some n) ->
            n ∉ EVENT_SUBTYPES -> lookupAlias EVENT_SUBTYPE_ALIASES n = Some alias ->
            subType = alias)
      /\ ((normalizeEnumValue value = Ok None
           \/ exists n, normalizeEnumValue value = Ok (Some n)
                        /\ (n ∉ EVENT_SUBTYPES)
                        /\ lookupAlias EVENT_SUBTYPE_ALIASES n = None) ->
          subType = if String.eqb eventCategory "PERSONAL"
                    then "OTHER_PERSONAL"%string else "FOCUS"%string)
  | Throw e => exists p, e = NotOfDeclaredType p
  end.
Proof.
  pose proof (declared_normalizeEventSubType value eventCategory) as D.
  destruct (normalizeEventSubType value eventCategory) as [subType|e] eqn:E; [|exact D].
  split; [by eapply normalizeEventSubType_elem|]. clear D.
  revert E. unfold normalizeEventSubType.
  destruct (normalizeEnumValue value) as [[n|]|e]; cbn [mbind Outcome_bind];
    [| | discriminate].
  - destruct (String.eqb_spec n EmptyString) as [->|Hn].
    + intros [= <-]. split; [|split].
      * intros ? [= <-] H. apply has_elem in H. discriminate.
      * intros ? ? [= <-] _ H. discriminate.
      * reflexivity.
    + destruct (has EVENT_SUBTYPES n) eqn:H0.
      * intros [= <-]. apply has_elem in H0. split; [|split].
        -- intros ? [= <-] _. reflexivity.
        -- intros ? ? [= <-] H. contradiction.
        -- intros [H|(? & [= <-] & H & _)]; [discriminate|contradiction].
      * destruct (lookupAlias EVENT_SUBTYPE_ALIASES n) as [alias|] eqn:L.
        -- rewrite (lookupAlias_known _ _ L). intros [= <-]. split; [|split].
           ++ intros ? [= <-] H. apply has_elem in H. congruence.
           ++ intros ? ? [= <-] _. rewrite L. intros [= <-]. reflexivity.
           ++ intros [H|(? & [= <-] & _ & H)]; [discriminate|].
              rewrite L in H. discriminate.
        -- intros [= <-]. split; [|split].
           ++ intros ? [= <-] H. apply has_elem in H. congruence.
           ++ intros ? ? [= <-] _. rewrite L. discriminate.
           ++ reflexivity.
  - intros [= <-]. split; [|split]; [discriminate|discriminate|reflexivity].
Qed.

(** *** The normal form of an enumerated value *)

Lemma dropWhile_head {A} (p : A -> bool) (l : list A) :
  match l with [] => True | x :: _ => p x = false end -> dropWhile p l = l.
Proof. destruct l as [|x l]; [reflexivity|]. cbn. intros ->. reflexivity. Qed.

Lemma trim_no_white_space (l : list ascii) :
  Forall (fun c => isWhiteSpace c = false) l ->
  trim (string_of_list_ascii l) = string_of_list_ascii l.
Proof.
  intros H. unfold trim, trimEnd, trimStart.
  rewrite list_ascii_of_string_of_list_ascii.
  rewrite (dropWhile_head isWhiteSpace l) by (destruct H; done).
  rewrite dropWhile_head; [by rewrite rev_involutive|].
  apply Forall_rev in H. destruct H; done.
Qed.


Lemma upperChar_hyphen c : Ascii.eqb c "-" = false -> isWhiteSpace c = false ->
  Ascii.eqb (upperChar c) "-" = false /\ isWhiteSpace (upperChar c) = false.
Proof. destruct c as [[] [] [] [] [] [] [] []]; intros; split; done. Qed.






(** ** What a create request carries *)

Lemma isPositiveNumber_spec v :
  isPositiveNumber v = true -> exists n, v = VNumber n /\ 0 < n.
Proof. destruct v; try discriminate. cbn. intros H. eexists; split; [done|lia]. Qed.

Lemma prop_setIf (o : JSObject) c k v :
  prop (setIf c k v o) k = if c then v else prop o k.
Proof. unfold setIf. destruct c; [apply prop_insert|done]. Qed.

Lemma setIf_false (o : JSObject) k v : setIf false k v o = o.
Proof. reflexivity. Qed.

Lemma setIf_true (o : JSObject) k v : setIf true k v o = <[k := v]> o.
Proof. reflexivity. Qed.

Lemma defaultTimeChunksRequired_value defaults (o o' : JSObject) :
  defaultTimeChunksRequired defaults o = Ok o' ->
  if isUndefined (prop o "timeChunksRequired")
  then exists n, prop o' "timeChunksRequired" = VNumber n /\ 0 < n
  else prop o' "timeChunksRequired" = prop o "timeChunksRequired".
Proof.
  intros H.
  pose proof (defaultTimeChunksRequired_cases defaults o) as C. rewrite H in C.
  destruct C as [F K].
  destruct (isUndefined (prop o "timeChunksRequired")) eqn:Et; [|by apply K].
  revert H. unfold defaultTimeChunksRequired. rewrite Et. cbn [andb].
  destruct (isPositiveNumber (optProp defaults "timeChunksRequired")) eqn:Ed.
  - apply isPositiveNumber_spec in Ed as (n & Ed & Hn). rewrite Ed.
    rewrite !setIf_true. prop_simpl. cbn [isUndefined mbind Outcome_bind].
    intros [= <-]. rewrite prop_setIf. prop_simpl. cbn [isUndefined]. eauto.
  - rewrite !setIf_false. rewrite Et.
    destruct (asNumber "minChunkSize" _) as [a|]; [|discriminate].
    destruct (asNumber "maxChunkSize" _) as [b|]; [|discriminate].
    cbn [mbind Outcome_bind]. intros [= <-]. rewrite !prop_setIf.
    destruct (Z.ltb_spec 0 (Z.max a b)); cbn [isUndefined]; rewrite ?Et;
      eauto with lia.
Qed.

Lemma defaultChunkSizes_value defaults (o o' : JSObject) t :
  defaultChunkSizes defaults o = Ok o' ->
  prop o "timeChunksRequired" = VNumber t ->
  prop o' "timeChunksRequired" = VNumber t
  /\ (if isUndefined (prop o "minChunkSize")
      then exists a, prop o' "minChunkSize" = VNumber a
                     /\ (0 < a \/ a = Z.min t 1)
      else prop o' "minChunkSize" = prop o "minChunkSize")
  /\ (if isUndefined (prop o "maxChunkSize")
      then exists b, prop o' "maxChunkSize" = VNumber b /\ (0 < b \/ b = t)
      else prop o' "maxChunkSize" = prop o "maxChunkSize").
Proof.
  intros H Ht.
  pose proof (defaultChunkSizes_cases defaults o) as C. rewrite H in C.
  destruct C as (F & Km & KM).
  split; [rewrite F by done; exact Ht|].
  revert H. unfold defaultChunkSizes.
  destruct (isUndefined (prop o "minChunkSize")) eqn:Em;
  destruct (isUndefined (prop o "maxChunkSize")) eqn:EM; cbn [andb];
  rewrite ?setIf_false;
  destruct (isPositiveNumber (optProp defaults "minChunkSize")) eqn:Dm;
  destruct (isPositiveNumber (optProp defaults "maxChunkSize")) eqn:DM;
  rewrite ?setIf_false, ?setIf_true;
  try (apply isPositiveNumber_spec in Dm as (a & Dm & Ha); rewrite ?Dm);
  try (apply isPositiveNumber_spec in DM as (b & DM & Hb); rewrite ?DM);
  prop_simpl; rewrite ?Em, ?EM, ?Ht;
  cbn [isUndefined asNumber mbind Outcome_bind andb];
  rewrite ?setIf_false, ?setIf_true; prop_simpl; rewrite ?Em, ?EM, ?Ht;
  cbn [isUndefined asNumber mbind Outcome_bind andb];
  rewrite ?setIf_false, ?setIf_true;
  intros [= <-]; prop_simpl; rewrite ?Ht;
  (split; [first [by apply Km | eauto 6 with lia] | first [by apply KM | eauto 6 with lia]]).
Qed.

Lemma clampChunkSizes_value (o o' : JSObject) :
  clampChunkSizes o = Ok o' ->
  isUndefined (prop o "timeChunksRequired") = false ->
  isUndefined (prop o "minChunkSize") = false ->
  isUndefined (prop o "maxChunkSize") = false ->
  exists t a b,
    prop o "timeChunksRequired" = VNumber t
    /\ prop o "minChunkSize" = VNumber a /\ prop o "maxChunkSize" = VNumber b
    /\ prop o' "timeChunksRequired" = VNumber t
    /\ prop o' "minChunkSize" = VNumber (Z.min a t)
    /\ prop o' "maxChunkSize" = VNumber (Z.max (Z.min a t) (Z.min b t)).
Proof.
  unfold clampChunkSizes. intros H Ht Hm HM. revert H.
  destruct (prop o "timeChunksRequired") as [| |?|t|?] eqn:Et; try discriminate;
  destruct (prop o "minChunkSize") as [| |?|a|?] eqn:Em; try discriminate;
  destruct (prop o "maxChunkSize") as [| |?|b|?] eqn:EM; try discriminate;
  repeat chunk_step; try discriminate.
  gtb_cases; intros [= <-]; exists t, a, b; prop_simpl; use_props;
    repeat split; f_equal; lia.
Qed.

Lemma defaultChunkSizes_defined defaults (o o' : JSObject) :
  defaultChunkSizes defaults o = Ok o' ->
  isUndefined (prop o "timeChunksRequired") = false ->
  isUndefined (prop o' "minChunkSize") = false
  /\ isUndefined (prop o' "maxChunkSize") = false.
Proof.
  intros H Ht.
  pose proof (defaultChunkSizes_cases defaults o) as C. rewrite H in C.
  destruct C as (F & Km & KM).
  revert H. unfold defaultChunkSizes.
  set (o1 := setIf _ "minChunkSize" _ o).
  set (o2 := setIf _ "maxChunkSize" _ o1).
  assert (F2 : prop o2 "timeChunksRequired" = prop o "timeChunksRequired")
    by (unfold o2, o1; by prop_simpl).
  clearbody o2. clear o1.
  destruct (isUndefined (prop o2 "minChunkSize")) eqn:Em.
  - destruct (asNumber "timeChunksRequired" _) as [t|]; [|discriminate].
    cbn [mbind Outcome_bind]. intros [= <-]. rewrite !prop_setIf. prop_simpl.
    split; [reflexivity|].
    destruct (isUndefined (prop o2 "maxChunkSize")) eqn:EM; [|exact EM].
    rewrite F2. exact Ht.
  - cbn [mbind Outcome_bind]. intros [= <-]. rewrite !prop_setIf. prop_simpl.
    split; [exact Em|].
    destruct (isUndefined (prop o2 "maxChunkSize")) eqn:EM; [|exact EM].
    rewrite F2. exact Ht.
Qed.

Lemma applyTaskDefaultsForCreate_steps (taskData output : JSObject) defaults :
  applyTaskDefaultsForCreate taskData defaults = Ok output ->
  exists o1 o2 o3,
    defaultEnums defaults taskData = Ok o1
    /\ defaultTimeChunksRequired defaults (defaultFlags defaults o1) = Ok o2
    /\ defaultChunkSizes defaults o2 = Ok o3
    /\ clampChunkSizes o3 = Ok output.
Proof.
  unfold applyTaskDefaultsForCreate. intros H.
  destruct (defaultEnums defaults taskData) as [o1|e]; [|discriminate].
  cbn [mbind Outcome_bind] in H.
  destruct (defaultTimeChunksRequired _ _) as [o2|e] eqn:E2; [|discriminate].
  cbn [mbind Outcome_bind] in H.
  destruct (defaultChunkSizes _ _) as [o3|e] eqn:E3; [|discriminate].
  cbn [mbind Outcome_bind] in H. exists o1, o2, o3. done.
Qed.

Lemma applyTaskDefaultsForCreate_bounds (taskData output : JSObject) defaults :
  applyTaskDefaultsForCreate taskData defaults = Ok output ->
  exists total lo hi,
    prop output "timeChunksRequired" = VNumber total
    /\ prop output "minChunkSize" = VNumber lo
    /\ prop output "maxChunkSize" = VNumber hi
    /\ lo <= hi <= total
    /\ (isUndefined (prop taskData "timeChunksRequired") = false ->
        prop taskData "timeChunksRequired" = VNumber total)
    /\ (isUndefined (prop taskData "timeChunksRequired") = true -> 0 < total)
    /\ ((forall k n,
           k ∈ ["timeChunksRequired"; "minChunkSize"; "maxChunkSize"]%string ->
           prop taskData k = VNumber n -> 0 < n) ->
        1 <= lo).
Proof.
  intros E.
  destruct (applyTaskDefaultsForCreate_steps _ _ _ E) as (o1 & o2 & o3 & E1 & E2 & E3 & E4).
  pose proof (defaultEnums_cases defaults taskData) as F1. rewrite E1 in F1.
  assert (G : forall k, k ∈ ["timeChunksRequired"; "minChunkSize"; "maxChunkSize"]%string ->
                        prop (defaultFlags defaults o1) k = prop taskData k).
  { intros k Hk.
    repeat (apply elem_of_cons in Hk as [->|Hk]);
      [ rewrite defaultFlags_frame by done; by rewrite F1 .. | ].
    by apply elem_of_nil in Hk. }
  assert (Gt := G "timeChunksRequired"%string ltac:(repeat constructor)).
  assert (Gm := G "minChunkSize"%string ltac:(repeat constructor)).
  assert (GM := G "maxChunkSize"%string ltac:(repeat constructor)).
  clear G.
  pose proof (defaultTimeChunksRequired_cases defaults (defaultFlags defaults o1)) as C2.
  rewrite E2 in C2. destruct C2 as [F2 _].
  pose proof (defaultTimeChunksRequired_value _ _ _ E2) as V2. rewrite Gt in V2.
  assert (D2 : isUndefined (prop o2 "timeChunksRequired") = false).
  { destruct (isUndefined (prop taskData "timeChunksRequired")) eqn:Et.
    - destruct V2 as (n & -> & _). reflexivity.
    - rewrite V2. exact Et. }
  pose proof (defaultChunkSizes_cases defaults o2) as C3.
  rewrite E3 in C3. destruct C3 as (F3 & _ & _).
  destruct (defaultChunkSizes_defined _ _ _ E3 D2) as [Dm DM].
  assert (D3 : isUndefined (prop o3 "timeChunksRequired") = false)
    by (rewrite F3 by done; exact D2).
  destruct (clampChunkSizes_value _ _ E4 D3 Dm DM)
    as (t & a & b & Et & Ea & Eb & Rt & Ra & Rb).
  assert (Et2 : prop o2 "timeChunksRequired" = VNumber t) by (rewrite <- F3 by done; exact Et).
  destruct (defaultChunkSizes_value _ _ _ _ E3 Et2) as (_ & Vm & VM).
  rewrite F2, Gm in Vm by done. rewrite F2, GM in VM by done.
  rewrite Et2 in V2.
  exists t, (Z.min a t), (Z.max (Z.min a t) (Z.min b t)).
  split; [exact Rt|]. split; [exact Ra|]. split; [exact Rb|].
  split; [lia|]. split; [|split].
  - intros U. rewrite U in V2. symmetry. exact V2.
  - intros U. rewrite U in V2. destruct V2 as (n & [= ->] & Hn). exact Hn.
  - intros P.
    assert (Ht : 0 < t).
    { destruct (isUndefined (prop taskData "timeChunksRequired")) eqn:U.
      - destruct V2 as (n & [= ->] & Hn). exact Hn.
      - apply (P "timeChunksRequired"%string); [repeat constructor|]. by symmetry. }
    assert (Ha : 0 < a).
    { destruct (isUndefined (prop taskData "minChunkSize")) eqn:U.
      - destruct Vm as (a' & Ea' & Ha'). rewrite Ea in Ea'. injection Ea' as <-. lia.
      - apply (P "minChunkSize"%string); [repeat constructor|]. by rewrite <- Vm. }
    lia.
Qed.


Lemma defaultEnums_value defaults (o o' : JSObject) :
  defaultEnums defaults o = Ok o' ->
  exists category subType priority,
    prop o' "eventCategory" = VString category /\ category ∈ EVENT_CATEGORIES
    /\ prop o' "eventSubType" = VString subType /\ subType ∈ EVENT_SUBTYPES
    /\ prop o' "priority" = VString priority
    /\ priority ∈ ["P1"; "P2"; "P3"; "P4"]%string
    /\ (isUndefined (prop o "eventCategory") = true ->
        inferCategoryFromSubType (prop o "eventSubType") = Ok (VString "PERSONAL") ->
        category = "PERSONAL"%string).
Proof.
  unfold defaultEnums.
  destruct (if isUndefined (prop o "eventCategory") then _ else _)
    as [inferred|e] eqn:E0; [|discriminate]. cbn [mbind Outcome_bind].
  destruct (normalizeEventCategory _ _) as [category|e] eqn:E1; [|discriminate].
  cbn [mbind Outcome_bind].
  destruct (normalizeEventSubType _ _) as [subType|e] eqn:E2; [|discriminate].
  cbn [mbind Outcome_bind].
  destruct (normalizePriority _ _) as [priority|e] eqn:E3; [|discriminate].
  cbn [mbind Outcome_bind]. intros [= <-].
  exists category, subType, priority. prop_simpl.
  split; [reflexivity|]. split; [by eapply normalizeEventCategory_elem|].
  split; [reflexivity|]. split; [by eapply normalizeEventSubType_elem|].
  split; [reflexivity|]. split; [by eapply normalizePriority_elem|].
  intros U I. rewrite U in E0. rewrite I in E0. injection E0 as <-.
  destruct (prop o "eventCategory"); try discriminate.
  cbn in E1. injection E1 as <-. reflexivity.
Qed.

(** X6: a task that leaves [applyTaskDefaultsForCreate] always names a
    category, a sub-type and a priority the API knows, and always has notes.
    Without a category, a personal sub-type (vacation, errand, ...) makes the
    task personal, ahead of the account default. *)
Theorem applyTaskDefaultsForCreate_enums (taskData : JSObject) (defaults : option JSObject) :
  match applyTaskDefaultsForCreate taskData defaults with
  | Ok output =>
      exists category subType priority,
        prop output "eventCategory" = VString category
        /\ category ∈ EVENT_CATEGORIES
        /\ prop output "eventSubType" = VString subType
        /\ subType ∈ EVENT_SUBTYPES
        /\ prop output "priority" = VString priority
        /\ priority ∈ ["P1"; "P2"; "P3"; "P4"]%string
        /\ (isUndefined (prop taskData "eventCategory") = true ->
            inferCategoryFromSubType (prop taskData "eventSubType")
            = Ok (VString "PERSONAL") ->
            category = "PERSONAL"%string)
        /\ (prop output "notes" = prop taskData "notes"
            \/ (truthy (prop taskData "notes") = false
                /\ prop output "notes" = VString EmptyString))
  | Throw e => exists p, e = NotOfDeclaredType p
  end.
Proof.
  pose proof (applyTaskDefaultsForCreate_cases taskData defaults) as C.
  destruct (applyTaskDefaultsForCreate taskData defaults) as [output|e] eqn:E;
    [clear C|exact C].
  destruct (applyTaskDefaultsForCreate_steps _ _ _ E) as (o1 & o2 & o3 & E1 & E2 & E3 & E4).
  pose proof (defaultEnums_cases defaults taskData) as F1. rewrite E1 in F1.
  pose proof (defaultTimeChunksRequired_cases defaults (defaultFlags defaults o1)) as C2.
  rewrite E2 in C2. destruct C2 as [F2 _].
  pose proof (defaultChunkSizes_cases defaults o2) as C3.
  rewrite E3 in C3. destruct C3 as (F3 & _ & _).
  pose proof (clampChunkSizes_cases o3) as C4. rewrite E4 in C4.
  destruct C4 as (_ & _ & F4).
  assert (F : forall k, k <> "timeChunksRequired"%string -> k <> "minChunkSize"%string ->
                        k <> "maxChunkSize"%string ->
                        prop output k = prop (defaultFlags defaults o1) k).
  { intros k H1 H2 H3. rewrite F4, F3, F2 by done. reflexivity. }
  destruct (defaultEnums_value _ _ _ E1)
    as (category & subType & priority & Pc & Hc & Ps & Hs & Pp & Hp & I).
  exists category, subType, priority.
  rewrite !F by done. rewrite !defaultFlags_frame by done.
  repeat (split; [assumption|]).
  unfold defaultFlags. rewrite prop_setIf_ne by done. rewrite prop_setIf.
  rewrite !prop_setIf_ne by done. rewrite F1 by done.
  destruct (truthy (prop taskData "notes")) eqn:N; cbn [negb]; [by left|by right].
Qed.

(** ** What the client operations never do *)

Lemma createTask_ordered h defaults (taskData : JSObject) tz :
  match createTask h defaults taskData tz with
  | Ok request => validateChunkSizes (payloadOf request) = Ok tt
  | Throw e => kind e <> ChunkSizeConflictKind
  end.
Proof.
  pose proof (createTask_cases h defaults taskData tz) as C.
  destruct (createTask h defaults taskData tz) as [request|e]; [|exact C].
  destruct C as (output & Ea & F & _).
  rewrite (sameButDates_validate _ _ F).
  pose proof (applyTaskDefaultsForCreate_cases taskData defaults) as V.
  by rewrite Ea in V.
Qed.

Lemma createTaskAtTime_ordered h defaults startTime (taskData : JSObject) tz :
  match createTaskAtTime h defaults startTime taskData tz with
  | Ok request => validateChunkSizes (payloadOf request) = Ok tt
  | Throw e => kind e <> ChunkSizeConflictKind
  end.
Proof.
  pose proof (createTaskAtTime_cases h defaults startTime taskData tz) as C.
  destruct (createTaskAtTime h defaults startTime taskData tz) as [request|e]; [|exact C].
  destruct C as (output & Ea & F & _).
  rewrite (sameButDates_validate _ _ F).
  pose proof (applyTaskDefaultsForCreate_cases taskData defaults) as V.
  by rewrite Ea in V.
Qed.

Lemma updateTask_ordered h defaults taskId (taskData : JSObject) tz :
  match updateTask h defaults taskId taskData tz with
  | Ok request => validateChunkSizes (payloadOf request) = Ok tt
  | Throw e => kind e <> ChunkSizeConflictKind
  end.
Proof.
  pose proof (updateTask_cases h defaults taskId taskData tz) as C.
  destruct (updateTask h defaults taskId taskData tz) as [request|e]; [|exact C].
  destruct C as (output & payload & Ea & F & [-> | [-> _]]); [|reflexivity].
  cbn [payloadOf]. rewrite (sameButDates_validate _ _ F).
  pose proof (normalizeTaskPatch_cases taskData defaults) as V.
  rewrite Ea in V. tauto.
Qed.

(** X7: no input makes a create or an update fail with the conflict of
    bounds that [validateChunkSizes] raises: by the time it runs the bounds
    have been put in order, and every request that is sent has
    minChunkSize <= maxChunkSize. This holds of the three client operations
    and of the two tool handlers. *)
Theorem ChunkSizeConflict_never_raised
    (h : Host) (defaults : option JSObject) (taskData : JSObject)
    (timeZone : option string) (startTime : string) (taskId : Z) :
  Forall (fun operation : Outcome ApiRequest =>
            match operation with
            | Ok request => validateChunkSizes (payloadOf request) = Ok tt
            | Throw e => kind e <> ChunkSizeConflictKind
            end)
    [createTask h defaults taskData timeZone;
     createTaskAtTime h defaults startTime taskData timeZone;
     updateTask h defaults taskId taskData timeZone;
     reclaim_create_task h defaults taskData;
     reclaim_update_task h defaults taskData].
Proof.
  repeat apply Forall_cons_2; [| | | | |apply Forall_nil_2].
  - apply createTask_ordered.
  - apply createTaskAtTime_ordered.
  - apply updateTask_ordered.
  - unfold reclaim_create_task.
    destruct (normalizeChunkInputs _) as [data|e] eqn:En; cbn [mbind Outcome_bind];
      [|by apply normalizeChunkInputs_throws in En].
    destruct (prop taskData "startTime") as [| | | |s];
      try apply createTask_ordered.
    destruct (negb _); [apply createTaskAtTime_ordered|apply createTask_ordered].
  - unfold reclaim_update_task.
    destruct (normalizeChunkInputs _) as [data|e] eqn:En; cbn [mbind Outcome_bind];
      [|by apply normalizeChunkInputs_throws in En].
    destruct (bool_decide _); [discriminate|].
    pose proof (declared_asNumber "taskId" (prop taskData "taskId")) as D.
    destruct (asNumber "taskId" _) as [id|e]; cbn [mbind Outcome_bind];
      [apply updateTask_ordered|].
    destruct D as [p ->]. discriminate.
Qed.

(** ** The tool layer: what [normalizeChunkInputs] hands on *)

Lemma convertMinutes_lookup_ne minutes chunks (data data' : JSObject) k :
  convertMinutes minutes chunks data = Ok data' -> chunks <> k ->
  data' !! k = data !! k.
Proof.
  unfold convertMinutes. intros H Hk.
  destruct (prop data minutes); try (injection H as <-; reflexivity).
  destruct (minutesToChunks _ _); [|discriminate].
  cbn [mbind Outcome_bind] in H. injection H as <-. by rewrite lookup_insert_ne.
Qed.

Lemma normalizeChunkInputs_keys (input : JSObject) :
  match normalizeChunkInputs input with
  | Ok data =>
      (forall k, k ∈ ["durationMinutes"; "minDurationMinutes"; "maxDurationMinutes";
                      "lockChunkSizeToDuration"; "startTime"; "timeZone";
                      "timezone"]%string ->
                 data !! k = None)
      /\ (forall k, k ∉ ["durationMinutes"; "minDurationMinutes"; "maxDurationMinutes";
                         "lockChunkSizeToDuration"; "startTime"; "timeZone";
                         "timezone"; "timeChunksRequired"; "minChunkSize";
                         "maxChunkSize"]%string ->
                    data !! k = input !! k)
  | Throw e =>
      e = LockRequiresDuration
      \/ exists field,
           field ∈ ["durationMinutes"; "minDurationMinutes";
                    "maxDurationMinutes"]%string
           /\ e = NotMultipleOfChunk field
  end.
Proof.
  unfold normalizeChunkInputs.
  destruct (convertMinutes_cases "durationMinutes" "timeChunksRequired" input)
    as [[d1 E1]|E1]; rewrite E1; cbn [mbind Outcome_bind];
    [|right; eexists; split; [|reflexivity]; repeat constructor].
  destruct (convertMinutes_cases "minDurationMinutes" "minChunkSize" d1)
    as [[d2 E2]|E2]; rewrite E2; cbn [mbind Outcome_bind];
    [|right; eexists; split; [|reflexivity]; repeat constructor].
  destruct (convertMinutes_cases "maxDurationMinutes" "maxChunkSize" d2)
    as [[d3 E3]|E3]; rewrite E3; cbn [mbind Outcome_bind];
    [|right; eexists; split; [|reflexivity]; repeat constructor].
  assert (F : forall k, k <> "timeChunksRequired"%string -> k <> "minChunkSize"%string ->
                        k <> "maxChunkSize"%string -> d3 !! k = input !! k).
  { intros k H1 H2 H3.
    rewrite (convertMinutes_lookup_ne _ _ _ _ k E3) by done.
    rewrite (convertMinutes_lookup_ne _ _ _ _ k E2) by done.
    by rewrite (convertMinutes_lookup_ne _ _ _ _ k E1). }
  match goal with
  | |- context [mbind _ ?c] =>
      assert (L : match c with
                  | Ok d4 => forall k, k <> "minChunkSize"%string ->
                                       k <> "maxChunkSize"%string -> d4 !! k = d3 !! k
                  | Throw e => e = LockRequiresDuration
                  end);
      [|destruct c as [d4|e]; cbn [mbind Outcome_bind]; [|by left]]
  end.
  { destruct (truthy _); [|done]. destruct (negb _); [done|].
    intros k H1 H2. by rewrite !lookup_insert_ne. }
  split.
  - intros k Hk.
    repeat (apply elem_of_cons in Hk as [->|Hk];
            [rewrite ?lookup_delete_eq, ?lookup_delete_ne by done;
             first [reflexivity | apply lookup_delete_eq]|]).
    by apply elem_of_nil in Hk.
  - intros k Hk.
    assert (N : forall k', k' ∈ ["durationMinutes"; "minDurationMinutes";
                "maxDurationMinutes"; "lockChunkSizeToDuration"; "startTime";
                "timeZone"; "timezone"; "timeChunksRequired"; "minChunkSize";
                "maxChunkSize"]%string -> k <> k')
      by (intros k' Hk' ->; contradiction).
    rewrite !lookup_delete_ne
      by (intros E; symmetry in E; revert E; apply N; repeat constructor).
    rewrite L, F; [reflexivity|..]; apply N; repeat constructor.
Qed.

(** X8: the keys that only the tool understands (the minute fields, the
    lock flag, startTime, timeZone and timezone) never leave
    [normalizeChunkInputs]; every key other than these and the three chunk
    fields is handed on exactly as it came, and no other key appears. The
    only failures are the lock without a total and a minute value that is
    not a multiple of 15. *)
Theorem normalizeChunkInputs_frame (input : JSObject) :
  match normalizeChunkInputs input with
  | Ok data =>
      (forall k, k ∈ ["durationMinutes"; "minDurationMinutes"; "maxDurationMinutes";
                      "lockChunkSizeToDuration"; "startTime"; "timeZone";
                      "timezone"]%string ->
                 data !! k = None)
      /\ (forall k, k ∉ ["durationMinutes"; "minDurationMinutes"; "maxDurationMinutes";
                         "lockChunkSizeToDuration"; "startTime"; "timeZone";
                         "timezone"; "timeChunksRequired"; "minChunkSize";
                         "maxChunkSize"]%string ->
                    data !! k = input !! k)
  | Throw e =>
      e = LockRequiresDuration
      \/ exists field,
           field ∈ ["durationMinutes"; "minDurationMinutes";
                    "maxDurationMinutes"]%string
           /\ e = NotMultipleOfChunk field
  end.
Proof. apply normalizeChunkInputs_keys. Qed.

Lemma convertMinutes_result minutes chunks (data data' : JSObject) :
  convertMinutes minutes chunks data = Ok data' ->
  prop data' chunks
  = match prop data minutes with
    | VNumber value => VNumber (value / 15)
    | _ => prop data chunks
    end.
Proof.
  intros H. destruct (prop data minutes) as [| |?|value|?] eqn:Ev;
    try (unfold convertMinutes in H; rewrite Ev in H; injection H as <-; reflexivity).
  rewrite (convertMinutes_value _ _ _ _ _ H Ev). f_equal. apply quot_exact.
  destruct (Z.eq_dec (value mod 15) 0) as [|N]; [done|].
  rewrite (convertMinutes_reject _ chunks _ _ Ev N) in H. discriminate.
Qed.

(** X9: what [normalizeChunkInputs] makes of the chunk fields. A minute
    field, when given, replaces the chunk field of the same meaning (its
    value divided by 15), also when both are supplied; with the lock flag
    both bounds are the total, whatever bounds were supplied. *)
Theorem normalizeChunkInputs_precedence (input data : JSObject) :
  normalizeChunkInputs input = Ok data ->
  let chunks minutes field :=
    match prop input minutes with
    | VNumber value => VNumber (value / 15)
    | _ => prop input field
    end in
  prop data "timeChunksRequired" = chunks "durationMinutes"%string "timeChunksRequired"%string
  /\ prop data "minChunkSize"
     = (if truthy (prop input "lockChunkSizeToDuration")
        then chunks "durationMinutes"%string "timeChunksRequired"%string
        else chunks "minDurationMinutes"%string "minChunkSize"%string)
  /\ prop data "maxChunkSize"
     = (if truthy (prop input "lockChunkSizeToDuration")
        then chunks "durationMinutes"%string "timeChunksRequired"%string
        else chunks "maxDurationMinutes"%string "maxChunkSize"%string).
Proof.
  intros H chunks. unfold normalizeChunkInputs in H.
  destruct (convertMinutes "durationMinutes" _ input) as [d1|] eqn:E1;
    [|discriminate]. cbn [mbind Outcome_bind] in H.
  destruct (convertMinutes "minDurationMinutes" _ d1) as [d2|] eqn:E2;
    [|discriminate]. cbn [mbind Outcome_bind] in H.
  destruct (convertMinutes "maxDurationMinutes" _ d2) as [d3|] eqn:E3;
    [|discriminate]. cbn [mbind Outcome_bind] in H.
  assert (F : forall k, k <> "timeChunksRequired"%string -> k <> "minChunkSize"%string ->
                        k <> "maxChunkSize"%string -> prop d3 k = prop input k).
  { intros k H1 H2 H3.
    rewrite (convertMinutes_prop_ne _ _ _ _ _ E3) by done.
    rewrite (convertMinutes_prop_ne _ _ _ _ _ E2) by done.
    by rewrite (convertMinutes_prop_ne _ _ _ _ _ E1). }
  assert (T : prop d3 "timeChunksRequired"
              = chunks "durationMinutes"%string "timeChunksRequired"%string).
  { rewrite (convertMinutes_prop_ne _ _ _ _ _ E3) by done.
    rewrite (convertMinutes_prop_ne _ _ _ _ _ E2) by done.
    apply (convertMinutes_result _ _ _ _ E1). }
  assert (Lo : prop d3 "minChunkSize"
               = chunks "minDurationMinutes"%string "minChunkSize"%string).
  { rewrite (convertMinutes_prop_ne _ _ _ _ _ E3) by done.
    rewrite (convertMinutes_result _ _ _ _ E2). unfold chunks.
    rewrite !(convertMinutes_prop_ne _ _ _ _ _ E1) by done. reflexivity. }
  assert (Hi : prop d3 "maxChunkSize"
               = chunks "maxDurationMinutes"%string "maxChunkSize"%string).
  { rewrite (convertMinutes_result _ _ _ _ E3). unfold chunks.
    rewrite !(convertMinutes_prop_ne _ _ _ _ _ E2) by done.
    rewrite !(convertMinutes_prop_ne _ _ _ _ _ E1) by done. reflexivity. }
  rewrite <- (F "lockChunkSizeToDuration") by done.
  destruct (truthy (prop d3 "lockChunkSizeToDuration")).
  - destruct (negb _); [discriminate|]. cbn [mbind Outcome_bind] in H.
    injection H as <-. prop_simpl. rewrite T. done.
  - cbn [mbind Outcome_bind] in H. injection H as <-. prop_simpl. done.
Qed.

Lemma normalizeChunkInputs_precedence_witness :
  prop (object [("timeChunksRequired", VNumber 4); ("minChunkSize", VNumber 2);
                ("maxChunkSize", VNumber 3)]) "timeChunksRequired"
  = VNumber (60 / 15)
  /\ prop (object [("timeChunksRequired", VNumber 4); ("minChunkSize", VNumber 2);
                   ("maxChunkSize", VNumber 3)]) "minChunkSize"
     = VNumber (30 / 15)
  /\ prop (object [("timeChunksRequired", VNumber 4); ("minChunkSize", VNumber 2);
                   ("maxChunkSize", VNumber 3)]) "maxChunkSize"
     = VNumber 3.
Proof.
  apply (normalizeChunkInputs_precedence
           (object [("durationMinutes", VNumber 60); ("timeChunksRequired", VNumber 1);
                    ("minDurationMinutes", VNumber 30); ("minChunkSize", VNumber 1);
                    ("maxChunkSize", VNumber 3)])).
  vm_compute. reflexivity.
Defined.

(** ** The text of an instant *)

Lemma length_app_string (a b : string) :
  String.length (a +:+ b) = (String.length a + String.length b)%nat.
Proof. induction a as [|c a IH]; simpl; [reflexivity|]. by rewrite IH. Qed.

Lemma length_fixedWidth w n : String.length (fixedWidth w n) = w.
Proof.
  revert n. induction w as [|w IH]; intros n; cbn [fixedWidth]; [reflexivity|].
  rewrite length_app_string, IH. cbn. lia.
Qed.

Lemma length_toISOString t :
  String.length (toISOString t)
  = if (0 <=? YearFromTime t) && (YearFromTime t <=? 9999) then 24%nat else 27%nat.
Proof.
  unfold toISOString.
  rewrite !length_app_string, !length_fixedWidth.
  destruct ((0 <=? YearFromTime t) && (YearFromTime t <=? 9999)).
  - rewrite length_fixedWidth. reflexivity.
  - rewrite length_app_string, length_fixedWidth.
    destruct (YearFromTime t <? 0); reflexivity.
Qed.

Lemma truthy_toISOString t : truthy (VString (toISOString t)) = true.
Proof.
  cbn [truthy]. destruct (String.eqb_spec (toISOString t) EmptyString) as [E|]; [|done].
  pose proof (length_toISOString t) as L. rewrite E in L.
  destruct (_ && _); discriminate.
Qed.

Lemma list_ascii_of_string_app (a b : string) :
  list_ascii_of_string (a +:+ b) = list_ascii_of_string a ++ list_ascii_of_string b.
Proof. induction a as [|c a IH]; simpl; [reflexivity|]. by rewrite IH. Qed.

Lemma fixedWidth_digits w n :
  Forall (fun c => isDigit c = true) (list_ascii_of_string (fixedWidth w n)).
Proof.
  revert n. induction w as [|w IH]; intros n; cbn [fixedWidth]; [constructor|].
  rewrite list_ascii_of_string_app. apply Forall_app. split; [apply IH|].
  cbn. constructor; [|constructor].
  assert (H : 0 <= n mod 10 < 10) by (apply Z.mod_pos_bound; lia).
  assert (E : exists k, (k < 10)%nat /\ Z.to_N (n mod 10) = N.of_nat k).
  { exists (Z.to_nat (n mod 10)). split; [lia|]. lia. }
  destruct E as (k & Hk & ->).
  do 10 (destruct k as [|k]; [reflexivity|]). lia.
Qed.

(** The characters of the text of an instant, and its last one. *)
Lemma toISOString_chars t :
  Forall (fun c => isWhiteSpace c = false) (list_ascii_of_string (toISOString t))
  /\ exists l, list_ascii_of_string (toISOString t) = l ++ ["Z"%char].
Proof.
  assert (D : forall w n, Forall (fun c => isWhiteSpace c = false)
                            (list_ascii_of_string (fixedWidth w n))).
  { intros w n. eapply Forall_impl; [apply fixedWidth_digits|].
    intros c. cbn. destruct c as [[] [] [] [] [] [] [] []]; done. }
  unfold toISOString. rewrite !list_ascii_of_string_app. split.
  - repeat (apply Forall_app; split); try apply D;
      try solve [cbn; repeat constructor].
    destruct (_ && _); [apply D|].
    rewrite list_ascii_of_string_app. apply Forall_app. split; [|apply D].
    destruct (_ <? _); cbn; repeat constructor.
  - rewrite !app_assoc. eexists. reflexivity.
Qed.

Lemma test_HAS_TIMEZONE_REGEX_Z (l : list ascii) :
  test_HAS_TIMEZONE_REGEX (string_of_list_ascii (l ++ ["Z"%char])) = true.
Proof.
  unfold test_HAS_TIMEZONE_REGEX. rewrite list_ascii_of_string_of_list_ascii.
  rewrite rev_app_distr. cbn. reflexivity.
Qed.

Lemma toISOString_absolute t :
  trim (toISOString t) = toISOString t
  /\ test_HAS_TIMEZONE_REGEX (toISOString t) = true.
Proof.
  destruct (toISOString_chars t) as [W [l E]].
  rewrite <- (string_of_list_ascii_of_string (toISOString t)).
  split.
  - apply trim_no_white_space. exact W.
  - rewrite E. apply test_HAS_TIMEZONE_REGEX_Z.
Qed.

Lemma parseDeadline_Ok h v tz iso :
  parseDeadline h v tz = Ok iso -> exists t, iso = toISOString t.
Proof.
  assert (D : forall d, Date_toISOString d = Ok iso -> exists t, iso = toISOString t)
    by (intros [t|]; cbn; [intros [= <-]; eauto|discriminate]).
  unfold parseDeadline.
  destruct v as [| |?|days|input]; try apply D.
  - destruct (days <=? 0); [intros [= <-]; eauto|apply D].
  - destruct (test_HAS_TIMEZONE_REGEX _).
    + destruct (Date_parse h _); [intros [= <-]; eauto|discriminate].
    + destruct (match_LOCAL_DATETIME_REGEX _) as [m|].
      * destruct (assertValidLocalDateTime _ _ _); [|discriminate].
        cbn [mbind Outcome_bind].
        destruct (negb _).
        -- destruct (assertValidTimeZone _ _); [|discriminate]. apply D.
        -- destruct (Date_local _ _ _ _ _ _ _ _); [intros [= <-]; eauto|discriminate].
      * destruct (Date_parse h _); [intros [= <-]; eauto|discriminate].
Qed.

(** X10: what [parseDeadline] returns is always the UTC text of an instant,
    24 characters long (27 for a year outside 0..9999), free of white space
    and ending in Z. Read again, it is taken for an absolute time: with an
    engine that parses the text back to its instant, [parseDeadline] maps it
    to itself, whatever the time zone in force. *)
Theorem parseDeadline_result
    (h : Host) (deadlineInput : JSValue) (timeZone : option string) :
  match parseDeadline h deadlineInput timeZone with
  | Ok iso =>
      exists t,
        iso = toISOString t
        /\ (String.length iso = 24%nat \/ String.length iso = 27%nat)
        /\ trim iso = iso
        /\ test_HAS_TIMEZONE_REGEX iso = true
        /\ forall (h' : Host) (timeZone' : option string),
             Date_parse h' iso = Some t ->
             parseDeadline h' (VString iso) timeZone' = Ok iso
  | Throw e =>
      kind e = InvalidInput \/ kind e = InvalidTimezone \/ e = InvalidTimeValue
  end.
Proof.
  destruct (parseDeadline h deadlineInput timeZone) as [iso|e] eqn:E;
    [|by apply parseDeadline_throws in E].
  destruct (parseDeadline_Ok _ _ _ _ E) as [t ->]. exists t.
  destruct (toISOString_absolute t) as [Tr Te].
  split; [reflexivity|]. split; [|split; [exact Tr|split; [exact Te|]]].
  - rewrite length_toISOString. destruct (_ && _); [by left|by right].
  - intros h' tz' P. unfold parseDeadline. rewrite Tr, Te, P. reflexivity.
Qed.

(** ** The requests of the client operations *)

(** Closes [k ∉ l] for a literal key and a literal list. *)
Ltac not_listed :=
  let H := fresh in
  intros H;
  repeat (apply elem_of_cons in H as [H|H]; [discriminate H|]);
  by apply elem_of_nil in H.

Lemma applyTaskDefaultsForCreate_frame (taskData output : JSObject) defaults k :
  applyTaskDefaultsForCreate taskData defaults = Ok output ->
  k ∉ ["eventCategory"; "eventSubType"; "priority"; "onDeck"; "alwaysPrivate";
       "notes"; "timeSchemeId"; "timeChunksRequired"; "minChunkSize";
       "maxChunkSize"]%string ->
  prop output k = prop taskData k.
Proof.
  intros E Hk.
  assert (N : forall k', k' ∈ ["eventCategory"; "eventSubType"; "priority"; "onDeck";
                "alwaysPrivate"; "notes"; "timeSchemeId"; "timeChunksRequired";
                "minChunkSize"; "maxChunkSize"]%string -> k <> k')
    by (intros k' Hk' ->; contradiction).
  destruct (applyTaskDefaultsForCreate_steps _ _ _ E) as (o1 & o2 & o3 & E1 & E2 & E3 & E4).
  pose proof (defaultEnums_cases defaults taskData) as F1. rewrite E1 in F1.
  pose proof (defaultTimeChunksRequired_cases defaults (defaultFlags defaults o1)) as C2.
  rewrite E2 in C2. destruct C2 as [F2 _].
  pose proof (defaultChunkSizes_cases defaults o2) as C3.
  rewrite E3 in C3. destruct C3 as (F3 & _ & _).
  pose proof (clampChunkSizes_cases o3) as C4. rewrite E4 in C4.
  destruct C4 as (_ & _ & F4).
  rewrite F4, F3, F2, defaultFlags_frame, F1; [reflexivity|..];
    apply N; repeat constructor.
Qed.

Lemma lookup_removeUndefined (o : JSObject) k v :
  removeUndefined o !! k = Some v -> o !! k = Some v /\ v <> VUndefined.
Proof.
  unfold removeUndefined. intros H.
  apply map_lookup_filter_Some in H as [H1 H2]. done.
Qed.

Lemma prop_undefined_not_dom (o : JSObject) k :
  prop o k = VUndefined -> k ∉ dom (removeUndefined o).
Proof.
  intros H Hin. apply elem_of_dom in Hin as [v Hv].
  apply lookup_removeUndefined in Hv as [Hv N].
  unfold prop in H. rewrite Hv in H. cbn in H. contradiction.
Qed.

Lemma parseField_value h k tz (o o' : JSObject) :
  parseField h k tz o = Ok o' ->
  if isUndefined (prop o k) then o' = o
  else exists iso, parseDeadline h (prop o k) tz = Ok iso
                   /\ o' = <[k := VString iso]> o.
Proof.
  unfold parseField. destruct (isUndefined (prop o k)); cbn [negb].
  - by intros [= <-].
  - destruct (parseDeadline h (prop o k) tz) as [iso|]; [|discriminate].
    cbn [mbind Outcome_bind]. intros [= <-]. eauto.
Qed.

Lemma isUndefined_true v : isUndefined v = true -> v = VUndefined.
Proof. by destruct v. Qed.

(** X11: every request [createTask] sends carries a [due], the text of an
    instant, and never a [deadline] or a key whose value is [undefined]. The
    [due] comes from the deadline when there is one, else from the [due]
    supplied, else from the account's [dueInDays] or, without it, from the
    next day. An exception reaches the caller wrapped as the failure of
    createTask. *)
Theorem createTask_request
    (h : Host) (defaults : option JSObject) (taskData : JSObject)
    (timeZone : option string) :
  match createTask h defaults taskData timeZone with
  | Ok request =>
      exists payload due,
        request = PostTask payload
        /\ prop payload "due" = VString due
        /\ ("deadline"%string ∉ dom payload)
        /\ (forall k v, payload !! k = Some v -> v <> VUndefined)
        /\ parseDeadline h
             (if negb (isUndefined (prop taskData "deadline"))
              then prop taskData "deadline"
              else if negb (isUndefined (prop taskData "due"))
                   then prop taskData "due"
                   else if isPositiveNumber (optProp defaults "dueInDays")
                        then optProp defaults "dueInDays" else VUndefined)
             (resolvedTimeZone h timeZone)
           = Ok due
  | Throw e => exists cause, e = ApiCallFailed "createTask" cause
  end.
Proof.
  unfold createTask, handleApiError.
  set (tz := resolvedTimeZone h timeZone).
  destruct (applyTaskDefaultsForCreate taskData defaults) as [o|e] eqn:Ea;
    cbn [mbind Outcome_bind]; [|eauto].
  assert (Fd : prop o "deadline" = prop taskData "deadline")
    by (apply (applyTaskDefaultsForCreate_frame _ _ _ _ Ea); not_listed).
  assert (Fu : prop o "due" = prop taskData "due")
    by (apply (applyTaskDefaultsForCreate_frame _ _ _ _ Ea); not_listed).
  destruct (parseField h "due" tz o) as [o1|e] eqn:E1; cbn [mbind Outcome_bind]; [|eauto].
  apply parseField_value in E1. rewrite Fu in E1.
  assert (Fd1 : prop o1 "deadline" = prop taskData "deadline").
  { destruct (isUndefined (prop taskData "due")); [by subst|].
    destruct E1 as (iso & _ & ->). by prop_simpl. }
  rewrite Fd1.
  match goal with
  | |- context [mbind _ ?c] =>
      assert (S1 : match c with
                   | Ok o2 =>
                       exists due,
                         prop o2 "due" = VString due
                         /\ prop o2 "deadline" = VUndefined
                         /\ parseDeadline h
                              (if negb (isUndefined (prop taskData "deadline"))
                               then prop taskData "deadline"
                               else if negb (isUndefined (prop taskData "due"))
                                    then prop taskData "due"
                                    else if isPositiveNumber (optProp defaults "dueInDays")
                                         then optProp defaults "dueInDays"
                                         else VUndefined) tz
                            = Ok due
                   | Throw e => True
                   end);
      [|destruct c as [o2|e]; cbn [mbind Outcome_bind]; [|eauto]]
  end.
  { destruct (isUndefined (prop taskData "deadline")) eqn:Ud; cbn [negb].
    - destruct (isUndefined (prop taskData "due")) eqn:Uu; cbn [negb].
      + subst o1. rewrite Fu. rewrite (isUndefined_true _ Uu). cbn [truthy negb].
        destruct (isPositiveNumber _);
          (destruct (parseDeadline h _ tz) as [due|] eqn:Ed;
           cbn [mbind Outcome_bind]; [|done]);
          exists due; prop_simpl; rewrite Fd; eauto using isUndefined_true.
      + destruct E1 as (iso & Ei & ->). prop_simpl.
        destruct (parseDeadline_Ok _ _ _ _ Ei) as [t ->].
        rewrite truthy_toISOString. cbn [negb].
        exists (toISOString t). prop_simpl. rewrite Fd. eauto using isUndefined_true.
    - destruct (parseDeadline h (prop taskData "deadline") tz) as [due|] eqn:Ed;
        cbn [mbind Outcome_bind]; [|done].
      exists due. by prop_simpl. }
  destruct S1 as (due & Hdue & Hdead & Hsrc).
  destruct (parseField h "snoozeUntil" tz o2) as [o3|e] eqn:E3;
    cbn [mbind Outcome_bind]; [|eauto].
  pose proof (parseField_cases h "snoozeUntil" tz o2) as F3. rewrite E3 in F3.
  destruct F3 as [F3 _].
  destruct (validateChunkSizes o3) as [[]|e]; cbn [mbind Outcome_bind]; [|eauto].
  exists (removeUndefined o3), due. split; [reflexivity|].
  split; [prop_simpl; by rewrite F3|].
  split; [apply prop_undefined_not_dom; by rewrite F3|].
  split; [|exact Hsrc].
  intros k v Hk. by apply lookup_removeUndefined in Hk as [_ N].
Qed.

(** X12: a task created at a start time without a deadline is due when
    its duration ends: the [due] sent is the start plus 15 minutes for each
    chunk of the total; only a total that is not positive falls back to the
    account's [dueInDays] (one day without it) after the start. The start
    time itself is resolved by [parseDeadline]. *)
Theorem createTaskAtTime_due
    (h : Host) (defaults : option JSObject) (startTime : string)
    (taskData : JSObject) (timeZone : option string)
    (startTimeIso : string) (payload : JSObject) (startTimeDate : Z) :
  createTaskAtTime h defaults startTime taskData timeZone
  = Ok (PostTaskAtTime startTimeIso payload) ->
  isUndefined (prop taskData "deadline") = true ->
  isUndefined (prop taskData "due") = true ->
  Date_parse h startTimeIso = Some startTimeDate ->
  parseDeadline h (VString startTime) (resolvedTimeZone h timeZone) = Ok startTimeIso
  /\ exists n due,
       prop payload "timeChunksRequired" = VNumber n
       /\ prop payload "due" = VString due
       /\ Date_toISOString
            (if 0 <? n then TimeClip (startTimeDate + n * 15 * 60000)
             else deriveDefaultDue startTimeDate defaults)
          = Ok due
       /\ (isUndefined (prop taskData "timeChunksRequired") = true -> 0 < n).
Proof.
  unfold createTaskAtTime, handleApiError. intros H Ud Uu Hp.
  set (tz := resolvedTimeZone h timeZone) in *.
  destruct (applyTaskDefaultsForCreate taskData defaults) as [o|e] eqn:Ea;
    cbn [mbind Outcome_bind] in H; [|discriminate].
  destruct (applyTaskDefaultsForCreate_bounds _ _ _ Ea)
    as (n & lo & hi & Hn & _ & _ & _ & _ & Hpos & _).
  assert (Fd : prop o "deadline" = VUndefined).
  { rewrite (applyTaskDefaultsForCreate_frame _ _ _ "deadline" Ea) by not_listed.
    by apply isUndefined_true. }
  assert (Fu : prop o "due" = VUndefined).
  { rewrite (applyTaskDefaultsForCreate_frame _ _ _ "due" Ea) by not_listed.
    by apply isUndefined_true. }
  destruct (parseDeadline h (VString startTime) tz) as [iso|e] eqn:Es;
    cbn [mbind Outcome_bind] in H; [|discriminate].
  assert (P : parseField h "due" tz o = Ok o)
    by (unfold parseField; rewrite Fu; reflexivity).
  rewrite P in H. cbn [mbind Outcome_bind] in H.
  rewrite Fd, Fu in H. cbn [isUndefined negb truthy] in H.
  rewrite Hn in H. cbn [isUndefined negb asNumber mbind Outcome_bind] in H.
  match type of H with
  | context [mbind _ (mbind _ ?c)] =>
      destruct c as [due|e] eqn:Edue; cbn [mbind Outcome_bind] in H; [|discriminate]
  end.
  destruct (parseField h "snoozeUntil" tz _) as [o3|e] eqn:E3;
    cbn [mbind Outcome_bind] in H; [|discriminate].
  pose proof (parseField_cases h "snoozeUntil" tz (<["due" := VString due]> o)) as F3.
  rewrite E3 in F3. destruct F3 as [F3 _].
  destruct (validateChunkSizes o3) as [[]|e]; cbn [mbind Outcome_bind] in H;
    [|discriminate].
  injection H as -> <-. split; [reflexivity|].
  exists n, due. prop_simpl. rewrite !F3 by done. prop_simpl.
  split; [exact Hn|]. split; [reflexivity|]. split; [|exact Hpos].
  rewrite Hp in Edue. unfold addMinutes in Edue.
  destruct (0 <? n); exact Edue.
Qed.

Lemma createTaskAtTime_due_witness :
  parseDeadline utcHost (VString "2026-01-05T08:00:00-08:00")
    (resolvedTimeZone utcHost None)
  = Ok "2026-01-05T16:00:00.000Z"%string
  /\ exists n due,
       prop (object [("due", VString "2026-01-05T17:00:00.000Z");
                     ("eventCategory", VString "WORK");
                     ("eventSubType", VString "FOCUS"); ("maxChunkSize", VNumber 4);
                     ("minChunkSize", VNumber 1); ("notes", VString EmptyString);
                     ("priority", VString "P3"); ("timeChunksRequired", VNumber 4);
                     ("title", VString "Review")]) "timeChunksRequired" = VNumber n
       /\ prop (object [("due", VString "2026-01-05T17:00:00.000Z");
                        ("eventCategory", VString "WORK");
                        ("eventSubType", VString "FOCUS"); ("maxChunkSize", VNumber 4);
                        ("minChunkSize", VNumber 1); ("notes", VString EmptyString);
                        ("priority", VString "P3"); ("timeChunksRequired", VNumber 4);
                        ("title", VString "Review")]) "due" = VString due
       /\ Date_toISOString
            (if 0 <? n then TimeClip (Date_UTC 2026 0 5 16 0 0 0 + n * 15 * 60000)
             else deriveDefaultDue (Date_UTC 2026 0 5 16 0 0 0) None)
          = Ok due
       /\ (isUndefined
             (prop (object [("title", VString "Review");
                            ("timeChunksRequired", VNumber 4)])
                "timeChunksRequired") = true -> 0 < n).
Proof.
  apply (createTaskAtTime_due utcHost None "2026-01-05T08:00:00-08:00"
           (object [("title", VString "Review"); ("timeChunksRequired", VNumber 4)])
           None "2026-01-05T16:00:00.000Z");
    vm_compute; reflexivity.
Defined.

(** ** The update handler *)

Lemma convertMinutes_lookup minutes chunks (data data' : JSObject) :
  convertMinutes minutes chunks data = Ok data' ->
  data' !! chunks
  = match prop data minutes with
    | VNumber value => Some (VNumber (Z.quot value 15))
    | _ => data !! chunks
    end.
Proof.
  unfold convertMinutes. intros H.
  destruct (prop data minutes); try (injection H as <-; reflexivity).
  unfold minutesToChunks, CHUNK_MINUTES in H.
  destruct (negb _); cbn in H; [discriminate|].
  injection H as <-. by rewrite lookup_insert_eq.
Qed.

Lemma convertMinutes_not_number minutes chunks (data : JSObject) :
  isNumber (prop data minutes) = false -> convertMinutes minutes chunks data = Ok data.
Proof. unfold convertMinutes. by destruct (prop data minutes). Qed.

Lemma normalizeChunkInputs_lookup (input data : JSObject) :
  normalizeChunkInputs input = Ok data ->
  (data !! "timeChunksRequired"
   = match prop input "durationMinutes" with
     | VNumber value => Some (VNumber (Z.quot value 15))
     | _ => input !! "timeChunksRequired"
     end)
  /\ (if truthy (prop input "lockChunkSizeToDuration")
      then is_Some (data !! "minChunkSize")
      else data !! "minChunkSize"
           = match prop input "minDurationMinutes" with
             | VNumber value => Some (VNumber (Z.quot value 15))
             | _ => input !! "minChunkSize"
             end
           /\ data !! "maxChunkSize"
              = match prop input "maxDurationMinutes" with
                | VNumber value => Some (VNumber (Z.quot value 15))
                | _ => input !! "maxChunkSize"
                end).
Proof.
  unfold normalizeChunkInputs. intros H.
  destruct (convertMinutes "durationMinutes" _ input) as [d1|] eqn:E1;
    [|discriminate]. cbn [mbind Outcome_bind] in H.
  destruct (convertMinutes "minDurationMinutes" _ d1) as [d2|] eqn:E2;
    [|discriminate]. cbn [mbind Outcome_bind] in H.
  destruct (convertMinutes "maxDurationMinutes" _ d2) as [d3|] eqn:E3;
    [|discriminate]. cbn [mbind Outcome_bind] in H.
  assert (F : forall k, k <> "timeChunksRequired"%string -> k <> "minChunkSize"%string ->
                        k <> "maxChunkSize"%string -> prop d3 k = prop input k).
  { intros k H1 H2 H3.
    rewrite (convertMinutes_prop_ne _ _ _ _ _ E3) by done.
    rewrite (convertMinutes_prop_ne _ _ _ _ _ E2) by done.
    by rewrite (convertMinutes_prop_ne _ _ _ _ _ E1). }
  assert (T : d3 !! "timeChunksRequired"
              = match prop input "durationMinutes" with
                | VNumber value => Some (VNumber (Z.quot value 15))
                | _ => input !! "timeChunksRequired"
                end).
  { rewrite (convertMinutes_lookup_ne _ _ _ _ _ E3) by done.
    rewrite (convertMinutes_lookup_ne _ _ _ _ _ E2) by done.
    apply (convertMinutes_lookup _ _ _ _ E1). }
  assert (Lo : d3 !! "minChunkSize"
               = match prop input "minDurationMinutes" with
                 | VNumber value => Some (VNumber (Z.quot value 15))
                 | _ => input !! "minChunkSize"
                 end).
  { rewrite (convertMinutes_lookup_ne _ _ _ _ _ E3) by done.
    rewrite (convertMinutes_lookup _ _ _ _ E2).
    rewrite (convertMinutes_prop_ne _ _ _ _ _ E1) by done.
    by rewrite (convertMinutes_lookup_ne _ _ _ _ _ E1). }
  assert (Hi : d3 !! "maxChunkSize"
               = match prop input "maxDurationMinutes" with
                 | VNumber value => Some (VNumber (Z.quot value 15))
                 | _ => input !! "maxChunkSize"
                 end).
  { rewrite (convertMinutes_lookup _ _ _ _ E3).
    rewrite (convertMinutes_prop_ne _ _ _ _ _ E2) by done.
    rewrite (convertMinutes_prop_ne _ _ _ _ _ E1) by done.
    rewrite (convertMinutes_lookup_ne _ _ _ _ _ E2) by done.
    by rewrite (convertMinutes_lookup_ne _ _ _ _ _ E1). }
  rewrite <- (F "lockChunkSizeToDuration") by done.
  destruct (truthy (prop d3 "lockChunkSizeToDuration")).
  - destruct (negb _); [discriminate|]. cbn [mbind Outcome_bind] in H.
    injection H as <-.
    rewrite !lookup_delete_ne by done. rewrite !lookup_insert_ne by done.
    split; [exact T|]. rewrite lookup_insert_eq. eauto.
  - cbn [mbind Outcome_bind] in H. injection H as <-.
    rewrite !lookup_delete_ne by done. done.
Qed.

(** X13: the update handler refuses a call with nothing to change, and
    only such a call: it answers with the error that a field is required
    exactly when the parameters hold no key besides taskId, the time-zone
    keys, startTime, and minute fields and a lock flag that are present
    without taking effect. *)
Theorem reclaim_update_task_requires_field
    (h : Host) (defaults : option JSObject) (params : JSObject) :
  reclaim_update_task h defaults params = Throw UpdateRequiresField
  <-> (forall k, k ∈ dom params ->
         k ∈ ["taskId"; "timeZone"; "timezone"; "startTime";
              "lockChunkSizeToDuration"; "durationMinutes"; "minDurationMinutes";
              "maxDurationMinutes"]%string)
      /\ truthy (prop params "lockChunkSizeToDuration") = false
      /\ isNumber (prop params "durationMinutes") = false
      /\ isNumber (prop params "minDurationMinutes") = false
      /\ isNumber (prop params "maxDurationMinutes") = false.
Proof.
  unfold reclaim_update_task.
  set (updateData := delete "timezone" (delete "timeZone" (delete "taskId" params))).
  assert (P : forall k, k <> "taskId"%string -> k <> "timeZone"%string ->
                        k <> "timezone"%string -> updateData !! k = params !! k).
  { intros k H1 H2 H3. unfold updateData. by rewrite !lookup_delete_ne. }
  assert (P' : forall k, k <> "taskId"%string -> k <> "timeZone"%string ->
                         k <> "timezone"%string -> prop updateData k = prop params k).
  { intros k H1 H2 H3. unfold prop. by rewrite P. }
  rewrite <- (P' "lockChunkSizeToDuration"%string), <- (P' "durationMinutes"%string),
    <- (P' "minDurationMinutes"%string), <- (P' "maxDurationMinutes"%string) by done.
  assert (Z1 : updateData !! "taskId" = None)
    by (unfold updateData; rewrite !lookup_delete_ne by done; apply lookup_delete_eq).
  assert (Z2 : updateData !! "timeZone" = None)
    by (unfold updateData; rewrite !lookup_delete_ne by done; apply lookup_delete_eq).
  assert (Z3 : updateData !! "timezone" = None)
    by (unfold updateData; apply lookup_delete_eq).
  clearbody updateData.
  split.
  - destruct (normalizeChunkInputs updateData) as [data|e] eqn:En;
      cbn [mbind Outcome_bind].
    2: { intros [= ->]. pose proof (normalizeChunkInputs_keys updateData) as F.
         rewrite En in F. destruct F as [F|(f & _ & F)]; discriminate. }
    destruct (bool_decide (dom data = ∅)) eqn:Eb.
    2: { destruct (prop params "taskId"); cbn [asNumber mbind Outcome_bind];
           try discriminate.
         unfold updateTask, handleApiError.
         destruct (mbind _ _); discriminate. }
    intros _. apply bool_decide_eq_true in Eb.
    assert (N : forall k, data !! k = None).
    { intros k. apply not_elem_of_dom. rewrite Eb. apply not_elem_of_empty. }
    pose proof (normalizeChunkInputs_keys updateData) as F. rewrite En in F.
    destruct F as [_ F].
    destruct (normalizeChunkInputs_lookup _ _ En) as [T B].
    rewrite N in T.
    destruct (truthy (prop updateData "lockChunkSizeToDuration")).
    { rewrite N in B. destruct B; discriminate. }
    destruct B as [Lo Hi]. rewrite N in Lo, Hi.
    split; [|split; [reflexivity|]].
    + intros k Hk. apply elem_of_dom in Hk as [v Hv].
      destruct (decide (k ∈ ["taskId"; "timeZone"; "timezone"; "startTime";
                  "lockChunkSizeToDuration"; "durationMinutes"; "minDurationMinutes";
                  "maxDurationMinutes"]%string)) as [|Hn]; [done|exfalso].
      assert (Q : forall k', k' ∈ ["taskId"; "timeZone"; "timezone"; "startTime";
                    "lockChunkSizeToDuration"; "durationMinutes"; "minDurationMinutes";
                    "maxDurationMinutes"]%string -> k <> k')
        by (intros k' Hk' ->; contradiction).
      assert (Ek : updateData !! k = Some v)
        by (rewrite P; [exact Hv|..]; apply Q; repeat constructor).
      destruct (decide (k = "timeChunksRequired"%string)) as [->|N1].
      { destruct (prop updateData "durationMinutes"); congruence. }
      destruct (decide (k = "minChunkSize"%string)) as [->|N2].
      { destruct (prop updateData "minDurationMinutes"); congruence. }
      destruct (decide (k = "maxChunkSize"%string)) as [->|N3].
      { destruct (prop updateData "maxDurationMinutes"); congruence. }
      rewrite <- F in Ek; [rewrite N in Ek; discriminate|].
      intros Hin.
      repeat (apply elem_of_cons in Hin as [->|Hin];
              [first [contradiction | (apply Hn; repeat constructor)]|]).
      by apply elem_of_nil in Hin.
    + destruct (prop updateData "durationMinutes"); try discriminate;
      destruct (prop updateData "minDurationMinutes"); try discriminate;
      destruct (prop updateData "maxDurationMinutes"); try discriminate; done.
  - intros (D & L & N1 & N2 & N3).
    unfold normalizeChunkInputs.
    rewrite (convertMinutes_not_number _ _ _ N1). cbn [mbind Outcome_bind].
    rewrite (convertMinutes_not_number _ _ _ N2). cbn [mbind Outcome_bind].
    rewrite (convertMinutes_not_number _ _ _ N3). cbn [mbind Outcome_bind].
    rewrite L. cbn [mbind Outcome_bind].
    rewrite bool_decide_eq_true_2; [reflexivity|].
    apply dom_empty_iff_L, map_eq. intros k. rewrite lookup_empty.
    destruct (decide (k ∈ ["durationMinutes"; "minDurationMinutes";
                "maxDurationMinutes"; "lockChunkSizeToDuration"; "startTime";
                "timeZone"; "timezone"]%string)) as [Hk|Hk].
    + repeat (apply elem_of_cons in Hk as [->|Hk];
              [rewrite ?lookup_delete_eq, ?lookup_delete_ne by done;
               first [reflexivity | apply lookup_delete_eq]|]).
      by apply elem_of_nil in Hk.
    + assert (Q : forall k', k' ∈ ["durationMinutes"; "minDurationMinutes";
                    "maxDurationMinutes"; "lockChunkSizeToDuration"; "startTime";
                    "timeZone"; "timezone"]%string -> k <> k')
        by (intros k' Hk' ->; contradiction).
      rewrite !lookup_delete_ne
        by (intros E; symmetry in E; revert E; apply Q; repeat constructor).
      destruct (decide (k = "taskId"%string)) as [->|T1]; [exact Z1|].
      destruct (decide (k = "timeZone"%string)) as [->|T2]; [exact Z2|].
      destruct (decide (k = "timezone"%string)) as [->|T3]; [exact Z3|].
      rewrite P by done. apply not_elem_of_dom. intros Hin. apply D in Hin.
      repeat (apply elem_of_cons in Hin as [->|Hin];
              [first [contradiction | (apply Hk; repeat constructor)]|]).
      by apply elem_of_nil in Hin.
Qed.

Lemma removeUndefined_defined (o : JSObject) k : k ∈ dom (removeUndefined o) ->
  prop (removeUndefined o) k <> VUndefined.
Proof.
  intros Hin. apply elem_of_dom in Hin as [v Hv]. unfold prop. rewrite Hv. cbn.
  by apply lookup_removeUndefined in Hv as [_ N].
Qed.

(** Every key of a payload holds a value: the requests are built from
    [removeUndefined]. *)
Lemma createTask_defined h defaults (taskData : JSObject) tz request k :
  createTask h defaults taskData tz = Ok request ->
  k ∈ dom (payloadOf request) -> prop (payloadOf request) k <> VUndefined.
Proof.
  unfold createTask, handleApiError.
  destruct (mbind _ _) as [r|] eqn:H; [|discriminate]. intros [= <-].
  repeat bind_case H. injection H as <-. apply removeUndefined_defined.
Qed.

Lemma createTaskAtTime_defined h defaults startTime (taskData : JSObject) tz request k :
  createTaskAtTime h defaults startTime taskData tz = Ok request ->
  k ∈ dom (payloadOf request) -> prop (payloadOf request) k <> VUndefined.
Proof.
  unfold createTaskAtTime, handleApiError.
  destruct (mbind _ _) as [r|] eqn:H; [|discriminate]. intros [= <-].
  repeat bind_case H. injection H as <-. apply removeUndefined_defined.
Qed.

Lemma updateTask_defined h defaults taskId (taskData : JSObject) tz request k :
  updateTask h defaults taskId taskData tz = Ok request ->
  k ∈ dom (payloadOf request) -> prop (payloadOf request) k <> VUndefined.
Proof.
  unfold updateTask, handleApiError.
  destruct (mbind _ _) as [r|] eqn:H; [|discriminate]. intros [= <-].
  repeat bind_case H. destruct (bool_decide _); injection H as <-.
  - cbn [payloadOf]. intros Hin. by apply elem_of_dom in Hin as [v Hv].
  - apply removeUndefined_defined.
Qed.

Lemma dateKey_not k :
  k ∉ ["due"; "deadline"; "snoozeUntil"]%string -> ~ dateKey k.
Proof. intros N [->|[->| ->]]; apply N; repeat constructor. Qed.

(** X14: the keys that only the tool understands never reach the API:
    no request of the create or the update handler carries a minute field,
    the lock flag, startTime, timeZone or timezone, and an update never
    carries the taskId, which goes into the path. *)
Theorem tool_keys_not_forwarded
    (h : Host) (defaults : option JSObject) (params : JSObject) :
  match reclaim_create_task h defaults params with
  | Ok request =>
      forall k, k ∈ ["durationMinutes"; "minDurationMinutes"; "maxDurationMinutes";
                     "lockChunkSizeToDuration"; "startTime"; "timeZone";
                     "timezone"]%string ->
                k ∉ dom (payloadOf request)
  | Throw _ => True
  end
  /\ match reclaim_update_task h defaults params with
     | Ok request =>
         forall k, k ∈ ["taskId"; "durationMinutes"; "minDurationMinutes";
                        "maxDurationMinutes"; "lockChunkSizeToDuration"; "startTime";
                        "timeZone"; "timezone"]%string ->
                   k ∉ dom (payloadOf request)
     | Throw _ => True
     end.
Proof.
  split.
  - unfold reclaim_create_task.
    set (taskData := delete "timezone" (delete "timeZone" (delete "startTime" params))).
    clearbody taskData.
    destruct (normalizeChunkInputs taskData) as [data|e] eqn:En;
      cbn [mbind Outcome_bind]; [|done].
    pose proof (normalizeChunkInputs_keys taskData) as K. rewrite En in K.
    destruct K as [K _].
    assert (G : forall request output,
               applyTaskDefaultsForCreate data defaults = Ok output ->
               sameButDates output (payloadOf request) ->
               (forall k, k ∈ dom (payloadOf request) ->
                          prop (payloadOf request) k <> VUndefined) ->
               forall k, k ∈ ["durationMinutes"; "minDurationMinutes";
                   "maxDurationMinutes"; "lockChunkSizeToDuration"; "startTime";
                   "timeZone"; "timezone"]%string ->
                 k ∉ dom (payloadOf request)).
    { intros request output Ea F D k Hk Hin. apply (D k Hin).
      specialize (K k Hk).
      rewrite F, (applyTaskDefaultsForCreate_frame _ _ _ k Ea).
      - unfold prop. by rewrite K.
      - repeat (apply elem_of_cons in Hk as [->|Hk]; [not_listed|]).
        by apply elem_of_nil in Hk.
      - apply dateKey_not.
        repeat (apply elem_of_cons in Hk as [->|Hk]; [not_listed|]).
        by apply elem_of_nil in Hk. }
    assert (C1 : match createTask h defaults data (toolTimeZone params) with
                 | Ok request =>
                     forall k, k ∈ ["durationMinutes"; "minDurationMinutes";
                         "maxDurationMinutes"; "lockChunkSizeToDuration"; "startTime";
                         "timeZone"; "timezone"]%string ->
                       k ∉ dom (payloadOf request)
                 | Throw _ => True
                 end).
    { pose proof (createTask_cases h defaults data (toolTimeZone params)) as C.
      destruct (createTask _ _ _ _) as [request|] eqn:E; [|done].
      destruct C as (output & Ea & F & _).
      apply (G request output Ea F). intros k. by apply (createTask_defined _ _ _ _ _ _ E). }
    destruct (prop params "startTime") as [| |?|?|startTime]; try exact C1.
    destruct (negb _); [|exact C1].
    pose proof (createTaskAtTime_cases h defaults startTime data (toolTimeZone params)) as C.
    destruct (createTaskAtTime _ _ _ _ _) as [request|] eqn:E; [|done].
    destruct C as (output & Ea & F & _).
    apply (G request output Ea F). intros k.
    by apply (createTaskAtTime_defined _ _ _ _ _ _ _ E).
  - unfold reclaim_update_task.
    set (updateData := delete "timezone" (delete "timeZone" (delete "taskId" params))).
    assert (Z1 : updateData !! "taskId" = None)
      by (unfold updateData; rewrite !lookup_delete_ne by done; apply lookup_delete_eq).
    clearbody updateData.
    destruct (normalizeChunkInputs updateData) as [data|e] eqn:En;
      cbn [mbind Outcome_bind]; [|done].
    pose proof (normalizeChunkInputs_keys updateData) as K. rewrite En in K.
    destruct K as [K K'].
    destruct (bool_decide _); [done|].
    destruct (asNumber "taskId" _) as [taskId|]; cbn [mbind Outcome_bind]; [|done].
    pose proof (updateTask_cases h defaults taskId data (toolTimeZone params)) as C.
    destruct (updateTask _ _ _ _ _) as [request|] eqn:E; [|done].
    destruct C as (output & payload & Ep & F & Hreq).
    pose proof (normalizeTaskPatch_cases data defaults) as P. rewrite Ep in P.
    destruct P as (_ & _ & P & _).
    assert (D : forall k, k ∈ dom (payloadOf request) ->
                          prop (payloadOf request) k <> VUndefined)
      by (intros k; by apply (updateTask_defined _ _ _ _ _ _ _ E)).
    destruct Hreq as [->|[-> _]]; [|intros k _; cbn [payloadOf]; rewrite dom_empty_L; apply not_elem_of_empty].
    cbn [payloadOf] in *. intros k Hk Hin. apply (D k Hin).
    assert (Kk : data !! k = None).
    { apply elem_of_cons in Hk as [->|Hk]; [|by apply K].
      rewrite K' by not_listed. exact Z1. }
    rewrite F, P.
    + unfold prop. by rewrite Kk.
    + repeat (apply elem_of_cons in Hk as [->|Hk]; [not_listed|]).
      by apply elem_of_nil in Hk.
    + apply dateKey_not.
      repeat (apply elem_of_cons in Hk as [->|Hk]; [not_listed|]).
      by apply elem_of_nil in Hk.
Qed.

Lemma normalizeTaskPatch_frame (taskData output : JSObject) defaults k :
  normalizeTaskPatch taskData defaults = Ok output ->
  k ∉ ["eventCategory"; "eventSubType"; "priority"; "timeSchemeId"; "minChunkSize";
       "maxChunkSize"]%string ->
  prop output k = prop taskData k.
Proof.
  intros E Hk. pose proof (normalizeTaskPatch_cases taskData defaults) as C.
  rewrite E in C. destruct C as (_ & _ & F & _). by apply F.
Qed.

(** X20: an update sends a [due] only when the caller gave a deadline or
    a due (the deadline first), never a default one, and never a [deadline]
    or a key whose value is [undefined]; the request goes to the task that was
    named. When nothing defined is left to send, the task is fetched instead
    of patched. *)
Theorem updateTask_request
    (h : Host) (defaults : option JSObject) (taskId : Z) (taskData : JSObject)
    (timeZone : option string) :
  match updateTask h defaults taskId taskData timeZone with
  | Ok (PatchTask id payload) =>
      id = taskId
      /\ dom payload <> ∅
      /\ ("deadline"%string ∉ dom payload)
      /\ (forall k v, payload !! k = Some v -> v <> VUndefined)
      /\ (if negb (isUndefined (prop taskData "deadline"))
          then exists due,
                 parseDeadline h (prop taskData "deadline")
                   (resolvedTimeZone h timeZone) = Ok due
                 /\ prop payload "due" = VString due
          else if negb (isUndefined (prop taskData "due"))
               then exists due,
                      parseDeadline h (prop taskData "due")
                        (resolvedTimeZone h timeZone) = Ok due
                      /\ prop payload "due" = VString due
               else "due"%string ∉ dom payload)
  | Ok (GetTask id) =>
      id = taskId
      /\ isUndefined (prop taskData "deadline") = true
      /\ isUndefined (prop taskData "due") = true
      /\ isUndefined (prop taskData "snoozeUntil") = true
  | Ok _ => False
  | Throw e =>
      exists cause,
        e = ApiCallFailed ("updateTask(taskId=" +:+ pretty taskId +:+ ")") cause
  end.
Proof.
  unfold updateTask, handleApiError.
  set (tz := resolvedTimeZone h timeZone).
  destruct (normalizeTaskPatch taskData defaults) as [o|e] eqn:Ea;
    cbn [mbind Outcome_bind]; [|eauto].
  assert (Fd : prop o "deadline" = prop taskData "deadline")
    by (apply (normalizeTaskPatch_frame _ _ _ _ Ea); not_listed).
  assert (Fu : prop o "due" = prop taskData "due")
    by (apply (normalizeTaskPatch_frame _ _ _ _ Ea); not_listed).
  assert (Fs : prop o "snoozeUntil" = prop taskData "snoozeUntil")
    by (apply (normalizeTaskPatch_frame _ _ _ _ Ea); not_listed).
  destruct (parseField h "due" tz o) as [o1|e] eqn:E1; cbn [mbind Outcome_bind]; [|eauto].
  pose proof (parseField_cases h "due" tz o) as F1. rewrite E1 in F1.
  destruct F1 as [F1 _].
  apply parseField_value in E1. rewrite Fu in E1.
  rewrite (F1 "deadline"%string) by done. rewrite Fd.
  match goal with
  | |- context [mbind _ ?c] =>
      assert (S1 : match c with
                   | Ok o2 =>
                       prop o2 "deadline" = VUndefined
                       /\ prop o2 "snoozeUntil" = prop taskData "snoozeUntil"
                       /\ (if negb (isUndefined (prop taskData "deadline"))
                           then exists due,
                                  parseDeadline h (prop taskData "deadline") tz = Ok due
                                  /\ prop o2 "due" = VString due
                           else if negb (isUndefined (prop taskData "due"))
                                then exists due,
                                       parseDeadline h (prop taskData "due") tz = Ok due
                                       /\ prop o2 "due" = VString due
                                else prop o2 "due" = VUndefined)
                   | Throw e => True
                   end);
      [|destruct c as [o2|e]; cbn [mbind Outcome_bind]; [|eauto]]
  end.
  { destruct (isUndefined (prop taskData "deadline")) eqn:Ud; cbn [negb].
    - rewrite (F1 "deadline"%string), Fd by done.
      rewrite (F1 "snoozeUntil"%string), Fs by done.
      split; [by apply isUndefined_true|]. split; [reflexivity|].
      destruct (isUndefined (prop taskData "due")) eqn:Uu; cbn [negb].
      + subst o1. rewrite Fu. by apply isUndefined_true.
      + destruct E1 as (iso & Ei & ->). exists iso. by prop_simpl.
    - destruct (parseDeadline h (prop taskData "deadline") tz) as [due|] eqn:Ed;
        cbn [mbind Outcome_bind]; [|done].
      prop_simpl. rewrite (F1 "snoozeUntil"%string), Fs by done.
      split; [reflexivity|]. split; [reflexivity|]. exists due. by prop_simpl. }
  destruct S1 as (Hdead & Hsn & Hdue).
  destruct (parseField h "snoozeUntil" tz o2) as [o3|e] eqn:E3;
    cbn [mbind Outcome_bind]; [|eauto].
  pose proof (parseField_cases h "snoozeUntil" tz o2) as F3. rewrite E3 in F3.
  destruct F3 as [F3 _].
  apply parseField_value in E3. rewrite Hsn in E3.
  destruct (validateChunkSizes o3) as [[]|e]; cbn [mbind Outcome_bind]; [|eauto].
  destruct (bool_decide (dom (removeUndefined o3) = ∅)) eqn:Eb.
  - apply bool_decide_eq_true in Eb.
    assert (U : forall k, prop o3 k = VUndefined).
    { intros k. destruct (prop o3 k) eqn:E; [done|exfalso..];
        (assert (Hin : k ∈ dom (removeUndefined o3));
         [apply prop_undefined_dom; rewrite prop_removeUndefined, E; discriminate
         |rewrite Eb in Hin; by apply not_elem_of_empty in Hin]). }
    split; [reflexivity|].
    destruct (isUndefined (prop taskData "snoozeUntil")) eqn:Us.
    2: { destruct E3 as (iso & _ & ->). specialize (U "snoozeUntil"%string).
         rewrite prop_insert in U. discriminate. }
    subst o3.
    destruct (isUndefined (prop taskData "deadline")) eqn:Ud; cbn [negb] in Hdue.
    2: { destruct Hdue as (due & _ & Hd). rewrite U in Hd. discriminate. }
    destruct (isUndefined (prop taskData "due")) eqn:Uu; cbn [negb] in Hdue.
    2: { destruct Hdue as (due & _ & Hd). rewrite U in Hd. discriminate. }
    done.
  - apply bool_decide_eq_false in Eb.
    split; [reflexivity|]. split; [exact Eb|].
    split; [apply prop_undefined_not_dom; by rewrite F3|].
    split; [intros k v Hk; by apply lookup_removeUndefined in Hk as [_ N]|].
    destruct (negb (isUndefined (prop taskData "deadline"))).
    + destruct Hdue as (due & Hp & Hd). exists due. split; [exact Hp|].
      prop_simpl. by rewrite F3.
    + destruct (negb (isUndefined (prop taskData "due"))).
      * destruct Hdue as (due & Hp & Hd). exists due. split; [exact Hp|].
        prop_simpl. by rewrite F3.
      * apply prop_undefined_not_dom. by rewrite F3.
Qed.

(** X21: the create handler sends one POST, never a patch or a fetch:
    to the at-time endpoint exactly when startTime is a non-empty string,
    with the start resolved by [parseDeadline] in the zone of the call, and
    to the plain endpoint otherwise. *)
Theorem reclaim_create_task_routing
    (h : Host) (defaults : option JSObject) (params : JSObject) :
  match reclaim_create_task h defaults params with
  | Ok (PostTaskAtTime startTimeIso _) =>
      exists startTime,
        prop params "startTime" = VString startTime
        /\ startTime <> EmptyString
        /\ parseDeadline h (VString startTime)
             (resolvedTimeZone h (toolTimeZone params)) = Ok startTimeIso
  | Ok (PostTask _) =>
      forall startTime, prop params "startTime" = VString startTime ->
                        startTime = EmptyString
  | Ok _ => False
  | Throw _ => True
  end.
Proof.
  unfold reclaim_create_task.
  destruct (normalizeChunkInputs _) as [data|]; cbn [mbind Outcome_bind]; [|done].
  assert (C1 : forall tz,
             (forall startTime, prop params "startTime" = VString startTime ->
                                startTime = EmptyString) ->
             match createTask h defaults data tz with
             | Ok (PostTaskAtTime _ _) => False
             | Ok (PostTask _) =>
                 forall startTime, prop params "startTime" = VString startTime ->
                                   startTime = EmptyString
             | Ok _ => False
             | Throw _ => True
             end).
  { intros tz N. pose proof (createTask_cases h defaults data tz) as C.
    destruct (createTask h defaults data tz) as [r|]; [|done].
    destruct C as (_ & _ & _ & payload & ->). exact N. }
  destruct (prop params "startTime") as [| |?|?|startTime] eqn:Es;
    try (specialize (C1 (toolTimeZone params) ltac:(discriminate));
         destruct (createTask _ _ _ _) as [[]|]; done).
  destruct (String.eqb_spec startTime EmptyString) as [->|Hne]; cbn [negb].
  - specialize (C1 (toolTimeZone params) ltac:(by intros ? [= <-])).
    destruct (createTask _ _ _ _) as [[]|]; done.
  - pose proof (createTaskAtTime_cases h defaults startTime data (toolTimeZone params)) as C.
    destruct (createTaskAtTime _ _ _ _ _) as [r|] eqn:E; [|done].
    destruct C as (_ & _ & _ & iso & payload & ->).
    exists startTime. split; [reflexivity|]. split; [exact Hne|].
    revert E. unfold createTaskAtTime, handleApiError.
    destruct (mbind _ _) as [r|] eqn:H; [|discriminate]. intros [= ->].
    bind_case H.
    destruct (parseDeadline h (VString startTime) _) as [iso'|];
      cbn [mbind Outcome_bind] in H; [|discriminate].
    repeat bind_case H. by injection H as -> _.
Qed.

(** ** Dates that exist *)

Lemma isLeapYear_spec y :
  isLeapYear y = true <-> y mod 4 = 0 /\ (y mod 100 <> 0 \/ y mod 400 = 0).
Proof.
  unfold isLeapYear.
  destruct (Z.eqb_spec (y mod 4) 0), (Z.eqb_spec (y mod 100) 0),
    (Z.eqb_spec (y mod 400) 0); cbn; split; intros; try done; try lia.
Qed.

Lemma year_of_era_day yoe doy :
  0 <= yoe <= 399 -> 0 <= doy <= 365 ->
  (doy = 365 -> (yoe + 1) mod 4 = 0 /\ ((yoe + 1) mod 100 <> 0 \/ (yoe + 1) mod 400 = 0)) ->
  let doe := yoe * 365 + yoe / 4 - yoe / 100 + doy in
  0 <= doe < 146097
  /\ (doe - doe / 1460 + doe / 36524 - doe / 146096) / 365 = yoe.
Proof. intros Hy Hd Hl doe. unfold doe. split; lia. Qed.

(** The day number of a date that exists is rendered as that date. *)
Lemma civil_from_days_from_civil y m d :
  1 <= m <= 12 -> 1 <= d <= DaysInMonth y m ->
  civil_from_days (days_from_civil y m d) = (y, m, d).
Proof.
  intros Hm Hd. unfold days_from_civil, civil_from_days.
  set (y' := if m <=? 2 then y - 1 else y).
  set (mp := if m <=? 2 then m + 9 else m - 3).
  set (era := y' / 400). set (yoe := y' mod 400).
  assert (Hyoe : 0 <= yoe <= 399) by (unfold yoe; lia).
  assert (Hy' : y' = era * 400 + yoe) by (unfold era, yoe; lia).
  set (doy := (153 * mp + 2) / 5 + d - 1).
  assert (Hmp : 0 <= mp <= 11) by (unfold mp; destruct (Z.leb_spec m 2); lia).
  assert (Hleap : isLeapYear y = true ->
                  m <= 2 -> (yoe + 1) mod 4 = 0
                            /\ ((yoe + 1) mod 100 <> 0 \/ (yoe + 1) mod 400 = 0)).
  { intros L H2. apply isLeapYear_spec in L. unfold yoe, y'.
    replace (m <=? 2) with true by (symmetry; apply Z.leb_le; lia). lia. }
  assert (Hdoy : ((153 * mp + 2) / 5 <= doy < (153 * (mp + 1) + 2) / 5
                  /\ 0 <= doy <= 365)
                 /\ (doy = 365 -> (yoe + 1) mod 4 = 0
                        /\ ((yoe + 1) mod 100 <> 0 \/ (yoe + 1) mod 400 = 0))).
  { revert Hd Hleap. unfold DaysInMonth, doy, mp.
    assert (M : m = 1 \/ m = 2 \/ m = 3 \/ m = 4 \/ m = 5 \/ m = 6 \/ m = 7 \/ m = 8
                \/ m = 9 \/ m = 10 \/ m = 11 \/ m = 12) by lia.
    destruct M as [->|[->|[->|[->|[->|[->|[->|[->|[->|[->|[->| ->]]]]]]]]]]];
      cbn [Z.eqb Z.leb Z.compare Pos.compare Pos.compare_cont orb Pos.eqb];
      intros Hd Hleap; try (split; lia).
    destruct (isLeapYear y); [|split; lia].
    split; [lia|]. intros _. apply Hleap; [reflexivity|lia]. }
  destruct Hdoy as [[Hdoy Hdoy'] Hlast].
  destruct (year_of_era_day yoe doy Hyoe Hdoy' Hlast) as [Hdoe Hrec].
  set (doe := yoe * 365 + yoe / 4 - yoe / 100 + doy) in *.
  replace (era * 146097 + doe - 719468 + 719468) with (era * 146097 + doe) by lia.
  replace ((era * 146097 + doe) / 146097) with era by lia.
  replace ((era * 146097 + doe) mod 146097) with doe by lia.
  rewrite Hrec.
  replace (doe - (365 * yoe + yoe / 4 - yoe / 100)) with doy by (unfold doe; lia).
  replace ((5 * doy + 2) / 153) with mp by lia.
  replace (doy - (153 * mp + 2) / 5 + 1) with d by (unfold doy; lia).
  unfold mp, y' in *. destruct (Z.leb_spec m 2).
  - replace (m + 9 <? 10) with false by (symmetry; apply Z.ltb_ge; lia).
    replace (m + 9 - 9 <=? 2) with true by (symmetry; apply Z.leb_le; lia).
    repeat f_equal; lia.
  - replace (m - 3 <? 10) with true by (symmetry; apply Z.ltb_lt; lia).
    replace (m - 3 + 3 <=? 2) with false by (symmetry; apply Z.leb_gt; lia).
    repeat f_equal; lia.
Qed.

Lemma Date_UTC_fields y m d hh mi ss ms :
  100 <= y -> 1 <= m <= 12 -> 1 <= d <= DaysInMonth y m -> 0 <= hh <= 23 ->
  0 <= mi <= 59 -> 0 <= ss <= 59 -> 0 <= ms <= 999 ->
  let t := Date_UTC y (m - 1) d hh mi ss ms in
  YearFromTime t = y /\ MonthFromTime t + 1 = m /\ DateFromTime t = d
  /\ HourFromTime t = hh /\ MinFromTime t = mi /\ SecFromTime t = ss
  /\ msFromTime t = ms.
Proof.
  intros Hy Hm Hd Hh Hmi Hs Hms t.
  assert (Et : t = days_from_civil y m d * msPerDay + MakeTime hh mi ss ms).
  { unfold t, Date_UTC, MakeDate, MakeDay.
    replace (y <=? 99) with false by (symmetry; apply Z.leb_gt; lia).
    rewrite andb_false_r.
    replace ((m - 1) / 12) with 0 by lia.
    replace ((m - 1) mod 12 + 1) with m by lia.
    rewrite Z.add_0_r, (days_from_civil_linear y m d). reflexivity. }
  assert (Ht : 0 <= MakeTime hh mi ss ms < msPerDay)
    by (unfold MakeTime, msPerDay, msPerHour, msPerMinute, msPerSecond; lia).
  assert (Ed : Day t = days_from_civil y m d).
  { unfold Day. rewrite Et. unfold msPerDay in *. lia. }
  unfold YearFromTime, MonthFromTime, DateFromTime.
  rewrite Ed, civil_from_days_from_civil by done. cbn [fst snd].
  unfold HourFromTime, MinFromTime, SecFromTime, msFromTime. rewrite Et.
  unfold MakeTime, msPerDay, msPerHour, msPerMinute, msPerSecond in *.
  repeat split; lia.
Qed.

Lemma assertValidLocalDateTime_valid parts millisecond input :
  100 <= year parts <= 9999 -> 1 <= month parts <= 12 ->
  1 <= day parts <= DaysInMonth (year parts) (month parts) ->
  0 <= hour parts <= 23 -> 0 <= minute parts <= 59 -> 0 <= second parts <= 59 ->
  0 <= millisecond <= 999 ->
  assertValidLocalDateTime parts millisecond input = Ok tt.
Proof.
  intros Hy Hm Hd Hh Hmi Hs Hms.
  assert (Hd31 : 1 <= day parts <= 31).
  { revert Hd. unfold DaysInMonth.
    destruct (_ =? 2); [destruct (isLeapYear _)|destruct (_ || _)]; lia. }
  unfold assertValidLocalDateTime.
  rewrite (proj2 (outside_spec 1 12 _) Hm), (proj2 (outside_spec 1 31 _) Hd31),
    (proj2 (outside_spec 0 23 _) Hh), (proj2 (outside_spec 0 59 _) Hmi),
    (proj2 (outside_spec 0 59 _) Hs), (proj2 (outside_spec 0 999 _) Hms).
  rewrite Date_UTC_TimeClip by lia.
  destruct (Date_UTC_fields (year parts) (month parts) (day parts) (hour parts)
              (minute parts) (second parts) millisecond) as (-> & -> & -> & -> & -> & -> & ->);
    try lia.
  rewrite !Z.eqb_refl. reflexivity.
Qed.

Lemma assertValidLocalDateTime_sound parts millisecond originalInput :
  0 <= year parts <= 9999 ->
  assertValidLocalDateTime parts millisecond originalInput = Ok tt ->
  100 <= year parts
  /\ 1 <= month parts <= 12
  /\ 1 <= day parts <= DaysInMonth (year parts) (month parts)
  /\ 0 <= hour parts <= 23 /\ 0 <= minute parts <= 59
  /\ 0 <= second parts <= 59 /\ 0 <= millisecond <= 999.
Proof.
  intros Hy H.
  destruct (assertValidLocalDateTime_ranges _ _ _ H) as (R1 & R2 & R3 & R4 & R5 & R6).
  assert (V : ~ invalidComponents parts millisecond).
  { intros I. destruct (assertValidLocalDateTime_invalid _ _ originalInput I)
      as (e & E & _). congruence. }
  assert (D : day parts <= DaysInMonth (year parts) (month parts)).
  { destruct (Z_le_gt_dec (day parts) (DaysInMonth (year parts) (month parts)));
      [done|]. exfalso. apply V. unfold invalidComponents. do 6 right. lia. }
  repeat split; try lia.
  destruct (Z_le_gt_dec 100 (year parts)) as [|Hlt]; [done|exfalso].
  revert H. unfold assertValidLocalDateTime.
  repeat match goal with
         | |- context [if outside ?a ?b ?c then _ else _] => destruct (outside a b c)
         end; try discriminate.
  destruct (TimeClip _) as [u|] eqn:Eu; [|discriminate].
  apply TimeClip_Some in Eu.
  assert (Hu : 400 <= YearFromTime u).
  { apply YearFromTime_lower. rewrite Eu.
    unfold Date_UTC.
    replace ((0 <=? year parts) && (year parts <=? 99)) with true
      by (symmetry; apply andb_true_iff; split; apply Z.leb_le; lia).
    unfold MakeDay, MakeDate, MakeTime, days_from_civil.
    replace ((month parts - 1) / 12) with 0 by lia.
    replace ((month parts - 1) mod 12 + 1) with (month parts) by lia.
    unfold msPerDay, msPerHour, msPerMinute, msPerSecond.
    destruct (month parts <=? 2); lia. }
  replace (YearFromTime u =? year parts) with false
    by (symmetry; apply Z.eqb_neq; lia).
  cbn [negb orb]. discriminate.
Qed.

(** X15: for a year of at most four digits, [assertValidLocalDateTime]
    accepts exactly the date-times that exist from the year 100 on: the
    month 1..12, the day within the month (29 February in leap years only),
    hour, minute, second and millisecond within their ranges. A year below
    100 is always rejected, since [Date.UTC] reads it as 19xx. *)
Theorem assertValidLocalDateTime_accepts
    (parts : TimeParts) (millisecond : Z) (originalInput : string) :
  0 <= year parts <= 9999 ->
  assertValidLocalDateTime parts millisecond originalInput = Ok tt
  <-> 100 <= year parts
      /\ 1 <= month parts <= 12
      /\ 1 <= day parts <= DaysInMonth (year parts) (month parts)
      /\ 0 <= hour parts <= 23 /\ 0 <= minute parts <= 59
      /\ 0 <= second parts <= 59 /\ 0 <= millisecond <= 999.
Proof.
  intros Hy. split.
  - by apply assertValidLocalDateTime_sound.
  - intros (H1 & H2 & H3 & H4 & H5 & H6 & H7).
    apply assertValidLocalDateTime_valid; lia.
Qed.

Lemma assertValidLocalDateTime_accepts_witness :
  assertValidLocalDateTime
    {| year := 2024; month := 2; day := 29; hour := 23; minute := 59; second := 59 |}
    999 "2024-02-29T23:59:59.999" = Ok tt
  <-> 100 <= 2024
      /\ 1 <= 2 <= 12
      /\ 1 <= 29 <= DaysInMonth 2024 2
      /\ 0 <= 23 <= 23 /\ 0 <= 59 <= 59 /\ 0 <= 59 <= 59 /\ 0 <= 999 <= 999.
Proof.
  apply (assertValidLocalDateTime_accepts
           {| year := 2024; month := 2; day := 29; hour := 23; minute := 59;
              second := 59 |} 999 "2024-02-29T23:59:59.999").
  cbn [year]. lia.
Defined.

(** ** How [zonedTimeToUtc] chooses *)

Lemma Set_add_NoDup x s : NoDup s -> NoDup (Set_add x s).
Proof.
  intros H. unfold Set_add. destruct (bool_decide (x ∈ s)) eqn:E; [done|].
  apply bool_decide_eq_false in E. apply NoDup_app. split; [done|].
  split; [|apply NoDup_singleton].
  intros y Hy Hx. apply list_elem_of_singleton in Hx as ->. contradiction.
Qed.

Lemma Set_add_length x s :
  (length s <= length (Set_add x s) <= S (length s))%nat.
Proof.
  unfold Set_add. destruct (bool_decide (x ∈ s)); [lia|].
  rewrite length_app. cbn. lia.
Qed.

Lemma candidateOffsets_shape guess zone :
  NoDup (candidateOffsets guess zone)
  /\ (1 <= length (candidateOffsets guess zone) <= 4)%nat
  /\ head (candidateOffsets guess zone) = Some (getTimeZoneOffset guess zone).
Proof.
  assert (E : forall x, Set_add x [] = [x]).
  { intros x. unfold Set_add.
    rewrite bool_decide_eq_false_2 by apply not_elem_of_nil. reflexivity. }
  unfold candidateOffsets. rewrite E. cbn [fold_left].
  set (o0 := getTimeZoneOffset guess zone).
  set (a := getTimeZoneOffset (guess - o0) zone).
  set (b := getTimeZoneOffset (guess - o0 + 3600000) zone).
  set (c := getTimeZoneOffset (guess - o0 - 3600000) zone).
  clearbody o0 a b c.
  assert (N0 : NoDup [o0]) by apply NoDup_singleton.
  pose proof (Set_add_length a [o0]) as L1.
  pose proof (Set_add_length b (Set_add a [o0])) as L2.
  pose proof (Set_add_length c (Set_add b (Set_add a [o0]))) as L3.
  cbn [length] in L1.
  split; [by repeat apply Set_add_NoDup|]. split; [lia|].
  unfold Set_add.
  repeat match goal with
         | |- context [bool_decide ?P] => destruct (bool_decide P)
         end; reflexivity.
Qed.

Lemma candidatesOf_nonempty guess zone : candidatesOf guess zone <> [].
Proof.
  destruct (candidateOffsets_shape guess zone) as (_ & L & _).
  unfold candidatesOf. destruct (candidateOffsets guess zone); cbn in *; [lia|done].
Qed.

Lemma closestCandidate_spec w (l : list Candidate) first :
  l <> [] ->
  closestCandidate w l first ∈ l
  /\ forall c, c ∈ l ->
       Z.abs (partsToUtcMillis (parts (closestCandidate w l first)) - w)
       <= Z.abs (partsToUtcMillis (parts c) - w).
Proof.
  unfold closestCandidate.
  set (step := fun '(bestCandidate, bestDiff) candidate =>
                 let candidateNaive := partsToUtcMillis (parts candidate) in
                 let diff := Z.abs (candidateNaive - w) in
                 if match bestDiff with None => true | Some b => diff <? b end
                 then (candidate, Some diff)
                 else (bestCandidate, bestDiff)).
  assert (G : forall l best b seen,
             best ∈ seen -> b = Z.abs (partsToUtcMillis (parts best) - w) ->
             (forall c, c ∈ seen -> b <= Z.abs (partsToUtcMillis (parts c) - w)) ->
             let r := fst (fold_left step l (best, Some b)) in
             r ∈ seen ++ l
             /\ forall c, c ∈ seen ++ l ->
                  Z.abs (partsToUtcMillis (parts r) - w)
                  <= Z.abs (partsToUtcMillis (parts c) - w)).
  { clear l. induction l as [|x l IH]; intros best b seen Hb Eb Hmin; cbn [fold_left].
    - rewrite app_nil_r. cbn [fst]. split; [done|]. intros c Hc. rewrite <- Eb. auto.
    - cbn [step].
      destruct (Z.ltb_spec (Z.abs (partsToUtcMillis (parts x) - w)) b) as [Hlt|Hge].
      + specialize (IH x (Z.abs (partsToUtcMillis (parts x) - w)) (seen ++ [x])).
        rewrite <- app_assoc in IH. cbn [app] in IH. apply IH.
        * apply elem_of_app. right. apply list_elem_of_singleton. done.
        * reflexivity.
        * intros c Hc. apply elem_of_app in Hc as [Hc|Hc].
          -- specialize (Hmin c Hc). lia.
          -- apply list_elem_of_singleton in Hc as ->. lia.
      + specialize (IH best b (seen ++ [x])).
        rewrite <- app_assoc in IH. cbn [app] in IH. apply IH.
        * apply elem_of_app. by left.
        * exact Eb.
        * intros c Hc. apply elem_of_app in Hc as [Hc|Hc].
          -- by apply Hmin.
          -- apply list_elem_of_singleton in Hc as ->. lia. }
  destruct l as [|x l]; [done|]. intros _. cbn [fold_left]. cbn [step].
  apply (G l x _ [x]).
  - apply list_elem_of_singleton. done.
  - reflexivity.
  - intros c Hc. apply list_elem_of_singleton in Hc as ->. lia.
Qed.

Lemma zonedTimeToUtc_choice (y mo d hh mi ss ms : Z) (zone : Z -> Z) :
  let desired :=
    {| year := y; month := mo; day := d; hour := hh; minute := mi; second := ss |} in
  let guess := Date_UTC y (mo - 1) d hh mi ss ms in
  let shown := fun c : Candidate => partsToUtcMillis (parts c) in
  exists c,
    c ∈ candidatesOf guess zone
    /\ zonedTimeToUtc y mo d hh mi ss ms zone = date c
    /\ ((exists c0, c0 ∈ candidatesOf guess zone
                    /\ partsMatch (parts c0) desired = true) ->
        partsMatch (parts c) desired = true
        /\ forall c', c' ∈ candidatesOf guess zone ->
             partsMatch (parts c') desired = true -> date c <= date c')
    /\ ((forall c0, c0 ∈ candidatesOf guess zone ->
                    partsMatch (parts c0) desired = false) ->
        (exists c0, c0 ∈ candidatesOf guess zone
                    /\ partsToUtcMillis desired <= shown c0) ->
        partsToUtcMillis desired <= shown c
        /\ forall c', c' ∈ candidatesOf guess zone ->
             partsToUtcMillis desired <= shown c' ->
             shown c <= shown c'
             /\ (shown c = shown c' -> date c <= date c'))
    /\ ((forall c0, c0 ∈ candidatesOf guess zone ->
                    partsMatch (parts c0) desired = false
                    /\ shown c0 < partsToUtcMillis desired) ->
        forall c', c' ∈ candidatesOf guess zone ->
          Z.abs (shown c - partsToUtcMillis desired)
          <= Z.abs (shown c' - partsToUtcMillis desired)).
Proof.
  intros desired guess shown.
  set (w := partsToUtcMillis desired).
  set (cands := candidatesOf guess zone).
  set (matching := List.filter (fun c => partsMatch (parts c) desired) cands).
  set (mk := fun c => {| candidate := c; naive := partsToUtcMillis (parts c) |}).
  set (after := List.filter (fun c => w <=? naive c) (map mk cands)).
  assert (Hz : zonedTimeToUtc y mo d hh mi ss ms zone
               = match Array_sort compareDate matching with
                 | first :: _ => date first
                 | [] =>
                     match Array_sort (compareAfter w) after with
                     | first :: _ => date (candidate first)
                     | [] =>
                         date (closestCandidate w cands
                                 (hd {| date := guess;
                                        parts := getZonedParts guess zone |} cands))
                     end
                 end) by reflexivity.
  rewrite Hz. clear Hz.
  assert (Min : forall c, c ∈ cands -> partsMatch (parts c) desired = true ->
                          In c matching).
  { intros c Hc Hm. apply filter_In. split; [by apply list_elem_of_In|done]. }
  assert (Ain : forall c, c ∈ cands -> w <= shown c -> In (mk c) after).
  { intros c Hc Hn. apply filter_In. split.
    - apply in_map. by apply list_elem_of_In.
    - cbn [naive mk]. by apply Z.leb_le. }
  destruct (Array_sort compareDate matching) as [|first rest] eqn:Es.
  - apply Array_sort_nil in Es.
    assert (None : forall c, c ∈ cands -> partsMatch (parts c) desired = false).
    { intros c Hc. destruct (partsMatch (parts c) desired) eqn:E; [|done].
      specialize (Min c Hc E). rewrite Es in Min. destruct Min. }
    destruct (Array_sort (compareAfter w) after) as [|first rest] eqn:Ea.
    + apply Array_sort_nil in Ea.
      assert (Before : forall c, c ∈ cands -> shown c < w).
      { intros c Hc. destruct (Z_lt_le_dec (shown c) w) as [|Hge]; [done|].
        specialize (Ain c Hc Hge). rewrite Ea in Ain. destruct Ain. }
      destruct (closestCandidate_spec w cands
                  (hd {| date := guess; parts := getZonedParts guess zone |} cands)
                  (candidatesOf_nonempty guess zone)) as [Hc Hmin].
      eexists. split; [exact Hc|]. split; [reflexivity|]. split; [|split].
      * intros (c0 & Hc0 & Hm0). rewrite (None c0 Hc0) in Hm0. discriminate.
      * intros _ (c0 & Hc0 & Hn0). specialize (Before c0 Hc0). lia.
      * intros _ c' Hc'. by apply Hmin.
    + destruct (Array_sort_head (compareAfter w) (compareAfter_total w)
                  (compareAfter_trans w) after first rest Ea) as [Hf Hleast].
      apply list_elem_of_In, filter_In in Hf as [Hf Hfn].
      apply in_map_iff in Hf as (c & <- & Hc). apply list_elem_of_In in Hc.
      cbn [naive candidate mk] in *. apply Z.leb_le in Hfn.
      exists c. split; [exact Hc|]. split; [reflexivity|]. split; [|split].
      * intros (c0 & Hc0 & Hm0). rewrite (None c0 Hc0) in Hm0. discriminate.
      * intros _ _. split; [exact Hfn|]. intros c' Hc' Hn'.
        specialize (Hleast (mk c') ltac:(apply list_elem_of_In; by apply Ain)).
        split; [by apply (compareAfter_naive w (mk c) (mk c'))|].
        intros E. unfold compareAfter in Hleast. cbn [naive candidate mk] in Hleast.
        fold (shown c) (shown c') in Hleast. rewrite E in Hleast.
        rewrite Z.eqb_refl in Hleast. cbn [negb] in Hleast. lia.
      * intros B. destruct (B c Hc) as [_ B']. fold (shown c) in Hfn. lia.
  - destruct (Array_sort_head compareDate compare_date_total compare_date_trans
                matching first rest Es) as [Hf Hleast].
    apply list_elem_of_In, filter_In in Hf as [Hf Hfm]. apply list_elem_of_In in Hf.
    exists first. split; [exact Hf|]. split; [reflexivity|]. split; [|split].
    + intros _. split; [exact Hfm|]. intros c' Hc' Hm'.
      specialize (Hleast c' ltac:(apply list_elem_of_In; by apply Min)).
      unfold compareDate in Hleast. lia.
    + intros None. rewrite (None first Hf) in Hfm. discriminate.
    + intros B. destruct (B first Hf) as [B' _]. rewrite B' in Hfm. discriminate.
Qed.

(** X16: how [zonedTimeToUtc] chooses among its candidates. There are at
    most four, built from distinct offsets, the first the offset at the
    guess, and the result is always one of them: the earliest whose
    wall-clock fields equal the desired ones if there is one; else, among
    those that show the desired time or a later one, the one showing the
    earliest time (on a tie, the earlier instant); else the one whose
    wall-clock time is nearest. *)
Theorem zonedTimeToUtc_selection (y mo d hh mi ss ms : Z) (zone : Z -> Z) :
  let desired :=
    {| year := y; month := mo; day := d; hour := hh; minute := mi; second := ss |} in
  let guess := Date_UTC y (mo - 1) d hh mi ss ms in
  let shown := fun c : Candidate => partsToUtcMillis (parts c) in
  NoDup (candidateOffsets guess zone)
  /\ (1 <= length (candidateOffsets guess zone) <= 4)%nat
  /\ head (candidateOffsets guess zone) = Some (getTimeZoneOffset guess zone)
  /\ exists c,
       c ∈ candidatesOf guess zone
       /\ zonedTimeToUtc y mo d hh mi ss ms zone = date c
       /\ ((exists c0, c0 ∈ candidatesOf guess zone
                       /\ partsMatch (parts c0) desired = true) ->
           partsMatch (parts c) desired = true
           /\ forall c', c' ∈ candidatesOf guess zone ->
                partsMatch (parts c') desired = true -> date c <= date c')
       /\ ((forall c0, c0 ∈ candidatesOf guess zone ->
                       partsMatch (parts c0) desired = false) ->
           (exists c0, c0 ∈ candidatesOf guess zone
                       /\ partsToUtcMillis desired <= shown c0) ->
           partsToUtcMillis desired <= shown c
           /\ forall c', c' ∈ candidatesOf guess zone ->
                partsToUtcMillis desired <= shown c' ->
                shown c <= shown c'
                /\ (shown c = shown c' -> date c <= date c'))
       /\ ((forall c0, c0 ∈ candidatesOf guess zone ->
                       partsMatch (parts c0) desired = false
                       /\ shown c0 < partsToUtcMillis desired) ->
           forall c', c' ∈ candidatesOf guess zone ->
             Z.abs (shown c - partsToUtcMillis desired)
             <= Z.abs (shown c' - partsToUtcMillis desired)).
Proof.
  intros desired guess shown.
  destruct (candidateOffsets_shape guess zone) as (N & L & Hd).
  split; [exact N|]. split; [exact L|]. split; [exact Hd|].
  apply zonedTimeToUtc_choice.
Qed.

(** ** A zone without a transition nearby *)

Lemma getZonedParts_seconds t zone :
  getZonedParts t zone
  = getZonedParts ((t + zone t) - (t + zone t) mod 1000) (fun _ => 0).
Proof.
  unfold getZonedParts. rewrite Z.add_0_r.
  set (x := t + zone t).
  assert (D : Day (x - x mod 1000) = Day x) by (unfold Day, msPerDay; lia).
  unfold YearFromTime, MonthFromTime, DateFromTime. rewrite D.
  f_equal; unfold HourFromTime, MinFromTime, SecFromTime, msPerHour, msPerMinute,
    msPerSecond; lia.
Qed.

Lemma assertValidLocalDateTime_instant p ms input :
  assertValidLocalDateTime p ms input = Ok tt ->
  let u := Date_UTC (year p) (month p - 1) (day p) (hour p) (minute p) (second p) ms in
  YearFromTime u = year p /\ MonthFromTime u + 1 = month p /\ DateFromTime u = day p
  /\ HourFromTime u = hour p /\ MinFromTime u = minute p /\ SecFromTime u = second p.
Proof.
  unfold assertValidLocalDateTime.
  repeat match goal with
         | |- context [if outside ?a ?b ?c then _ else _] => destruct (outside a b c)
         end; try discriminate.
  destruct (TimeClip _) as [u|] eqn:Eu; [|discriminate].
  apply TimeClip_Some in Eu. rewrite <- Eu. clear Eu.
  match goal with |- context [if ?b then _ else _] => destruct b eqn:Eb end;
    [discriminate|]. intros _.
  repeat (apply orb_false_iff in Eb as [Eb ?]).
  repeat match goal with
         | E : negb _ = false |- _ => apply negb_false_iff, Z.eqb_eq in E
         end.
  cbv zeta. tauto.
Qed.

Lemma fields_whole_second x ms :
  x mod 1000 = 0 -> 0 <= ms <= 999 ->
  getZonedParts (x + ms) (fun _ => 0) = getZonedParts x (fun _ => 0).
Proof.
  intros Hx Hms. rewrite (getZonedParts_seconds (x + ms)). f_equal. lia.
Qed.

Section SteadyZone.
Variables (zone : Z -> Z) (o : Z).
Variables (y mo d hh mi ss ms : Z) (input : string).

Abbreviation desired :=
  {| year := y; month := mo; day := d; hour := hh; minute := mi; second := ss |}.
Abbreviation w := (partsToUtcMillis desired).
Abbreviation guess := (Date_UTC y (mo - 1) d hh mi ss ms).

Hypothesis Hvalid : assertValidLocalDateTime desired ms input = Ok tt.
Hypothesis Hyear : 1000 <= y <= 9999.
Hypothesis Hsteady : forall t, w - 2 * msPerDay <= t <= w + 2 * msPerDay -> zone t = o.
Hypothesis Hrange : - msPerDay <= o <= msPerDay.
Hypothesis Hseconds : o mod 1000 = 0.

Lemma sz_facts :
  0 <= ms <= 999 /\ guess = w + ms /\ w mod 1000 = 0 /\ -427274 * msPerDay <= w
  /\ getZonedParts w (fun _ => 0) = desired.
Proof using All.
  destruct (assertValidLocalDateTime_ranges _ _ _ Hvalid)
    as (R1 & R2 & R3 & R4 & R5 & R6); cbn [year month day hour minute second] in *.
  destruct (partsToUtcMillis_lower desired) as [L1 L2];
    cbn [year month day hour minute second]; try lia.
  assert (G : guess = w + ms).
  { unfold partsToUtcMillis; cbn [year month day hour minute second].
    apply Date_UTC_millisecond. }
  split; [exact R6|]. split; [exact G|]. split; [exact L2|]. split; [exact L1|].
  rewrite <- (fields_whole_second w ms L2 R6).
  pose proof (assertValidLocalDateTime_instant _ _ _ Hvalid) as F.
  cbv zeta in F. cbn [year month day hour minute second] in F.
  rewrite G in F. destruct F as (F1 & F2 & F3 & F4 & F5 & F6).
  unfold getZonedParts. rewrite Z.add_0_r. congruence.
Qed.

(** A probe of the zone at an instant near the desired time. *)
Lemma sz_probe t :
  w - 2 * msPerDay <= t <= w + 2 * msPerDay ->
  getTimeZoneOffset t zone = o - (t + o) mod 1000
  /\ getZonedParts t zone = getZonedParts ((t + o) - (t + o) mod 1000) (fun _ => 0)
  /\ partsToUtcMillis (getZonedParts t zone) = (t + o) - (t + o) mod 1000.
Proof using All.
  intros Ht. destruct sz_facts as (_ & _ & _ & Hlow & _).
  pose proof (Hsteady t Ht) as Hz.
  assert (Hl : -573371 * msPerDay <= t + zone t)
    by (rewrite Hz; unfold msPerDay in *; lia).
  split; [rewrite getTimeZoneOffset_spec by done; by rewrite Hz|].
  split; [rewrite getZonedParts_seconds; by rewrite Hz|].
  rewrite partsToUtcMillis_getZonedParts by done. by rewrite Hz.
Qed.

(** The candidates: the offset at the guess comes out short of the
    milliseconds of the guess, the one at the first candidate short of twice
    as many. *)
Lemma sz_offsets oj :
  oj ∈ candidateOffsets guess zone <-> oj = o - ms \/ oj = o - (2 * ms) mod 1000.
Proof using All.
  destruct sz_facts as (Hms & Hg & Hwm & Hlow & _).
  assert (P0 : w - 2 * msPerDay <= guess <= w + 2 * msPerDay)
    by (rewrite Hg; unfold msPerDay; lia).
  destruct (sz_probe guess P0) as (O0 & _).
  assert (E0 : getTimeZoneOffset guess zone = o - ms) by (rewrite O0, Hg; lia).
  assert (Pc : forall delta, delta = 0 \/ delta = 3600000 \/ delta = -3600000 ->
             getTimeZoneOffset (guess - (o - ms) + delta) zone
             = o - (2 * ms) mod 1000).
  { intros delta Hd.
    assert (P : w - 2 * msPerDay <= guess - (o - ms) + delta <= w + 2 * msPerDay)
      by (rewrite Hg; unfold msPerDay in *; lia).
    destruct (sz_probe _ P) as (O & _). rewrite O, Hg. lia. }
  rewrite candidateOffsets_elem, E0.
  replace (guess - (o - ms)) with (guess - (o - ms) + 0) at 1 by lia.
  replace (guess - (o - ms) - 3600000) with (guess - (o - ms) + -3600000) by lia.
  rewrite !Pc by lia. tauto.
Qed.

Lemma sz_candidate k :
  k = ms \/ k = (2 * ms) mod 1000 ->
  let c := {| date := guess - (o - k); parts := getZonedParts (guess - (o - k)) zone |} in
  c ∈ candidatesOf guess zone
  /\ date c = w - o + ms + k
  /\ partsToUtcMillis (parts c) = w + (ms + k) - (ms + k) mod 1000
  /\ (partsToUtcMillis (parts c) = w -> partsMatch (parts c) desired = true).
Proof using All.
  intros Hk c. destruct sz_facts as (Hms & Hg & Hwm & Hlow & Hf).
  assert (P : w - 2 * msPerDay <= guess - (o - k) <= w + 2 * msPerDay)
    by (rewrite Hg; unfold msPerDay in *; lia).
  destruct (sz_probe _ P) as (_ & Hp & Hn).
  split.
  { apply candidatesOf_elem. exists (o - k). split; [|done].
    apply sz_offsets. destruct Hk as [-> | ->]; auto. }
  split; [cbn [date c]; rewrite Hg; lia|].
  assert (Hn' : partsToUtcMillis (parts c) = w + (ms + k) - (ms + k) mod 1000).
  { cbn [parts c]. rewrite Hn, Hg. clear - Hwm. lia. }
  split; [exact Hn'|].
  intros E. cbn [parts c]. rewrite Hp.
  replace (guess - (o - k) + o - (guess - (o - k) + o) mod 1000) with w.
  - rewrite Hf. apply partsMatch_refl.
  - rewrite <- E, Hn', Hg. clear - Hwm. lia.
Qed.

Lemma sz_resolution :
  zonedTimeToUtc y mo d hh mi ss ms zone
  = w - o + (if ms <? 500 then 2 * ms else 3 * ms - 1000).
Proof using All.
  destruct sz_facts as (Hms & Hg & Hwm & Hlow & Hf).
  destruct (zonedTimeToUtc_choice y mo d hh mi ss ms zone)
    as (c & Hc & -> & T1 & T2 & _).
  apply candidatesOf_elem in Hc as (oj & Hoj & Ec). apply sz_offsets in Hoj.
  destruct (sz_candidate ms (or_introl eq_refl)) as (HA & EA & SA & MA).
  destruct (sz_candidate ((2 * ms) mod 1000) (or_intror eq_refl))
    as (HB & EB & SB & MB).
  set (A := {| date := guess - (o - ms);
               parts := getZonedParts (guess - (o - ms)) zone |}) in *.
  set (B := {| date := guess - (o - (2 * ms) mod 1000);
               parts := getZonedParts (guess - (o - (2 * ms) mod 1000)) zone |}) in *.
  assert (Hcase : c = A \/ c = B) by (destruct Hoj as [-> | ->]; rewrite Ec; auto).
  clear Ec Hoj oj.
  assert (None : partsMatch (parts A) desired = false ->
                 partsMatch (parts B) desired = false ->
                 forall c0, c0 ∈ candidatesOf guess zone ->
                            partsMatch (parts c0) desired = false).
  { intros NmA NmB c0 Hc0. apply candidatesOf_elem in Hc0 as (o0 & Ho0 & E0).
    apply sz_offsets in Ho0. destruct Ho0 as [-> | ->]; by rewrite E0. }
  assert (Nm : forall c0, partsToUtcMillis (parts c0) <> w ->
                          partsMatch (parts c0) desired = false).
  { intros c0 N. destruct (partsMatch (parts c0) desired) eqn:E; [|done].
    apply partsMatch_naive in E. contradiction. }
  set (sA := partsToUtcMillis (parts A)) in *.
  set (sB := partsToUtcMillis (parts B)) in *.
  set (w0 := w) in *. clearbody w0.
  assert (Dc : date c = date A \/ date c = date B)
    by (destruct Hcase as [-> | ->]; auto).
  set (dA := date A) in *. set (dB := date B) in *. set (dc := date c) in *.
  destruct (Z.ltb_spec ms 500) as [Hlt|Hge].
  - assert (SA' : sA = w0) by (clear - SA Hms Hlt; lia).
    destruct T1 as [_ T1]; [exists A; split; [exact HA|by apply MA]|].
    specialize (T1 A HA (MA SA')). fold dA dc in T1.
    clear - T1 Dc EA EB Hms Hlt. lia.
  - assert (SA' : sA = w0 + 1000) by (clear - SA Hms Hge; lia).
    assert (NmA : partsMatch (parts A) desired = false)
      by (apply Nm; fold sA; clear - SA'; lia).
    destruct (Z_lt_le_dec (3 * ms - 1000) 1000) as [Hs|Hs].
    + assert (SB' : sB = w0) by (clear - SB Hms Hge Hs; lia).
      destruct T1 as [T1 _]; [exists B; split; [exact HB|by apply MB]|].
      destruct Hcase as [-> | ->]; [congruence|].
      fold dB. clear - EB Hms Hge. lia.
    + assert (SB' : sB = w0 + 1000) by (clear - SB Hms Hge Hs; lia).
      assert (NmB : partsMatch (parts B) desired = false)
        by (apply Nm; fold sB; clear - SB'; lia).
      destruct (T2 (None NmA NmB)) as [_ T2'];
        [exists A; split; [exact HA|fold sA; clear - SA'; lia]|].
      destruct (T2' B HB) as [_ TB]; [fold sB; clear - SB'; lia|].
      destruct (T2' A HA) as [_ TA]; [fold sA; clear - SA'; lia|].
      assert (LB : dc <= dB).
      { apply TB. destruct Hcase as [-> | ->]; fold sA sB; congruence. }
      clear - LB Dc EA EB Hms Hge. lia.
Qed.

(** X18: away from any change of offset, a wall-clock time without
    milliseconds resolves to itself minus the offset, and is shown again by
    the zone at the result. With milliseconds the result is late: by as many
    milliseconds again below half a second, by twice as many less a second
    from there on, so that only .000 and .500 come out exact. *)
Theorem steady_zone_resolution :
  zonedTimeToUtc y mo d hh mi ss ms zone
  = w - o + (if ms <? 500 then 2 * ms else 3 * ms - 1000)
  /\ (ms = 0 ->
      zonedTimeToUtc y mo d hh mi ss ms zone = w - o /\ wallClock zone (w - o) = w)
  /\ (zonedTimeToUtc y mo d hh mi ss ms zone = w + ms - o <-> ms = 0 \/ ms = 500).
Proof using All.
  destruct sz_facts as (Hms & Hg & Hwm & Hlow & Hf).
  pose proof sz_resolution as R.
  split; [exact R|]. split.
  - intros Hms0. rewrite R, Hms0. cbn [Z.ltb Z.compare]. split; [lia|].
    unfold wallClock. rewrite Hsteady by (unfold msPerDay in *; lia). lia.
  - rewrite R. clear. destruct (Z.ltb_spec ms 500); lia.
Qed.
End SteadyZone.

Lemma steady_zone_resolution_witness :
  zonedTimeToUtc 2026 1 5 8 0 0 250 America_Los_Angeles
  = Date_UTC 2026 0 5 16 0 0 500.
Proof.
  assert (HT : Date_UTC 2026 2 8 10 0 0 0 = 1772964000000) by (vm_compute; reflexivity).
  assert (Hw : partsToUtcMillis {| year := 2026; month := 1; day := 5; hour := 8;
                                   minute := 0; second := 0 |} = 1767600000000)
    by (vm_compute; reflexivity).
  destruct (steady_zone_resolution America_Los_Angeles (-8 * msPerHour)
              2026 1 5 8 0 0 250 "2026-01-05T08:00:00.250") as (H & _).
  - vm_compute. reflexivity.
  - lia.
  - intros t Ht. unfold America_Los_Angeles. rewrite HT. rewrite Hw in Ht.
    unfold msPerDay in Ht.
    destruct (Z.leb_spec 1772964000000 t); [lia|reflexivity].
  - unfold msPerHour, msPerDay. lia.
  - reflexivity.
  - rewrite H, Hw. vm_compute. reflexivity.
Defined.

(** X17: a wall-clock time without milliseconds that a zone shows twice,
    in the overlap of a fall-back of at most an hour, resolves to the earlier
    of the two instants; both instants show it. *)
Theorem fall_back_whole_seconds
    (zone : Z -> Z) (T o1 o2 : Z) (y mo d hh mi ss : Z) (input : string) :
  let desired :=
    {| year := y; month := mo; day := d; hour := hh; minute := mi; second := ss |} in
  let w := partsToUtcMillis desired in
  assertValidLocalDateTime desired 0 input = Ok tt ->
  1000 <= y <= 9999 ->
  (forall t, T - 2 * msPerDay <= t -> t < T -> zone t = o1) ->
  (forall t, T <= t -> t <= T + 2 * msPerDay -> zone t = o2) ->
  o2 < o1 <= o2 + msPerHour ->
  - msPerDay <= o2 /\ o1 <= msPerDay ->
  o1 mod 1000 = 0 /\ o2 mod 1000 = 0 /\ T mod 1000 = 0 ->
  T + o2 <= w < T + o1 ->
  zonedTimeToUtc y mo d hh mi ss 0 zone = w - o1
  /\ w - o1 < T <= w - o2
  /\ wallClock zone (w - o1) = w /\ wallClock zone (w - o2) = w.
Proof.
  intros desired w Hvalid Hyear Hbefore Hafter Hjump Hrange Hseconds Hoverlap.
  exact (fall_back_earlier_instant zone T o1 o2 y mo d hh mi ss input Hvalid Hyear
           Hbefore Hafter Hjump Hrange Hseconds Hoverlap).
Qed.

Lemma fall_back_whole_seconds_witness :
  zonedTimeToUtc 2026 11 1 1 30 0 0 America_Los_Angeles = Date_UTC 2026 10 1 8 30 0 0
  /\ wallClock America_Los_Angeles (Date_UTC 2026 10 1 8 30 0 0)
     = Date_UTC 2026 10 1 1 30 0 0
  /\ wallClock America_Los_Angeles (Date_UTC 2026 10 1 9 30 0 0)
     = Date_UTC 2026 10 1 1 30 0 0.
Proof.
  assert (HT : Date_UTC 2026 2 8 10 0 0 0 = 1772964000000) by (vm_compute; reflexivity).
  assert (HT2 : Date_UTC 2026 10 1 9 0 0 0 = 1793523600000) by (vm_compute; reflexivity).
  assert (Hw : partsToUtcMillis {| year := 2026; month := 11; day := 1; hour := 1;
                                   minute := 30; second := 0 |} = 1793496600000)
    by (vm_compute; reflexivity).
  destruct (fall_back_whole_seconds America_Los_Angeles (Date_UTC 2026 10 1 9 0 0 0)
              (-7 * msPerHour) (-8 * msPerHour) 2026 11 1 1 30 0
              "2026-11-01T01:30:00") as (H & _ & W1 & W2).
  - vm_compute. reflexivity.
  - lia.
  - intros t H1 H2. unfold America_Los_Angeles. rewrite HT, HT2 in *.
    unfold msPerDay in H1.
    destruct (Z.leb_spec 1772964000000 t); [|lia].
    destruct (Z.ltb_spec t 1793523600000); [reflexivity|lia].
  - intros t H1 H2. unfold America_Los_Angeles. rewrite HT, HT2 in *.
    destruct (Z.leb_spec 1772964000000 t); [|reflexivity].
    destruct (Z.ltb_spec t 1793523600000); [lia|reflexivity].
  - unfold msPerHour. lia.
  - unfold msPerHour, msPerDay. lia.
  - vm_compute. auto.
  - rewrite Hw, HT2. unfold msPerHour. lia.
  - rewrite H, Hw. repeat split; vm_compute; reflexivity.
Defined.

(** ** A local time with a zone named by the caller *)

Lemma resolveTimeZone_explicit h tz :
  trim tz <> EmptyString -> resolveTimeZone h (Some tz) = trim tz.
Proof.
  intros N. unfold resolveTimeZone. cbn [nonEmpty].
  destruct (String.eqb_spec tz EmptyString) as [->|_]; [by destruct N|].
  cbn [fmap option_fmap option_map nonEmpty].
  by destruct (String.eqb_spec (trim tz) EmptyString).
Qed.

Lemma parseDeadline_with_zone (h : Host) (input timeZone : string) (m : LocalMatch) :
  test_HAS_TIMEZONE_REGEX (trim input) = false ->
  match_LOCAL_DATETIME_REGEX (trim input) = Some m ->
  trim timeZone <> EmptyString ->
  parseDeadline h (VString input) (Some timeZone)
  = match assertValidLocalDateTime (localParts m) (localMillisecond m) input with
    | Throw e => Throw e
    | Ok _ =>
        match timeZoneDatabase h (trim timeZone) with
        | None => Throw (InvalidTimeZone (trim timeZone))
        | Some zone =>
            Date_toISOString
              (TimeClip
                 (zonedTimeToUtc (year (localParts m)) (month (localParts m))
                    (day (localParts m)) (hour (localParts m))
                    (minute (localParts m)) (second (localParts m))
                    (localMillisecond m) zone))
        end
    end.
Proof.
  intros Ht Hm Hz. unfold parseDeadline. rewrite Ht, Hm.
  fold (localParts m). fold (localMillisecond m).
  destruct (assertValidLocalDateTime _ _ _); [|reflexivity].
  cbn [mbind Outcome_bind].
  rewrite resolveTimeZone_explicit by done.
  destruct (String.eqb_spec (trim timeZone) EmptyString); [contradiction|].
  cbn [negb]. unfold assertValidTimeZone.
  destruct (timeZoneDatabase h (trim timeZone)); reflexivity.
Qed.

(** X19: a date-time without an offset, read with a zone the caller
    names, does not depend on the host: not on its clock, its own zone, its
    environment or the cached account zone, only on what the zone database
    says of the named zone. The name is trimmed; a name the database does
    not know is an invalid-timezone error, raised after the date itself has
    been checked. *)
Theorem parseDeadline_named_zone
    (h : Host) (input timeZone : string) (m : LocalMatch) :
  test_HAS_TIMEZONE_REGEX (trim input) = false ->
  match_LOCAL_DATETIME_REGEX (trim input) = Some m ->
  trim timeZone <> EmptyString ->
  parseDeadline h (VString input) (Some timeZone)
  = match assertValidLocalDateTime (localParts m) (localMillisecond m) input with
    | Throw e => Throw e
    | Ok _ =>
        match timeZoneDatabase h (trim timeZone) with
        | None => Throw (InvalidTimeZone (trim timeZone))
        | Some zone =>
            Date_toISOString
              (TimeClip
                 (zonedTimeToUtc (year (localParts m)) (month (localParts m))
                    (day (localParts m)) (hour (localParts m))
                    (minute (localParts m)) (second (localParts m))
                    (localMillisecond m) zone))
        end
    end
  /\ forall h' : Host,
       timeZoneDatabase h' (trim timeZone) = timeZoneDatabase h (trim timeZone) ->
       parseDeadline h' (VString input) (Some timeZone)
       = parseDeadline h (VString input) (Some timeZone).
Proof.
  intros Ht Hm Hz. split; [by apply parseDeadline_with_zone|].
  intros h' E.
  rewrite (parseDeadline_with_zone h _ _ m), (parseDeadline_with_zone h' _ _ m), E
    by done.
  reflexivity.
Qed.

Lemma parseDeadline_named_zone_witness :
  parseDeadline utcHost (VString "2026-01-05 08:00") (Some " America/New_York "%string)
  = Ok "2026-01-05T13:00:00.000Z"%string
  /\ parseDeadline pacificHost (VString "2026-01-05 08:00")
       (Some " America/New_York "%string)
     = parseDeadline utcHost (VString "2026-01-05 08:00")
         (Some " America/New_York "%string).
Proof.
  destruct (parseDeadline_named_zone utcHost "2026-01-05 08:00" " America/New_York "
              {| yearRaw := list_ascii_of_string "2026";
                 monthRaw := list_ascii_of_string "01";
                 dayRaw := list_ascii_of_string "05";
                 hourRaw := Some (list_ascii_of_string "08");
                 minuteRaw := Some (list_ascii_of_string "00");
                 secondRaw := None; millisecondRaw := None |})
    as [H1 H2].
  - vm_compute. reflexivity.
  - vm_compute. reflexivity.
  - vm_compute. discriminate.
  - split; [rewrite H1; vm_compute; reflexivity|].
    apply H2. reflexivity.
Defined.

(** ** What the local pattern reads *)

Lemma digits_inv n l h r :
  digits n l = Some (h, r) ->
  l = h ++ r /\ length h = n /\ forallb isDigit h = true.
Proof.
  unfold digits.
  destruct (Nat.eqb_spec (length (take n l)) n) as [L|]; [|discriminate].
  destruct (forallb isDigit (take n l)) eqn:F; [|discriminate].
  cbn [andb]. intros [= <- <-]. by rewrite take_drop.
Qed.

Lemma Number_of_digits_app l c :
  Number_of_digits (l ++ [c])
  = 10 * Number_of_digits l + (Z.of_N (N_of_ascii c) - 48).
Proof. unfold Number_of_digits. by rewrite fold_left_app. Qed.

Lemma isDigit_value c :
  isDigit c = true -> 0 <= Z.of_N (N_of_ascii c) - 48 <= 9.
Proof.
  unfold isDigit. intros H. apply andb_prop in H as [H1 H2].
  apply N.leb_le in H1, H2. lia.
Qed.

Lemma Number_of_digits_bounds l :
  forallb isDigit l = true -> 0 <= Number_of_digits l < 10 ^ Z.of_nat (length l).
Proof.
  induction l as [|c l IH] using rev_ind; [cbn; lia|].
  rewrite forallb_app, Number_of_digits_app, length_app. cbn [forallb length].
  intros H. apply andb_prop in H as [Hl Hc]. rewrite andb_true_r in Hc.
  specialize (IH Hl). apply isDigit_value in Hc.
  replace (Z.of_nat (length l + 1)) with (Z.of_nat (length l) + 1) by lia.
  rewrite Z.pow_add_r by lia. lia.
Qed.

Lemma Number_of_digits_padEnd l k :
  Number_of_digits (l ++ repeat "0"%char k) = Number_of_digits l * 10 ^ Z.of_nat k.
Proof.
  induction k as [|k IH]; [rewrite app_nil_r; cbn; lia|].
  replace (repeat "0"%char (S k)) with (repeat "0"%char k ++ ["0"%char])
    by (rewrite <- repeat_cons; reflexivity).
  rewrite app_assoc, Number_of_digits_app, IH.
  replace (Z.of_nat (S k)) with (Z.of_nat k + 1) by lia.
  rewrite Z.pow_add_r by lia. cbn. lia.
Qed.

Lemma optNumber_Some l : optNumber (Some l) = Number_of_digits l.
Proof. by destruct l. Qed.

(** The text of a match, piece by piece. *)
Lemma match_LOCAL_DATETIME_REGEX_inv s m :
  match_LOCAL_DATETIME_REGEX s = Some m ->
  let two (raw : option (list ascii)) :=
    match raw with
    | Some d => length d = 2%nat /\ forallb isDigit d = true
    | None => True
    end in
  length (yearRaw m) = 4%nat /\ forallb isDigit (yearRaw m) = true
  /\ length (monthRaw m) = 2%nat /\ forallb isDigit (monthRaw m) = true
  /\ length (dayRaw m) = 2%nat /\ forallb isDigit (dayRaw m) = true
  /\ two (hourRaw m) /\ two (minuteRaw m) /\ two (secondRaw m)
  /\ match millisecondRaw m with
     | Some f => (1 <= length f <= 3)%nat /\ forallb isDigit f = true
     | None => True
     end
  /\ exists sep,
       (sep = "T"%char \/ isWhiteSpace sep = true)
       /\ list_ascii_of_string s
          = yearRaw m ++ "-"%char :: monthRaw m ++ "-"%char :: dayRaw m
            ++ match hourRaw m with
               | None => []
               | Some hh =>
                   sep :: hh
                   ++ match minuteRaw m with
                      | None => []
                      | Some mi =>
                          ":"%char :: mi
                          ++ match secondRaw m with
                             | None => []
                             | Some ss =>
                                 ":"%char :: ss
                                 ++ match millisecondRaw m with
                                    | None => []
                                    | Some f => "."%char :: f
                                    end
                             end
                      end
               end
       /\ (hourRaw m = None -> minuteRaw m = None)
       /\ (minuteRaw m = None -> secondRaw m = None)
       /\ (secondRaw m = None -> millisecondRaw m = None).
Proof.
  intros H. cbv zeta. unfold match_LOCAL_DATETIME_REGEX in H.
  destruct (digits 4 _) as [[yy r]|] eqn:Ey; [|discriminate]. cbn in H.
  apply digits_inv in Ey as (Ey & Ly & Fy). rewrite Ey. clear Ey.
  destruct r as [|c1 r]; [discriminate|].
  destruct (Ascii.eqb_spec c1 "-") as [->|]; [|discriminate].
  destruct (digits 2 r) as [[mm r1]|] eqn:Em; [|discriminate]. cbn in H.
  apply digits_inv in Em as (-> & Lm & Fm).
  destruct r1 as [|c2 r1]; [discriminate|].
  destruct (Ascii.eqb_spec c2 "-") as [->|]; [|discriminate].
  destruct (digits 2 r1) as [[dd r2]|] eqn:Ed; [|discriminate]. cbn in H.
  apply digits_inv in Ed as (-> & Ld & Fd).
  destruct r2 as [|sep r2].
  { injection H as <-. cbn. rewrite app_nil_r.
    repeat (split; [done|]). exists "T"%char. auto. }
  destruct (Ascii.eqb sep "T" || isWhiteSpace sep) eqn:Es; [|discriminate].
  assert (Hsep : sep = "T"%char \/ isWhiteSpace sep = true).
  { apply orb_prop in Es as [Es|Es]; [left; by apply Ascii.eqb_eq|by right]. }
  destruct (digits 2 r2) as [[hh r3]|] eqn:Eh; [|discriminate]. cbn in H.
  apply digits_inv in Eh as (-> & Lh & Fh).
  unfold matchMinutes in H.
  destruct r3 as [|c3 r3].
  { injection H as <-. cbn. rewrite app_nil_r.
    repeat (split; [done|]). exists sep. auto. }
  destruct (Ascii.eqb_spec c3 ":") as [->|]; [|discriminate].
  destruct (digits 2 r3) as [[mi r4]|] eqn:Emi; [|discriminate]. cbn in H.
  apply digits_inv in Emi as (-> & Lmi & Fmi).
  unfold matchSeconds in H.
  destruct r4 as [|c4 r4].
  { injection H as <-. cbn. rewrite app_nil_r.
    repeat (split; [done|]). exists sep. split; [done|]. split; [done|]. done. }
  destruct (Ascii.eqb_spec c4 ":") as [->|]; [|discriminate].
  destruct (digits 2 r4) as [[ss r5]|] eqn:Ess; [|discriminate]. cbn in H.
  apply digits_inv in Ess as (-> & Lss & Fss).
  unfold matchFraction in H.
  destruct r5 as [|c5 f].
  { injection H as <-. cbn. rewrite app_nil_r.
    repeat (split; [done|]). exists sep. split; [done|]. split; [done|]. done. }
  destruct (Ascii.eqb_spec c5 ".") as [->|]; [|discriminate].
  destruct (Nat.leb_spec 1 (length f)); [|discriminate].
  destruct (Nat.leb_spec (length f) 3); [|discriminate].
  destruct (forallb isDigit f) eqn:Ff; [|discriminate].
  injection H as <-. cbn.
  repeat (split; [done|]). exists sep. split; [done|]. split; [done|]. done.
Qed.

Lemma localMillisecond_value m :
  match millisecondRaw m with
  | Some f => (1 <= length f <= 3)%nat /\ forallb isDigit f = true
  | None => True
  end ->
  0 <= localMillisecond m <= 999
  /\ match millisecondRaw m with
     | Some f =>
         localMillisecond m = Number_of_digits f * 10 ^ (3 - Z.of_nat (length f))
     | None => localMillisecond m = 0
     end.
Proof.
  unfold localMillisecond. destruct (millisecondRaw m) as [f|]; [|cbn; lia].
  intros [L F]. cbn [fmap option_fmap option_map].
  rewrite optNumber_Some. unfold padEnd3. rewrite Number_of_digits_padEnd.
  replace (Z.of_nat (3 - length f)) with (3 - Z.of_nat (length f)) by lia.
  split; [|reflexivity].
  pose proof (Number_of_digits_bounds f F) as B.
  assert (C : length f = 1%nat \/ length f = 2%nat \/ length f = 3%nat) by lia.
  destruct C as [C|[C|C]]; rewrite C in *; cbn in *; lia.
Qed.

Lemma localParts_bounds s m :
  match_LOCAL_DATETIME_REGEX s = Some m ->
  0 <= year (localParts m) <= 9999 /\ 0 <= month (localParts m) <= 99
  /\ 0 <= day (localParts m) <= 99 /\ 0 <= hour (localParts m) <= 99
  /\ 0 <= minute (localParts m) <= 99 /\ 0 <= second (localParts m) <= 99.
Proof.
  intros H. apply match_LOCAL_DATETIME_REGEX_inv in H.
  cbv zeta in H.
  destruct H as (Ly & Fy & Lm & Fm & Ld & Fd & Hh & Hmi & Hs & _).
  assert (T : forall raw : option (list ascii),
             match raw with
             | Some d => length d = 2%nat /\ forallb isDigit d = true
             | None => True
             end -> 0 <= optNumber raw <= 99).
  { intros [d|]; [|cbn; lia]. intros [L F]. rewrite optNumber_Some.
    pose proof (Number_of_digits_bounds d F) as B. rewrite L in B. cbn in B. lia. }
  cbn [localParts year month day hour minute second].
  apply Number_of_digits_bounds in Fy, Fm, Fd. rewrite Ly in Fy. rewrite Lm in Fm.
  rewrite Ld in Fd. cbn in Fy, Fm, Fd.
  pose proof (T _ Hh). pose proof (T _ Hmi). pose proof (T _ Hs). lia.
Qed.

(** X25: of a text that matches the local pattern, the date check
    accepts exactly the date-times that exist from the year 0100 on, so the
    years 0000 to 0099 are always refused; the fraction is never the cause of
    a refusal, and a fraction of one or two digits counts tenths or
    hundredths of a second. *)
Theorem local_match_accepted (s : string) (m : LocalMatch) (originalInput : string) :
  match_LOCAL_DATETIME_REGEX s = Some m ->
  (assertValidLocalDateTime (localParts m) (localMillisecond m) originalInput = Ok tt
   <-> 100 <= year (localParts m)
       /\ 1 <= month (localParts m) <= 12
       /\ 1 <= day (localParts m)
          <= DaysInMonth (year (localParts m)) (month (localParts m))
       /\ hour (localParts m) <= 23 /\ minute (localParts m) <= 59
       /\ second (localParts m) <= 59)
  /\ 0 <= localMillisecond m <= 999
  /\ match millisecondRaw m with
     | Some f =>
         (1 <= length f <= 3)%nat
         /\ localMillisecond m = Number_of_digits f * 10 ^ (3 - Z.of_nat (length f))
     | None => localMillisecond m = 0
     end.
Proof.
  intros H. pose proof (localParts_bounds s m H) as (By & Bm & Bd & Bh & Bmi & Bs).
  pose proof (match_LOCAL_DATETIME_REGEX_inv s m H) as I. cbv zeta in I.
  destruct I as (_ & _ & _ & _ & _ & _ & _ & _ & _ & Hf & _).
  destruct (localMillisecond_value m Hf) as [Bms Vms].
  split; [|split; [exact Bms|]].
  - split.
    + intros V. apply assertValidLocalDateTime_sound in V; [|exact By]. lia.
    + intros (H1 & H2 & H3 & H4 & H5 & H6).
      apply assertValidLocalDateTime_valid; lia.
  - destruct (millisecondRaw m) as [f|]; [|exact Vms]. split; [apply Hf|exact Vms].
Qed.

Lemma local_match_accepted_witness :
  assertValidLocalDateTime
    {| year := 2026; month := 1; day := 5; hour := 8; minute := 30; second := 15 |}
    500 "2026-01-05 08:30:15.5" = Ok tt
  /\ localMillisecond
       {| yearRaw := ["2"; "0"; "2"; "6"]%char; monthRaw := ["0"; "1"]%char;
          dayRaw := ["0"; "5"]%char; hourRaw := Some ["0"; "8"]%char;
          minuteRaw := Some ["3"; "0"]%char; secondRaw := Some ["1"; "5"]%char;
          millisecondRaw := Some ["5"]%char |} = 5 * 10 ^ (3 - 1).
Proof.
  destruct (local_match_accepted "2026-01-05 08:30:15.5"
              {| yearRaw := ["2"; "0"; "2"; "6"]%char; monthRaw := ["0"; "1"]%char;
                 dayRaw := ["0"; "5"]%char; hourRaw := Some ["0"; "8"]%char;
                 minuteRaw := Some ["3"; "0"]%char; secondRaw := Some ["1"; "5"]%char;
                 millisecondRaw := Some ["5"]%char |}
              "2026-01-05 08:30:15.5" eq_refl) as (A & _ & _ & F).
  split; [|exact F].
  apply A. vm_compute. repeat split; discriminate.
Defined.

(** ** The date schemas of the tools and [parseDeadline] *)

Lemma isDigit_not_white_space c : isDigit c = true -> isWhiteSpace c = false.
Proof.
  unfold isDigit, isWhiteSpace. intros H. apply andb_prop in H as [H1 H2].
  apply N.leb_le in H1, H2.
  destruct (N.leb_spec 9 (N_of_ascii c)), (N.leb_spec (N_of_ascii c) 13),
    (N.eqb_spec (N_of_ascii c) 32), (N.eqb_spec (N_of_ascii c) 160);
    cbn; try reflexivity; lia.
Qed.

Lemma digits_1_inv l h r :
  digits 1 l = Some (h, r) ->
  exists a, h = [a] /\ l = a :: r /\ isDigit a = true.
Proof.
  intros H. apply digits_inv in H as (-> & L & F).
  destruct h as [|a [|]]; try discriminate. cbn in F.
  rewrite andb_true_r in F. by exists a.
Qed.

Lemma digits_2_inv l h r :
  digits 2 l = Some (h, r) ->
  exists a b, h = [a; b] /\ l = a :: b :: r /\ isDigit a = true /\ isDigit b = true.
Proof.
  intros H. apply digits_inv in H as (-> & L & F).
  destruct h as [|a [|b [|]]]; try discriminate. cbn in F.
  rewrite andb_true_r in F. apply andb_prop in F as [Fa Fb]. by exists a, b.
Qed.

Lemma digits_3_inv l h r :
  digits 3 l = Some (h, r) ->
  exists a b c, h = [a; b; c] /\ l = a :: b :: c :: r
                /\ isDigit a = true /\ isDigit b = true /\ isDigit c = true.
Proof.
  intros H. apply digits_inv in H as (-> & L & F).
  destruct h as [|a [|b [|c [|]]]]; try discriminate. cbn in F.
  rewrite andb_true_r in F. apply andb_prop in F as [Fa F].
  apply andb_prop in F as [Fb Fc]. by exists a, b, c.
Qed.

Lemma digits_4_inv l h r :
  digits 4 l = Some (h, r) ->
  exists a b c d, h = [a; b; c; d] /\ l = a :: b :: c :: d :: r
                  /\ isDigit a = true /\ isDigit b = true /\ isDigit c = true
                  /\ isDigit d = true.
Proof.
  intros H. apply digits_inv in H as (-> & L & F).
  destruct h as [|a [|b [|c [|d [|]]]]]; try discriminate. cbn in F.
  rewrite andb_true_r in F. apply andb_prop in F as [Fa F].
  apply andb_prop in F as [Fb F]. apply andb_prop in F as [Fc Fd].
  by exists a, b, c, d.
Qed.

Lemma digits_cons_2 a b r :
  isDigit a = true -> isDigit b = true -> digits 2 (a :: b :: r) = Some ([a; b], r).
Proof. intros Ha Hb. unfold digits. cbn. by rewrite Ha, Hb. Qed.

Lemma digits_cons_4 a b c d r :
  isDigit a = true -> isDigit b = true -> isDigit c = true -> isDigit d = true ->
  digits 4 (a :: b :: c :: d :: r) = Some ([a; b; c; d], r).
Proof. intros Ha Hb Hc Hd. unfold digits. cbn. by rewrite Ha, Hb, Hc, Hd. Qed.

Lemma matchDate_inv l r :
  matchDate l = Some r ->
  exists y1 y2 y3 y4 m1 m2 d1 d2,
    l = y1 :: y2 :: y3 :: y4 :: "-"%char :: m1 :: m2 :: "-"%char :: d1 :: d2 :: r
    /\ isDigit y1 = true /\ isDigit y2 = true /\ isDigit y3 = true
    /\ isDigit y4 = true /\ isDigit m1 = true /\ isDigit m2 = true
    /\ isDigit d1 = true /\ isDigit d2 = true.
Proof.
  unfold matchDate. intros H.
  destruct (digits 4 l) as [[yy r0]|] eqn:Ey; [|discriminate]. cbn in H.
  apply digits_4_inv in Ey as (y1 & y2 & y3 & y4 & _ & -> & ? & ? & ? & ?).
  destruct r0 as [|c1 r0]; [discriminate|].
  destruct (Ascii.eqb_spec c1 "-") as [->|]; [|discriminate].
  destruct (digits 2 r0) as [[mm r1]|] eqn:Em; [|discriminate]. cbn in H.
  apply digits_2_inv in Em as (m1 & m2 & _ & -> & ? & ?).
  destruct r1 as [|c2 r1]; [discriminate|].
  destruct (Ascii.eqb_spec c2 "-") as [->|]; [|discriminate].
  destruct (digits 2 r1) as [[dd r2]|] eqn:Ed; [|discriminate]. cbn in H.
  apply digits_2_inv in Ed as (d1 & d2 & _ & -> & ? & ?).
  injection H as <-. by exists y1, y2, y3, y4, m1, m2, d1, d2.
Qed.

Lemma matchOffset_inv r :
  matchOffset r = true ->
  r = [] \/ r = ["z"%char] \/ r = ["Z"%char]
  \/ exists sign a b c d,
       r = [sign; a; b; ":"%char; c; d]
       /\ (sign = "+"%char \/ sign = "-"%char)
       /\ isDigit a = true /\ isDigit b = true /\ isDigit c = true
       /\ isDigit d = true.
Proof.
  destruct r as [|c0 [|a [|b [|colon [|c [|d [|]]]]]]]; cbn [matchOffset];
    try discriminate; [by left| |].
  - intros H. right. apply orb_prop in H as [H|H]; apply Ascii.eqb_eq in H;
      subst; auto.
  - intros H. do 3 right.
    repeat (apply andb_prop in H as [H ?]).
    apply Ascii.eqb_eq in H2 as ->. exists c0, a, b, c, d.
    split; [reflexivity|]. split; [|done].
    apply orb_prop in H as [H|H]; apply Ascii.eqb_eq in H; auto.
Qed.

(** What lies between the minutes and the end of a text the date-time
    schema accepts: seconds, a fraction, an offset. *)
Lemma matchSecondsOffset_inv r :
  matchSecondsOffset r = true ->
  exists seconds fraction offset,
    r = seconds ++ fraction ++ offset
    /\ matchOffset offset = true
    /\ (seconds = []
        \/ exists s1 s2, seconds = [":"%char; s1; s2]
                         /\ isDigit s1 = true /\ isDigit s2 = true)
    /\ (fraction = []
        \/ seconds <> []
           /\ exists f, fraction = "."%char :: f
                        /\ (1 <= length f <= 3)%nat /\ forallb isDigit f = true).
Proof.
  unfold matchSecondsOffset. intros H. apply orb_prop in H as [H|H].
  2: { exists [], [], r. auto. }
  destruct r as [|c r]; [discriminate|].
  apply andb_prop in H as [Hc H]. apply Ascii.eqb_eq in Hc as ->.
  destruct (digits 2 r) as [[ss r1]|] eqn:Es; [|discriminate].
  apply digits_2_inv in Es as (s1 & s2 & _ & -> & Hs1 & Hs2).
  unfold matchFractionOffset in H. apply orb_prop in H as [H|H].
  2: { exists [":"%char; s1; s2], [], r1. split; [reflexivity|]. split; [exact H|].
       split; [right; by exists s1, s2|by left]. }
  destruct r1 as [|c r1]; [discriminate|].
  apply andb_prop in H as [Hc H]. apply Ascii.eqb_eq in Hc as ->.
  cbn [existsb] in H. rewrite orb_false_r in H.
  assert (F : exists f offset,
             r1 = f ++ offset /\ matchOffset offset = true
             /\ (1 <= length f <= 3)%nat /\ forallb isDigit f = true).
  { apply orb_prop in H as [H|H]; [|apply orb_prop in H as [H|H]].
    - destruct (digits 3 r1) as [[f o]|] eqn:E; [|discriminate].
      apply digits_inv in E as (-> & L & F). exists f, o. rewrite L. auto with lia.
    - destruct (digits 2 r1) as [[f o]|] eqn:E; [|discriminate].
      apply digits_inv in E as (-> & L & F). exists f, o. rewrite L. auto with lia.
    - destruct (digits 1 r1) as [[f o]|] eqn:E; [|discriminate].
      apply digits_inv in E as (-> & L & F). exists f, o. rewrite L. auto with lia. }
  destruct F as (f & offset & -> & Ho & Lf & Ff).
  exists [":"%char; s1; s2], ("."%char :: f), offset.
  split; [reflexivity|]. split; [exact Ho|].
  split; [right; by exists s1, s2|]. right. split; [discriminate|]. by exists f.
Qed.

Lemma trimEnd_app_last l c :
  isWhiteSpace c = false -> trimEnd (l ++ [c]) = l ++ [c].
Proof.
  intros H. unfold trimEnd. rewrite rev_app_distr. cbn [rev app dropWhile].
  rewrite H. cbn [rev]. by rewrite rev_involutive.
Qed.

Lemma test_HAS_TIMEZONE_REGEX_offset l sign a b c d :
  sign = "+"%char \/ sign = "-"%char ->
  isDigit a = true -> isDigit b = true -> isDigit c = true -> isDigit d = true ->
  test_HAS_TIMEZONE_REGEX
    (string_of_list_ascii (l ++ [sign; a; b; ":"%char; c; d])) = true.
Proof.
  intros Hs Ha Hb Hc Hd. unfold test_HAS_TIMEZONE_REGEX.
  rewrite list_ascii_of_string_of_list_ascii, rev_app_distr.
  cbn [rev app]. rewrite Ha, Hb, Hc, Hd.
  destruct Hs as [-> | ->]; cbn; apply orb_true_r.
Qed.

Lemma trimEnd_last (l : list ascii) :
  match rev l with c :: _ => isWhiteSpace c = false | [] => True end ->
  trimEnd l = l.
Proof.
  unfold trimEnd. destruct (rev l) as [|c r] eqn:E.
  - intros _. apply (f_equal (@rev _)) in E. rewrite rev_involutive in E. by subst.
  - intros H. cbn [dropWhile]. rewrite H, <- E. apply rev_involutive.
Qed.

Lemma short_digits f :
  (1 <= length f <= 3)%nat -> forallb isDigit f = true ->
  exists f1 r, f = f1 :: r /\ isDigit f1 = true
    /\ (r = [] \/ exists f2 r', r = f2 :: r' /\ isDigit f2 = true
          /\ (r' = [] \/ exists f3, r' = [f3] /\ isDigit f3 = true)).
Proof.
  destruct f as [|f1 [|f2 [|f3 [|]]]]; cbn [length forallb]; intros L F; try lia.
  - rewrite andb_true_r in F. exists f1, []. auto.
  - rewrite andb_true_r in F. apply andb_prop in F as [F1 F2].
    exists f1, [f2]. split; [done|]. split; [done|]. right. exists f2, []. auto.
  - rewrite andb_true_r in F. apply andb_prop in F as [F1 F].
    apply andb_prop in F as [F2 F3].
    exists f1, [f2; f3]. split; [done|]. split; [done|]. right.
    exists f2, [f3]. split; [done|]. split; [done|]. right. by exists f3.
Qed.

(** X26: a date text the tool schemas accept has no white space around
    it and is read by [parseDeadline] either as an absolute time, when it
    ends in an offset, or by the local pattern, with hour and minute when it
    has a time: the engine's own parsing of other texts is never what reads
    it, so the result does not depend on it. *)
Theorem schema_dates_parsed (s : string) :
  test_DATE_TIME_SCHEMA s || test_DATE_ONLY_SCHEMA s = true ->
  trim s = s
  /\ (test_HAS_TIMEZONE_REGEX s = true
      \/ exists m, match_LOCAL_DATETIME_REGEX s = Some m
                   /\ (test_DATE_ONLY_SCHEMA s = true -> hourRaw m = None)
                   /\ (test_DATE_TIME_SCHEMA s = true ->
                       hourRaw m <> None /\ minuteRaw m <> None))
  /\ (test_HAS_TIMEZONE_REGEX s = false ->
      forall (h : Host) (timeZone : option string) (parser : string -> option Z),
        parseDeadline
          {| now := now h; timeZoneDatabase := timeZoneDatabase h;
             hostTimeZone := hostTimeZone h; LocalTZA := LocalTZA h;
             Date_parse := parser;
             MCP_DEFAULT_TIMEZONE := MCP_DEFAULT_TIMEZONE h;
             cachedAccountTimeZone := cachedAccountTimeZone h |}
          (VString s) timeZone
        = parseDeadline h (VString s) timeZone).
Proof.
  intros H.
  assert (Main : trim s = s
                 /\ (test_HAS_TIMEZONE_REGEX s = true
                     \/ exists m, match_LOCAL_DATETIME_REGEX s = Some m
                          /\ (test_DATE_ONLY_SCHEMA s = true -> hourRaw m = None)
                          /\ (test_DATE_TIME_SCHEMA s = true ->
                              hourRaw m <> None /\ minuteRaw m <> None))).
  2: { destruct Main as [T M]. split; [exact T|]. split; [exact M|].
       intros N h tz parser. destruct M as [M|(m & M & _)]; [congruence|].
       unfold parseDeadline. rewrite T, N, M. destruct h. reflexivity. }
  rewrite <- (string_of_list_ascii_of_string s) in *.
  set (l := list_ascii_of_string s) in *. clearbody l. clear s.
  unfold test_DATE_TIME_SCHEMA, test_DATE_ONLY_SCHEMA, trim,
    match_LOCAL_DATETIME_REGEX, test_HAS_TIMEZONE_REGEX in *.
  rewrite !list_ascii_of_string_of_list_ascii in *.
  destruct (matchDate l) as [r|] eqn:Ed; [|discriminate].
  apply matchDate_inv in Ed
    as (y1 & y2 & y3 & y4 & m1 & m2 & d1 & d2 & -> & Hy1 & Hy2 & Hy3 & Hy4
        & Hm1 & Hm2 & Hd1 & Hd2).
  assert (Ts : forall r, trimStart (y1 :: r) = y1 :: r)
    by (intros r'; unfold trimStart; cbn [dropWhile];
        by rewrite (isDigit_not_white_space _ Hy1)).
  rewrite Ts.
  rewrite (digits_cons_4 _ _ _ _ _ Hy1 Hy2 Hy3 Hy4). cbn [mbind option_bind].
  cbn [Ascii.eqb Bool.eqb andb].
  rewrite (digits_cons_2 _ _ _ Hm1 Hm2). cbn [mbind option_bind].
  cbn [Ascii.eqb Bool.eqb andb].
  rewrite (digits_cons_2 _ _ _ Hd1 Hd2). cbn [mbind option_bind].
  destruct r as [|sep r].
  { split.
    - f_equal. apply trimEnd_last. cbn [rev app].
      by apply isDigit_not_white_space.
    - right. eexists. split; [reflexivity|]. split; [reflexivity|discriminate]. }
  rewrite orb_false_r in H. apply andb_prop in H as [Hsep H].
  rewrite Hsep.
  destruct (digits 2 r) as [[hh r1]|] eqn:Eh; [|discriminate].
  apply digits_2_inv in Eh as (h1 & h2 & -> & -> & Hh1 & Hh2).
  destruct r1 as [|c r1]; [discriminate|].
  apply andb_prop in H as [Hc H]. apply Ascii.eqb_eq in Hc as ->.
  destruct (digits 2 r1) as [[mi r2]|] eqn:Emi; [|discriminate].
  apply digits_2_inv in Emi as (mi1 & mi2 & -> & -> & Hmi1 & Hmi2).
  cbn [mbind option_bind].
  unfold matchMinutes. cbn [Ascii.eqb Bool.eqb andb].
  rewrite (digits_cons_2 _ _ _ Hmi1 Hmi2). cbn [mbind option_bind].
  apply matchSecondsOffset_inv in H
    as (seconds & fraction & offset & -> & Ho & Hs & Hf).
  apply matchOffset_inv in Ho.
  assert (W : forall c, isDigit c = true -> isWhiteSpace c = false)
    by apply isDigit_not_white_space.
  destruct Hs as [-> | (s1 & s2 & -> & Hs1 & Hs2)];
    destruct Hf as [-> | (Hne & f & -> & Lf & Ff)];
    try (by destruct Hne).
  3: pose proof (short_digits f Lf Ff)
       as (f1 & fr & -> & Hf1 & [-> | (f2 & fr' & -> & Hf2
                                       & [-> | (f3 & -> & Hf3)])]).
  all: destruct Ho as [-> | [-> | [-> | (sign & a & b & c & d & -> & Hsign
                                         & Ha & Hb & Hc & Hd)]]];
    cbn [app];
    (split;
     [f_equal; apply trimEnd_last; cbn [rev app]; first [by apply W|reflexivity]|]).
  all: try (left; cbn [rev app]; reflexivity).
  all: try (left; cbn [rev app]; rewrite Ha, Hb, Hc, Hd;
            destruct Hsign as [-> | ->]; cbn; apply orb_true_r).
  all: right; unfold matchSeconds, matchFraction;
    cbn [Ascii.eqb Bool.eqb andb mbind option_bind];
    rewrite ?(digits_cons_2 _ _ _ Hs1 Hs2);
    cbn [Ascii.eqb Bool.eqb andb mbind option_bind length Nat.leb forallb];
    rewrite ?Hf1, ?Hf2, ?Hf3;
    cbn [andb mbind option_bind];
    (eexists; split; [reflexivity|]); (split; [discriminate|]);
    intros _; split; discriminate.
Qed.

Lemma schema_dates_parsed_witness :
  exists m, match_LOCAL_DATETIME_REGEX "2026-01-05T08:00" = Some m
            /\ hourRaw m <> None /\ minuteRaw m <> None.
Proof.
  destruct (schema_dates_parsed "2026-01-05T08:00" eq_refl)
    as (_ & [H | (m & E & _ & Hh)] & _).
  - vm_compute in H. discriminate H.
  - exists m. split; [exact E|]. apply Hh. reflexivity.
Defined.

(** ** Reading a local time in UTC and writing it again *)

Lemma fixedWidth_Number_of_digits l :
  forallb isDigit l = true ->
  fixedWidth (length l) (Number_of_digits l) = string_of_list_ascii l.
Proof.
  induction l as [|c l IH] using rev_ind; [reflexivity|].
  rewrite forallb_app, length_app, Nat.add_1_r, Number_of_digits_app.
  cbn [forallb length]. intros H. apply andb_prop in H as [Hl Hc].
  rewrite andb_true_r in Hc. cbn [fixedWidth].
  pose proof (isDigit_value c Hc) as V.
  replace ((10 * Number_of_digits l + (Z.of_N (N_of_ascii c) - 48)) / 10)
    with (Number_of_digits l) by lia.
  replace ((10 * Number_of_digits l + (Z.of_N (N_of_ascii c) - 48)) mod 10)
    with (Z.of_N (N_of_ascii c) - 48) by lia.
  rewrite IH by exact Hl.
  replace (48 + Z.to_N (Z.of_N (N_of_ascii c) - 48))%N with (N_of_ascii c) by lia.
  rewrite ascii_N_embedding.
  rewrite <- (string_of_list_ascii_of_string (_ +:+ _)).
  rewrite list_ascii_of_string_app, list_ascii_of_string_of_list_ascii.
  reflexivity.
Qed.

Lemma fixedWidth_optNumber (raw : option (list ascii)) :
  match raw with
  | Some d => length d = 2%nat /\ forallb isDigit d = true
  | None => True
  end ->
  fixedWidth 2 (optNumber raw)
  = string_of_list_ascii (default ["0"; "0"]%char raw).
Proof.
  destruct raw as [d|]; [|reflexivity]. intros [L F].
  rewrite optNumber_Some, <- L. by apply fixedWidth_Number_of_digits.
Qed.

(** X27: in a zone that is always at UTC, a valid local date-time
    without a fraction (years 1000 to 9999) comes back as the text that was
    read: the same digits for the date and the time, T between them, 00 for
    each part of the time that was left out, and .000Z at the end. *)
Theorem parseDeadline_UTC_round_trip
    (h : Host) (input timeZone : string) (m : LocalMatch) (zone : Z -> Z) :
  test_HAS_TIMEZONE_REGEX (trim input) = false ->
  match_LOCAL_DATETIME_REGEX (trim input) = Some m ->
  millisecondRaw m = None ->
  assertValidLocalDateTime (localParts m) (localMillisecond m) input = Ok tt ->
  1000 <= year (localParts m) ->
  trim timeZone <> EmptyString ->
  timeZoneDatabase h (trim timeZone) = Some zone ->
  (forall t, zone t = 0) ->
  parseDeadline h (VString input) (Some timeZone)
  = Ok (string_of_list_ascii (yearRaw m)
        +:+ "-" +:+ string_of_list_ascii (monthRaw m)
        +:+ "-" +:+ string_of_list_ascii (dayRaw m)
        +:+ "T" +:+ string_of_list_ascii (default ["0"; "0"]%char (hourRaw m))
        +:+ ":" +:+ string_of_list_ascii (default ["0"; "0"]%char (minuteRaw m))
        +:+ ":" +:+ string_of_list_ascii (default ["0"; "0"]%char (secondRaw m))
        +:+ ".000Z").
Proof.
  intros Ht Hm Hf Hv Hy Hz Hdb Hzone.
  rewrite (parseDeadline_with_zone h _ _ m) by done. rewrite Hv, Hdb.
  assert (Ems : localMillisecond m = 0)
    by (unfold localMillisecond; rewrite Hf; reflexivity).
  rewrite Ems in *.
  pose proof (localParts_bounds _ _ Hm) as (By & _).
  pose proof (match_LOCAL_DATETIME_REGEX_inv _ _ Hm) as I. cbv zeta in I.
  destruct I as (Ly & Fy & Lm & Fm & Ld & Fd & Hh & Hmi & Hs & _).
  pose proof (assertValidLocalDateTime_sound _ _ _ By Hv)
    as (V1 & V2 & V3 & V4 & V5 & V6 & V7).
  rewrite (sz_resolution zone 0 (year (localParts m)) (month (localParts m))
             (day (localParts m)) (hour (localParts m)) (minute (localParts m))
             (second (localParts m)) 0 input).
  2: exact Hv.
  2: lia.
  2: intros t _; apply Hzone.
  2: unfold msPerDay; lia.
  2: reflexivity.
  cbn [Z.ltb Z.compare]. rewrite Z.sub_0_r, Z.add_0_r.
  unfold partsToUtcMillis. cbn [year month day hour minute second].
  assert (D31 : day (localParts m) <= 31).
  { revert V3. unfold DaysInMonth.
    destruct (_ =? 2); [destruct (isLeapYear _)|destruct (_ || _)]; lia. }
  rewrite Date_UTC_TimeClip by lia. cbn [Date_toISOString]. f_equal.
  destruct (Date_UTC_fields (year (localParts m)) (month (localParts m))
              (day (localParts m)) (hour (localParts m)) (minute (localParts m))
              (second (localParts m)) 0) as (E1 & E2 & E3 & E4 & E5 & E6 & E7);
    try lia.
  unfold toISOString. rewrite E1, E2, E3, E4, E5, E6, E7.
  replace ((0 <=? year (localParts m)) && (year (localParts m) <=? 9999)) with true
    by (symmetry; apply andb_true_iff; split; apply Z.leb_le; lia).
  cbn [localParts year month day hour minute second].
  rewrite <- Ly at 1. rewrite <- Lm at 1. rewrite <- Ld at 1.
  rewrite !fixedWidth_Number_of_digits by done.
  rewrite !fixedWidth_optNumber by done.
  reflexivity.
Qed.

Lemma parseDeadline_UTC_round_trip_witness :
  parseDeadline utcHost (VString " 2026-01-05 08:30 ") (Some "UTC")
  = Ok "2026-01-05T08:30:00.000Z"%string.
Proof.
  apply (parseDeadline_UTC_round_trip utcHost " 2026-01-05 08:30 " "UTC"
           {| yearRaw := ["2"; "0"; "2"; "6"]%char; monthRaw := ["0"; "1"]%char;
              dayRaw := ["0"; "5"]%char; hourRaw := Some ["0"; "8"]%char;
              minuteRaw := Some ["3"; "0"]%char; secondRaw := None;
              millisecondRaw := None |} Etc_UTC).
  - reflexivity.
  - reflexivity.
  - reflexivity.
  - vm_compute. reflexivity.
  - vm_compute. discriminate.
  - discriminate.
  - reflexivity.
  - reflexivity.
Defined.

Lemma filterActiveTasks_elem tasks task :
  task ∈ filterActiveTasks (Some tasks) <->
  task ∈ tasks
  /\ exists o, task = Some o /\ truthy (prop o "deleted") = false
               /\ prop o "status" <> VString "ARCHIVED"
               /\ prop o "status" <> VString "CANCELLED".
Proof.
  unfold filterActiveTasks. rewrite !list_elem_of_In, filter_In.
  split.
  - intros [Hin Hk]. split; [exact Hin|]. destruct task as [o|]; [|discriminate].
    exists o. apply andb_prop in Hk as [Hk H3]. apply andb_prop in Hk as [H1 H2].
    apply bool_decide_eq_true in H2, H3. apply negb_true_iff in H1. done.
  - intros [Hin (o & -> & H1 & H2 & H3)]. split; [exact Hin|].
    rewrite H1. cbn [negb andb].
    by rewrite !bool_decide_eq_true_2.
Qed.

Lemma filter_filter_same {A} (p : A -> bool) (l : list A) :
  List.filter p (List.filter p l) = List.filter p l.
Proof.
  induction l as [|x l IH]; [reflexivity|]. cbn [List.filter].
  destruct (p x) eqn:E; [|exact IH]. cbn [List.filter]. by rewrite E, IH.
Qed.

Lemma filter_sublist {A} (p : A -> bool) (l : list A) : sublist (List.filter p l) l.
Proof.
  induction l as [|x l IH]; [constructor|]. cbn [List.filter].
  destruct (p x); by constructor.
Qed.

(** X22: the active filter keeps exactly the tasks that exist, are not
    deleted and whose status is neither ARCHIVED nor CANCELLED, in their
    order; a task whose status is COMPLETE stays. Filtering twice changes
    nothing more, and anything that is not an array gives the empty list. *)
Theorem filterActiveTasks_active (tasks : list (option JSObject)) :
  sublist (filterActiveTasks (Some tasks)) tasks
  /\ (forall task,
        task ∈ filterActiveTasks (Some tasks) <->
        task ∈ tasks
        /\ exists o, task = Some o /\ truthy (prop o "deleted") = false
                     /\ prop o "status" <> VString "ARCHIVED"
                     /\ prop o "status" <> VString "CANCELLED")
  /\ (forall o, Some o ∈ tasks -> truthy (prop o "deleted") = false ->
                prop o "status" = VString "COMPLETE" ->
                Some o ∈ filterActiveTasks (Some tasks))
  /\ filterActiveTasks (Some (filterActiveTasks (Some tasks)))
     = filterActiveTasks (Some tasks)
  /\ filterActiveTasks None = [].
Proof.
  split; [apply filter_sublist|]. split; [apply filterActiveTasks_elem|].
  split; [|split; [apply filter_filter_same|reflexivity]].
  intros o Hin Hd Hs. apply filterActiveTasks_elem. split; [exact Hin|].
  exists o. rewrite Hs. done.
Qed.

(** X23: the derived defaults that [getTaskDefaults] reports are the
    category, sub-type and priority a created task gets when its input
    leaves the three open; the reported chunk length is the one the tools
    convert minutes with, and the account defaults are passed on as found. *)
Theorem getTaskDefaults_predicts_create
    (accountDefaults : option JSObject) (taskData : JSObject) :
  isUndefined (prop taskData "eventCategory") = true ->
  isUndefined (prop taskData "eventSubType") = true ->
  isUndefined (prop taskData "priority") = true ->
  match getTaskDefaults accountDefaults with
  | Ok report =>
      chunkMinutes report = CHUNK_MINUTES
      /\ defaults report = default ∅ accountDefaults
      /\ dom (derivedDefaults report)
         = {["eventCategory"; "eventSubType"; "priority"]}%string
      /\ (prop (derivedDefaults report) "eventSubType"
          = VString (if bool_decide (prop (derivedDefaults report) "eventCategory"
                                     = VString "PERSONAL")
                     then "OTHER_PERSONAL" else "FOCUS"))
      /\ match applyTaskDefaultsForCreate taskData accountDefaults with
         | Ok output =>
             forall k, k ∈ ["eventCategory"; "eventSubType"; "priority"]%string ->
                       prop output k = prop (derivedDefaults report) k
         | Throw _ => True
         end
  | Throw e =>
      applyTaskDefaultsForCreate taskData accountDefaults = Throw e
  end.
Proof.
  intros Uc Us Up.
  assert (D : defaultEnums accountDefaults taskData
              = (category ← normalizeEventCategory VUndefined
                              (optProp accountDefaults "category");
                 eventSubType ← normalizeEventSubType VUndefined category;
                 priority ← normalizePriority VUndefined
                              (optProp accountDefaults "priority");
                 Ok (<["priority" := VString priority]>
                       (<["eventSubType" := VString eventSubType]>
                          (<["eventCategory" := VString category]> taskData))))).
  { unfold defaultEnums. rewrite Uc.
    apply isUndefined_true in Uc, Us, Up. rewrite Uc, Us.
    cbn [inferCategoryFromSubType normalizeEnumValue truthy negb mbind Outcome_bind
         nullish].
    destruct (normalizeEventCategory _ _) as [category|]; [|reflexivity].
    cbn [mbind Outcome_bind]. prop_simpl. rewrite Us.
    destruct (normalizeEventSubType _ _) as [subType|]; [|reflexivity].
    cbn [mbind Outcome_bind]. prop_simpl. by rewrite Up. }
  unfold getTaskDefaults.
  destruct (normalizeEventCategory VUndefined _) as [category|e] eqn:E1;
    cbn [mbind Outcome_bind] in *;
    [|unfold applyTaskDefaultsForCreate; by rewrite D].
  assert (E2 : normalizeEventSubType VUndefined category
               = Ok (if String.eqb category "PERSONAL" then "OTHER_PERSONAL"
                     else "FOCUS")%string) by reflexivity.
  rewrite E2 in *. cbn [mbind Outcome_bind] in *.
  destruct (normalizePriority VUndefined _) as [priority|e] eqn:E3;
    cbn [mbind Outcome_bind] in *;
    [|unfold applyTaskDefaultsForCreate; by rewrite D].
  cbn [chunkMinutes defaults derivedDefaults].
  split; [reflexivity|]. split; [reflexivity|].
  split.
  { unfold object. cbn [list_to_map foldr uncurry fst snd].
    rewrite !dom_insert_L, dom_empty_L. set_solver. }
  split.
  { unfold object. cbn [list_to_map foldr uncurry fst snd]. prop_simpl.
    destruct (String.eqb_spec category "PERSONAL") as [->|N].
    - by rewrite bool_decide_eq_true_2.
    - rewrite bool_decide_eq_false_2; [reflexivity|]. by intros [= ->]. }
  destruct (applyTaskDefaultsForCreate taskData accountDefaults) as [output|] eqn:E;
    [|exact I].
  destruct (applyTaskDefaultsForCreate_steps _ _ _ E)
    as (o1 & o2 & o3 & F1 & F2 & F3 & F4).
  rewrite D in F1. injection F1 as <-.
  pose proof (defaultTimeChunksRequired_cases accountDefaults
                (defaultFlags accountDefaults
                   (<["priority" := VString priority]>
                      (<["eventSubType" := VString
                           (if String.eqb category "PERSONAL" then "OTHER_PERSONAL"
                            else "FOCUS")%string]>
                         (<["eventCategory" := VString category]> taskData))))) as C2.
  rewrite F2 in C2. destruct C2 as [G2 _].
  pose proof (defaultChunkSizes_cases accountDefaults o2) as C3.
  rewrite F3 in C3. destruct C3 as (G3 & _ & _).
  pose proof (clampChunkSizes_cases o3) as C4. rewrite F4 in C4.
  destruct C4 as (_ & _ & G4).
  intros k Hk. unfold object. cbn [list_to_map foldr uncurry fst snd].
  repeat (apply elem_of_cons in Hk as [->|Hk]);
    [..|by apply elem_of_nil in Hk];
    (rewrite G4, G3, G2, defaultFlags_frame by done); by prop_simpl.
Qed.

Lemma getTaskDefaults_predicts_create_witness :
  match getTaskDefaults (Some (object [("category"%string, VString "personal");
                                ("priority"%string, VString "p2")])) with
  | Ok report =>
      chunkMinutes report = CHUNK_MINUTES
      /\ defaults report
         = default ∅ (Some (object [("category"%string, VString "personal");
                                ("priority"%string, VString "p2")]))
      /\ dom (derivedDefaults report)
         = {["eventCategory"; "eventSubType"; "priority"]}%string
      /\ (prop (derivedDefaults report) "eventSubType"
          = VString (if bool_decide (prop (derivedDefaults report) "eventCategory"
                                     = VString "PERSONAL")
                     then "OTHER_PERSONAL" else "FOCUS"))
      /\ match applyTaskDefaultsForCreate (object [("title"%string, VString "Plan")])
                (Some (object [("category"%string, VString "personal");
                                ("priority"%string, VString "p2")])) with
         | Ok output =>
             forall k, k ∈ ["eventCategory"; "eventSubType"; "priority"]%string ->
                       prop output k = prop (derivedDefaults report) k
         | Throw _ => True
         end
  | Throw e =>
      applyTaskDefaultsForCreate (object [("title"%string, VString "Plan")])
        (Some (object [("category"%string, VString "personal");
                                ("priority"%string, VString "p2")])) = Throw e
  end.
Proof.
  apply (getTaskDefaults_predicts_create
           (Some (object [("category"%string, VString "personal");
                                ("priority"%string, VString "p2")]))
           (object [("title"%string, VString "Plan")]));
    vm_compute; reflexivity.
Defined.

(** X24: logging work checks the minutes first; an [end] that is given
    is sent exactly as [parseDeadline] resolved it, a full UTC instant (the
    branch for a ten-character date is never taken), and an [end] that is
    refused stops the call with the cause; without an [end], or with an empty
    one, none is sent. *)
Theorem logWorkForTask_request
    (h : Host) (taskId minutes : Z) (endInput timeZone : option string) :
  match logWorkForTask h taskId minutes endInput timeZone with
  | Sent (PostLogWork id sentMinutes endParam) =>
      id = taskId /\ sentMinutes = minutes /\ 0 < minutes
      /\ match endParam with
         | Some iso =>
             exists e t,
               endInput = Some e
               /\ parseDeadline h (VString e) (resolvedTimeZone h timeZone) = Ok iso
               /\ iso = toISOString t
         | None => endInput = None \/ endInput = Some EmptyString
         end
  | Sent (PostAddTime _ _) => False
  | Refused (MinutesNotPositive purpose) =>
      minutes <= 0 /\ purpose = "log work"%string
  | Refused (InvalidEndDate e dateError) =>
      0 < minutes /\ endInput = Some e
      /\ parseDeadline h (VString e) (resolvedTimeZone h timeZone) = Throw dateError
  end.
Proof.
  unfold logWorkForTask. destruct (Z.leb_spec minutes 0) as [Hm|Hm]; [done|].
  destruct endInput as [e|]; cbn [nonEmpty]; [|by auto].
  destruct (String.eqb_spec e EmptyString) as [->|Hne]; [by auto|].
  destruct (parseDeadline h (VString e) _) as [iso|dateError] eqn:E;
    cbn [mbind Outcome_bind]; [|done].
  destruct (parseDeadline_Ok _ _ _ _ E) as [t ->].
  assert (L : (String.length (toISOString t) =? 10)%nat = false).
  { rewrite length_toISOString. by destruct (_ && _). }
  rewrite L. repeat split; try done. by exists e, t.
Qed.
